(** * csv_chatbot: a shallow embedding of [app.py] and [rag.py]

    The repository holds two programs.  [rag.py] is a console script that
    turns CSV rows into sentences, indexes them and answers questions in
    a read-eval loop; [app.py] is a Streamlit page that forwards chat
    questions to a dataframe question-answering library.

    Python strings are modelled as [string] (their UTF-8 bytes), Python
    lists as [list], dicts used as maps as [gmap], and the calls into
    third-party libraries (pandas, LangChain, FAISS, PandasAI,
    Streamlit's table widget, the hosted model) as operations of type
    classes: the development proves what the repository's own code does
    with whatever those calls return or raise. *)

From Stdlib Require Import String Ascii ZArith List Bool Lia DecimalString.
From stdpp Require Import base option list gmap strings pretty.

Local Open Scope string_scope.
Local Open Scope list_scope.
#[local] Set Warnings "-register-all".

(** ** Python values shared by both programs *)

(** The double quote character, for string constants that contain it. *)
Definition dq : string := String (ascii_of_nat 34) EmptyString.
(** A line feed. *)
Definition nl : string := String (ascii_of_nat 10) EmptyString.

(** Exceptions: the instances of Python's [Exception] class that the two
    programs name or that a library call may raise.  Interpreter-exit
    signals ([KeyboardInterrupt], [SystemExit]) end the process and are
    not values of this type. *)
Inductive exn : Type :=
| ExecuteSQLQueryNotUsed (msg : string)
| ValueError (msg : string)
| KeyError (key : string)
| EOFError
| FileNotFoundError (path : string)
| LibraryError (cls msg : string).

(** [str(e)], as printed by [f"{e}"]. *)
Definition exn_str (e : exn) : string :=
  match e with
  | ExecuteSQLQueryNotUsed m => m
  | ValueError m => m
  | KeyError k => "'" +:+ k +:+ "'"
  | EOFError => ""
  | FileNotFoundError p => "[Errno 2] No such file or directory: '" +:+ p +:+ "'"
  | LibraryError _ m => m
  end.

(** What a call does: it returns a value or raises. *)
Inductive outcome (A : Type) : Type :=
| Returned (a : A)
| Raised (e : exn).
Arguments Returned {A} a.
Arguments Raised {A} e.

(** Truth value of an [Optional[str]]: [None] and [""] are false. *)
Definition truthy (v : option string) : bool :=
  match v with
  | None => false
  | Some s => negb (String.eqb s "")
  end.

(** Python's built-in [all] on a list of such values. *)
Definition py_all (vs : list (option string)) : bool := forallb truthy vs.

(** [sep.join(parts)]. *)
Definition str_join (sep : string) (parts : list string) : string :=
  String.concat sep parts.

(** [os.environ] after [load_dotenv]: entries of the dotenv file are
    added to the environment; with [override] they replace entries that
    are already set, without it they only fill the missing ones. *)
Definition load_dotenv (override : bool) (dotenv environ : gmap string string)
  : gmap string string :=
  if override then dotenv ∪ environ else environ ∪ dotenv.

Definition getenv (environ : gmap string string) (name : string) : option string :=
  environ !! name.

(** The four variables both programs require, and what it is for one of
    them to be present. *)
Definition required_variables : list string :=
  ["AZURE_OPENAI_API_KEY"; "AZURE_OPENAI_ENDPOINT";
   "AZURE_OPENAI_DEPLOYMENT"; "AZURE_OPENAI_API_VERSION"].

Definition present (env : gmap string string) (name : string) : Prop :=
  exists s, env !! name = Some s /\ s <> "".

Definition absent_or_empty (env : gmap string string) (name : string) : Prop :=
  env !! name = None \/ env !! name = Some "".

(** ** rag.py *)

Module Rag.

(** *** Data: dataframes and documents *)

(** The column types [pd.read_csv] infers. *)
Inductive dtype : Type := int64 | float64 | bool_ | object_.

(** How the CSV parser of pandas reads one field, and the float that a
    large integer becomes.  A float is given by the text Python prints
    for it, which determines it. *)
Class Pandas : Type := {
  (** The fields taken for missing values: the empty field, [NA],
      [NaN], [null] and the like. *)
  is_na : string -> bool;
  (** The field as an [int64], when it is an integer literal in range. *)
  to_int64 : string -> option Z;
  (** The field as a [float64], when it is a number. *)
  to_float64 : string -> option string;
  (** The field as a [bool], when it is one of the words for true and
      false. *)
  to_bool : string -> option bool;
  (** [str(float(z))] for an integer beyond 2^53, where the conversion
      rounds. *)
  str_of_rounded : Z -> string
}.

(** One cell of a dataframe as pandas holds it after parsing.  The three
    missing-value markers are the ones [pd.notna] rejects; a float keeps
    the text Python prints for it. *)
Inductive cell : Type :=
| CNaN
| CNone
| CNaT
| CStr (s : string)
| CInt (z : Z)
| CBool (b : bool)
| CFloat (shown : string).

(** [pd.notna(val)] on a scalar. *)
Definition notna (c : cell) : bool :=
  match c with
  | CNaN | CNone | CNaT => false
  | _ => true
  end.

(** [f"{val}"]. *)
Definition format_cell (c : cell) : string :=
  match c with
  | CNaN => "nan"
  | CNone => "None"
  | CNaT => "NaT"
  | CStr s => s
  | CInt z => pretty z
  | CBool true => "True"
  | CBool false => "False"
  | CFloat shown => shown
  end.

(** A row as [row.items()] yields it: (column label, value) pairs in
    column order. *)
Abbreviation row := (list (string * cell)).

(** A dataframe: the column labels, the type of each column, and the
    cells row by row. *)
Record DataFrame : Type := {
  columns : list string;
  dtypes : list dtype;
  values : list (list cell)
}.

(** The type that holds values of two column types: integers and floats
    meet in [float64], anything else that differs in [object]. *)
Definition common_type (a b : dtype) : dtype :=
  match a, b with
  | int64, int64 => int64
  | int64, float64 | float64, int64 | float64, float64 => float64
  | bool_, bool_ => bool_
  | _, _ => object_
  end.

(** The type of a row taken across the columns. *)
Definition find_common_type (ds : list dtype) : dtype :=
  match ds with
  | [] => object_
  | d :: rest => foldl common_type d rest
  end.

Record Document : Type := {
  page_content : string;
  metadata : gmap string string
}.

(** The content of a CSV file: the labels of the header line and the
    fields of each data line, as text.  A line shorter than the header
    is filled up with empty fields. *)
Record csv_file : Type := {
  header : list string;
  records : list (list string)
}.

Definition field_of (record : list string) (j : nat) : string :=
  default "" (record !! j).

Definition some {A : Type} (o : option A) : bool :=
  match o with
  | Some _ => true
  | None => false
  end.

(** The ways the parser reads a column.  It tries integers first; with
    a missing value among them the column becomes [float64].  Then it
    tries floats, then booleans, which with a missing value among them
    stay in an [object] column; what is left is text. *)
Inductive reading : Type :=
| AsInt | IntAsFloat | AsFloat | AsBool | BoolAsObject | AsText.

Definition dtype_of (rd : reading) : dtype :=
  match rd with
  | AsInt => int64
  | IntAsFloat | AsFloat => float64
  | AsBool => bool_
  | BoolAsObject | AsText => object_
  end.

Section Frames.

Context {Pd : Pandas}.

(** An [int64] cast to [float64], as [str] prints the result: exact up to
    2^53, and then with a fractional part of zero. *)
Definition astype_float64 (z : Z) : string :=
  if bool_decide (Z.abs z <= 2 ^ 53)%Z then pretty z +:+ ".0" else str_of_rounded z.

(** A cell of a row of type [d]: in a [float64] row the integers are
    floats; in an [object] row every value is kept as it is. *)
Definition upcast (d : dtype) (c : cell) : cell :=
  match d, c with
  | float64, CInt z => CFloat (astype_float64 z)
  | _, _ => c
  end.

(** [df.iterrows()], without the index labels the loop discards: each
    row is one Series over the columns, so its values are cast to the
    common type of the columns. *)
Definition iterrows (df : DataFrame) : list row :=
  map (fun r => zip (columns df) (map (upcast (find_common_type (dtypes df))) r))
      (values df).

(** The reading of a column, from the fields of the lines that are
    read. *)
Definition infer (fields : list string) : reading :=
  match fields with
  | [] => AsText
  | _ =>
      if forallb (fun s => is_na s || some (to_int64 s)) fields then
        if existsb is_na fields then IntAsFloat else AsInt
      else if forallb (fun s => is_na s || some (to_float64 s)) fields then
        AsFloat
      else if forallb (fun s => is_na s || some (to_bool s)) fields then
        if existsb is_na fields then BoolAsObject else AsBool
      else AsText
  end.

(** The cell a field becomes under the reading of its column. *)
Definition convert (rd : reading) (s : string) : cell :=
  match rd with
  | AsInt => from_option CInt CNaN (to_int64 s)
  | IntAsFloat =>
      if is_na s then CNaN
      else from_option (fun z => CFloat (astype_float64 z)) CNaN (to_int64 s)
  | AsFloat => if is_na s then CNaN else from_option CFloat CNaN (to_float64 s)
  | AsBool => from_option CBool CNaN (to_bool s)
  | BoolAsObject => if is_na s then CNaN else from_option CBool CNaN (to_bool s)
  | AsText => if is_na s then CNaN else CStr s
  end.

(** The reading of each column of the header over the given lines. *)
Definition readings (labels : list string) (lines : list (list string))
  : list reading :=
  imap (fun j _ => infer (map (fun record => field_of record j) lines)) labels.

(** The dataframe of the given lines under the given readings. *)
Definition frame_of (labels : list string) (rds : list reading)
    (lines : list (list string)) : DataFrame :=
  {| columns := labels;
     dtypes := map dtype_of rds;
     values := map (fun record => imap (fun j rd => convert rd (field_of record j)) rds)
                   lines |}.

(** What [pd.read_csv(path, nrows=n)] makes of a file: the first [n]
    data lines, each column read the way those lines allow. *)
Definition read_frame (f : csv_file) (nrows : nat) : DataFrame :=
  let lines := take nrows (records f) in
  frame_of (header f) (readings (header f) lines) lines.

(** [pd.read_csv(path, nrows=n)] on a file system [fs]; a missing file
    raises. *)
Definition read_csv (fs : gmap string csv_file) (path : string) (nrows : nat)
  : outcome DataFrame :=
  match fs !! path with
  | None => Raised (FileNotFoundError path)
  | Some f => Returned (read_frame f nrows)
  end.

(** *** 3. Convert rows to text *)

(** The body of the [for col, val in row.items()] loop. *)
Definition append_part (parts : list string) (item : string * cell) : list string :=
  if notna item.2
  then parts ++ [item.1 +:+ ": " +:+ format_cell item.2]
  else parts.

Definition create_readable_text_from_row (r : row) : string :=
  str_join ". " (foldl append_part [] r) +:+ ".".

(** The body of the [for _, row in df.iterrows()] loop. *)
Definition append_doc (source : string) (docs : list Document) (r : row)
  : list Document :=
  docs ++ [ {| page_content := create_readable_text_from_row r;
               metadata := {[ "source" := source ]} |} ].

Definition df_to_documents (df : DataFrame) (source : string) : list Document :=
  foldl (append_doc source) [] (iterrows df).

End Frames.

(** *** Console and hosted model *)

(** [s.lower()] on the ASCII letters.  Python also lowers letters
    outside ASCII; none of them becomes a letter of the three words the
    loop compares with, so the comparison below is not affected. *)
Definition lower_ascii (c : ascii) : ascii :=
  let n := nat_of_ascii c in
  if (65 <=? n)%nat && (n <=? 90)%nat then ascii_of_nat (n + 32) else c.

Fixpoint lower (s : string) : string :=
  match s with
  | EmptyString => EmptyString
  | String c s' => String (lower_ascii c) (lower s')
  end.

(** [x in words] on a list of strings. *)
Definition str_in (x : string) (words : list string) : bool :=
  existsb (String.eqb x) words.

Record HuggingFaceEmbeddings : Type := { model_name : string }.

(** The vector index: the indexed documents and the embedding model.
    The vectors themselves are the library's. *)
Record FAISS : Type := {
  docstore : list Document;
  embedding_function : HuggingFaceEmbeddings
}.

Record VectorStoreRetriever : Type := {
  vectorstore : FAISS;
  search_type : string;
  search_kwargs : gmap string nat
}.

Record AzureChatOpenAI : Type := {
  azure_endpoint : string;
  api_key : string;
  api_version : string;
  deployment_name : string;
  temperature : Z
}.

Record PromptTemplate : Type := {
  template : string;
  input_variables : list string
}.

(** A LangChain runnable, as the object graph the script builds. *)
Inductive Runnable : Type :=
| RRetriever (r : VectorStoreRetriever)
| RPassthrough
| RParallel (steps : list (string * Runnable))
| RPrompt (p : PromptTemplate)
| RChatModel (m : AzureChatOpenAI)
| RStrOutputParser
| RSequence (first last : Runnable).

(** The values that flow between runnables. *)
Inductive value : Type :=
| VStr (s : string)
| VDocs (ds : list Document)
| VDict (items : list (string * value))
| VPromptValue (text : string)
| VMessage (content : string).

(** [FAISS.from_documents]: the index dimension is read off the first
    embedding, so an empty document list raises. *)
Definition from_documents (docs : list Document) (emb : HuggingFaceEmbeddings)
  : outcome FAISS :=
  match docs with
  | [] => Raised (LibraryError "IndexError" "list index out of range")
  | _ => Returned {| docstore := docs; embedding_function := emb |}
  end.

Definition as_retriever (vs : FAISS) (st : string) (kw : gmap string nat)
  : VectorStoreRetriever :=
  {| vectorstore := vs; search_type := st; search_kwargs := kw |}.

(** Dict lookup in an ordered dict. *)
Fixpoint assoc {A : Type} (k : string) (d : list (string * A)) : option A :=
  match d with
  | [] => None
  | (k', v) :: d' => if String.eqb k k' then Some v else assoc k d'
  end.

Definition prepend (s : string) (r : outcome string) : outcome string :=
  match r with
  | Returned t => Returned (s +:+ t)
  | Raised e => Raised e
  end.

(** [template.format] on keyword arguments [kw], for replacement fields that are plain names:
    [{name}] is replaced by [kw[name]], doubled braces stand for a brace.
    [field] holds the name read so far while inside a field. *)
Fixpoint vformat (t : string) (field : option string) (kw : list (string * string))
  : outcome string :=
  match field with
  | Some name =>
      match t with
      | EmptyString => Raised (ValueError "expected '}' before end of string")
      | String c t' =>
          if Ascii.eqb c "}"%char
          then match assoc name kw with
               | None => Raised (KeyError name)
               | Some v => prepend v (vformat t' None kw)
               end
          else vformat t' (Some (name +:+ String c EmptyString)) kw
      end
  | None =>
      match t with
      | EmptyString => Returned EmptyString
      | String c t' =>
          if Ascii.eqb c "{"%char then
            match t' with
            | String c' t'' =>
                if Ascii.eqb c' "{"%char
                then prepend "{" (vformat t'' None kw)
                else vformat t' (Some EmptyString) kw
            | EmptyString => Raised (ValueError "Single '{' encountered in format string")
            end
          else if Ascii.eqb c "}"%char then
            match t' with
            | String c' t'' =>
                if Ascii.eqb c' "}"%char
                then prepend "}" (vformat t'' None kw)
                else Raised (ValueError "Single '}' encountered in format string")
            | EmptyString => Raised (ValueError "Single '}' encountered in format string")
            end
          else prepend (String c EmptyString) (vformat t' None kw)
      end
  end.

(** The names of the replacement fields of a template, in order of
    first occurrence. *)
Fixpoint template_fields (t : string) (field : option string) : list string :=
  match field with
  | Some name =>
      match t with
      | EmptyString => []
      | String c t' =>
          if Ascii.eqb c "}"%char
          then name :: template_fields t' None
          else template_fields t' (Some (name +:+ String c EmptyString))
      end
  | None =>
      match t with
      | EmptyString => []
      | String c t' =>
          if Ascii.eqb c "{"%char then
            match t' with
            | String c' t'' =>
                if Ascii.eqb c' "{"%char
                then template_fields t'' None
                else template_fields t' (Some EmptyString)
            | EmptyString => []
            end
          else template_fields t' None
      end
  end.

(** [PromptTemplate.from_template]. *)
Definition from_template (t : string) : PromptTemplate :=
  {| template := t; input_variables := remove_dups (template_fields t None) |}.

(** The prompt text of section 7 of the script. *)
Definition prompt_text : string :=
"
You are a helpful data analyst.

Rules:
- Use ONLY the information in the context
- If the answer is not present, say: " +:+ dq +:+
"I don't have that information in the data" +:+ dq +:+
"
- Mention whether the data came from holding or trade if relevant
- Do NOT guess or hallucinate

Context:
{context}

Question:
{question}

Answer:
".

(** *** The words of the specification, for comparison *)

(** The "column: value" pairs of a row: one per field that has a value. *)
Definition field_texts (r : row) : list string :=
  map (fun item => item.1 +:+ ": " +:+ format_cell item.2)
      (filter (fun item => notna item.2 = true) r).

(** The document of a row: the pairs joined by ". ", a final ".", and
    the source tag. *)
Definition sentence (source : string) (r : row) : Document :=
  {| page_content := str_join ". " (field_texts r) +:+ ".";
     metadata := {[ "source" := source ]} |}.

(** The prompt template with [context] and [question] put in place of
    its two fields. *)
Definition filled_prompt (context question : string) : string :=
"
You are a helpful data analyst.

Rules:
- Use ONLY the information in the context
- If the answer is not present, say: " +:+ dq +:+
"I don't have that information in the data" +:+ dq +:+
"
- Mention whether the data came from holding or trade if relevant
- Do NOT guess or hallucinate

Context:
" +:+ context +:+
"

Question:
" +:+ question +:+
"

Answer:
".

(** *** The script as a state-and-exception computation *)

(** The library calls the script makes, over the state [R] of the hosted
    model service (outside the program, read and possibly changed by
    every completion request). *)
Class Libraries (R : Type) : Type := {
  (** [vector_store.similarity_search(query, k)]: FAISS's
      nearest-neighbour search over the embedded documents. *)
  similarity_search : FAISS -> string -> nat -> list Document;
  (** The retriever's other search types, which the script does not
      select. *)
  other_search : string -> FAISS -> gmap string nat -> string
                 -> outcome (list Document);
  (** One request to the Azure deployment: the prompt text goes out, the
      content of the reply message (or an error) comes back. *)
  chat_completion : AzureChatOpenAI -> string -> R -> outcome string * R;
  (** [str(v)] of a value that is not itself a string. *)
  py_repr : value -> string
}.

(** An object bound to a global name of the module. *)
Inductive obj : Type :=
| ONone
| OStr (s : string)
| OFrame (df : DataFrame)
| ODocuments (ds : list Document)
| OEmbeddings (e : HuggingFaceEmbeddings)
| OStore (vs : FAISS)
| ORetriever (rt : VectorStoreRetriever)
| OModel (m : AzureChatOpenAI)
| OPrompt (p : PromptTemplate)
| ORunnable (r : Runnable)
| OValue (v : value)
| OExn (e : exn).

Definition of_optional (v : option string) : obj :=
  match v with
  | Some s => OStr s
  | None => ONone
  end.

(** The interpreter as the script sees it: what was written to the
    console, the hosted service, the model clients constructed so far
    and the module's global names. *)
Record world (R : Type) : Type := {
  stdout : list string;
  service : R;
  clients : list AzureChatOpenAI;
  globals : gmap string obj
}.
Arguments stdout {R} w.
Arguments service {R} w.
Arguments clients {R} w.
Arguments globals {R} w.

Section Script.

Context {R : Type} {L : Libraries R} {Pd : Pandas}.

Definition M (A : Type) : Type := world R -> outcome A * world R.

Definition ret {A} (a : A) : M A := fun w => (Returned a, w).

Definition bind {A B} (m : M A) (k : A -> M B) : M B :=
  fun w => match m w with
           | (Returned a, w') => k a w'
           | (Raised e, w') => (Raised e, w')
           end.

Definition raise {A} (e : exn) : M A := fun w => (Raised e, w).

(** [try: body] with [except Exception as e: handler]. *)
Definition try_except {A} (body : M A) (handler : exn -> M A) : M A :=
  fun w => match body w with
           | (Returned a, w') => (Returned a, w')
           | (Raised e, w') => handler e w'
           end.

Definition lift {A} (o : outcome A) : M A := fun w => (o, w).

Notation "'let!' x ':=' m 'in' k" := (bind m (fun x => k))
  (at level 10, x name, m at level 100, k at level 200).
Notation "m '>>' k" := (bind m (fun _ => k))
  (at level 190, right associativity).

Definition with_stdout (f : list string -> list string) (w : world R) : world R :=
  {| stdout := f (stdout w); service := service w;
     clients := clients w; globals := globals w |}.

Definition with_service (r : R) (w : world R) : world R :=
  {| stdout := stdout w; service := r;
     clients := clients w; globals := globals w |}.

Definition with_clients (f : list AzureChatOpenAI -> list AzureChatOpenAI)
    (w : world R) : world R :=
  {| stdout := stdout w; service := service w;
     clients := f (clients w); globals := globals w |}.

Definition with_globals (f : gmap string obj -> gmap string obj)
    (w : world R) : world R :=
  {| stdout := stdout w; service := service w;
     clients := clients w; globals := f (globals w) |}.

(** [sys.stdout.write(s)]. *)
Definition write (s : string) : M unit :=
  fun w => (Returned tt, with_stdout (fun out => out ++ [s]) w).

(** [print(s)]. *)
Definition print (s : string) : M unit := write (s +:+ nl).

(** [name = o] at module level. *)
Definition assign (name : string) (o : obj) : M unit :=
  fun w => (Returned tt, with_globals (insert name o) w).

(** [del name]. *)
Definition unbind (name : string) : M unit :=
  fun w => (Returned tt, with_globals (delete name) w).

(** Reading a global name. *)
Definition read (name : string) : M obj :=
  fun w => match globals w !! name with
           | Some o => (Returned o, w)
           | None => (Raised (LibraryError "NameError"
                                ("name '" +:+ name +:+ "' is not defined")), w)
           end.

(** The constructor call [AzureChatOpenAI(...)]. *)
Definition new_AzureChatOpenAI (c : AzureChatOpenAI) : M AzureChatOpenAI :=
  fun w => (Returned c, with_clients (fun cs => cs ++ [c]) w).

(** A completion request, threading the service state. *)
Definition request (m : AzureChatOpenAI) (text : string) : M string :=
  fun w => let '(o, r) := chat_completion m text (service w) in
           (o, with_service r w).

Definition py_str (v : value) : string :=
  match v with
  | VStr s => s
  | _ => py_repr v
  end.

(** *** 5.-8. Retriever, prompt and chain *)

(** [retriever.invoke(query)]. *)
Definition get_relevant_documents (rt : VectorStoreRetriever) (query : string)
  : outcome (list Document) :=
  if String.eqb (search_type rt) "similarity"
  then Returned (similarity_search (vectorstore rt) query
                   (default 4%nat (search_kwargs rt !! "k")))
  else other_search (search_type rt) (vectorstore rt) (search_kwargs rt) query.

Definition type_error {A} (what : string) : M A :=
  raise (LibraryError "TypeError" what).

(** [runnable.invoke(input)]. *)
Fixpoint invoke (r : Runnable) (input : value) {struct r} : M value :=
  match r with
  | RRetriever rt =>
      match input with
      | VStr q => let! ds := lift (get_relevant_documents rt q) in ret (VDocs ds)
      | _ => type_error "retriever input"
      end
  | RPassthrough => ret input
  | RParallel steps =>
      let! items :=
        (fix run (steps : list (string * Runnable)) : M (list (string * value)) :=
           match steps with
           | [] => ret []
           | (key, step) :: rest =>
               let! v := invoke step input in
               let! vs := run rest in
               ret ((key, v) :: vs)
           end) steps in
      ret (VDict items)
  | RPrompt p =>
      match input with
      | VDict items =>
          let! text := lift (vformat (template p) None
                               (map (fun kv => (kv.1, py_str kv.2)) items)) in
          ret (VPromptValue text)
      | _ => type_error "prompt input"
      end
  | RChatModel m =>
      match input with
      | VPromptValue text | VStr text =>
          let! content := request m text in ret (VMessage content)
      | _ => type_error "model input"
      end
  | RStrOutputParser =>
      match input with
      | VMessage content | VStr content => ret (VStr content)
      | _ => type_error "parser input"
      end
  | RSequence first last =>
      let! v := invoke first input in invoke last v
  end.

(** *** 1.-8. Everything before the loop *)

(** [os.path.join(a, b)] for a relative [b]. *)
Definition path_join (a b : string) : string := a +:+ "/" +:+ b.

(** [f"{v}"] of an [Optional[str]]. *)
Definition fstr (v : option string) : string := default "None" v.

(** The retriever of section 5: similarity search with [k = 100]. *)
Definition build_retriever (vector_store : FAISS) : VectorStoreRetriever :=
  as_retriever vector_store "similarity" {[ "k" := 100%nat ]}.

(** The client of section 6. *)
Definition build_llm (endpoint key version deployment : option string)
  : AzureChatOpenAI :=
  {| azure_endpoint := fstr endpoint;
     api_key := fstr key;
     api_version := fstr version;
     deployment_name := fstr deployment;
     temperature := 0 |}.

(** The chain of section 8:
    [{"context": retriever, "question": RunnablePassthrough()}
     | prompt | llm | StrOutputParser()]. *)
Definition build_rag_chain (retriever : VectorStoreRetriever)
    (prompt : PromptTemplate) (llm : AzureChatOpenAI) : Runnable :=
  RSequence
    (RSequence
       (RSequence
          (RParallel [("context", RRetriever retriever);
                      ("question", RPassthrough)])
          (RPrompt prompt))
       (RChatModel llm))
    RStrOutputParser.

Definition script_setup (environ dotenv : gmap string string)
    (fs : gmap string csv_file) : M unit :=
  let env := load_dotenv false dotenv environ in
  let AZURE_OPENAI_API_KEY := getenv env "AZURE_OPENAI_API_KEY" in
  let AZURE_OPENAI_ENDPOINT := getenv env "AZURE_OPENAI_ENDPOINT" in
  let AZURE_OPENAI_DEPLOYMENT := getenv env "AZURE_OPENAI_DEPLOYMENT" in
  let AZURE_OPENAI_API_VERSION := getenv env "AZURE_OPENAI_API_VERSION" in
  assign "AZURE_OPENAI_API_KEY" (of_optional AZURE_OPENAI_API_KEY) >>
  assign "AZURE_OPENAI_ENDPOINT" (of_optional AZURE_OPENAI_ENDPOINT) >>
  assign "AZURE_OPENAI_DEPLOYMENT" (of_optional AZURE_OPENAI_DEPLOYMENT) >>
  assign "AZURE_OPENAI_API_VERSION" (of_optional AZURE_OPENAI_API_VERSION) >>
  (if negb (py_all [AZURE_OPENAI_API_KEY; AZURE_OPENAI_ENDPOINT;
                    AZURE_OPENAI_DEPLOYMENT; AZURE_OPENAI_API_VERSION])
   then raise (ValueError "❌ Missing Azure OpenAI environment variables")
   else ret tt) >>
  print "✅ Azure environment loaded" >>
  let DATA_DIR := "data" in
  assign "DATA_DIR" (OStr DATA_DIR) >>
  let! holding_df := lift (read_csv fs (path_join DATA_DIR "holdings.csv") 1023) in
  assign "holding_df" (OFrame holding_df) >>
  let! trade_df := lift (read_csv fs (path_join DATA_DIR "trades.csv") 700) in
  assign "trade_df" (OFrame trade_df) >>
  print ("📄 Holding rows loaded: " +:+ pretty (length (values holding_df))) >>
  print ("📄 Trade rows loaded: " +:+ pretty (length (values trade_df))) >>
  let documents :=
    df_to_documents holding_df "holding" ++ df_to_documents trade_df "trade" in
  assign "documents" (ODocuments documents) >>
  print ("📚 Total documents created: " +:+ pretty (length documents)) >>
  let embeddings := {| model_name := "sentence-transformers/all-MiniLM-L6-v2" |} in
  assign "embeddings" (OEmbeddings embeddings) >>
  print "✅ Local embeddings initialized" >>
  let! vector_store := lift (from_documents documents embeddings) in
  assign "vector_store" (OStore vector_store) >>
  let retriever := build_retriever vector_store in
  assign "retriever" (ORetriever retriever) >>
  print "✅ FAISS vector store ready" >>
  let! llm := new_AzureChatOpenAI
                (build_llm AZURE_OPENAI_ENDPOINT AZURE_OPENAI_API_KEY
                   AZURE_OPENAI_API_VERSION AZURE_OPENAI_DEPLOYMENT) in
  assign "llm" (OModel llm) >>
  print "✅ Azure chat model initialized" >>
  let prompt := from_template prompt_text in
  assign "prompt" (OPrompt prompt) >>
  let rag_chain := build_rag_chain retriever prompt llm in
  assign "rag_chain" (ORunnable rag_chain) >>
  print (nl +:+ "🚀 RAG system READY") >>
  print "⚠️ Using first 100 rows from each CSV" >>
  print ("Type 'exit' to quit" +:+ nl).

(** *** 9. Interactive Q&A *)

Inductive flow : Type := Continue | Break.

(** [rag_chain.invoke(user_question)], with both names read from the
    module's globals. *)
Definition invoke_rag_chain : M value :=
  let! chain := read "rag_chain" in
  let! question := read "user_question" in
  match chain, question with
  | ORunnable r, OStr q => invoke r (VStr q)
  | _, _ => raise (LibraryError "AttributeError" "invoke")
  end.

(** [user_question.lower() in ["exit", "quit", "q"]]. *)
Definition is_exit (user_question : string) : bool :=
  str_in (lower user_question) ["exit"; "quit"; "q"].

(** One pass through the body of [while True], once [input] has
    returned [line]. *)
Definition iteration (line : string) : M flow :=
  assign "user_question" (OStr line) >>
  if is_exit line
  then print "👋 Goodbye!" >> ret Break
  else
    try_except
      (let! answer := invoke_rag_chain in
       assign "answer" (OValue answer) >>
       print (nl +:+ "AI: " +:+ py_str answer +:+ nl))
      (fun e =>
         assign "e" (OExn e) >>
         print ("⚠️ Error: " +:+ exn_str e +:+ nl) >>
         unbind "e") >>
    ret Continue.

(** [input("You: ")] on the lines still to come from the console: at the
    end of input it raises [EOFError], which no handler of the script
    catches. *)
Definition input (lines : list string) : M (string * list string) :=
  write "You: " >>
  match lines with
  | [] => raise EOFError
  | line :: rest => ret (line, rest)
  end.

(** The loop, on the lines the user will type. *)
Fixpoint qa_loop (lines : list string) : M unit :=
  match lines with
  | [] => let! _ := input [] in ret tt
  | line :: rest =>
      let! _ := input (line :: rest) in
      let! f := iteration line in
      match f with
      | Break => ret tt
      | Continue => qa_loop rest
      end
  end.

(** The whole script. *)
Definition main (environ dotenv : gmap string string)
    (fs : gmap string csv_file) (lines : list string) : M unit :=
  script_setup environ dotenv fs >> qa_loop lines.

(** One trip around the loop that comes back to its head: a line was
    read and was not a word that breaks out. *)
Inductive loop_step : world R * list string -> world R * list string -> Prop :=
| loop_continue (w w' : world R) (line : string) (rest : list string) :
    (let! _ := input (line :: rest) in iteration line) w = (Returned Continue, w') ->
    loop_step (w, line :: rest) (w', rest).

(** The objects the loop answers from. *)
Definition static (w : world R) : list (option obj) :=
  [globals w !! "documents"; globals w !! "vector_store";
   globals w !! "retriever"; globals w !! "prompt"; globals w !! "rag_chain"].

(** The interpreter at start-up, facing a service in state [r]. *)
Definition start (r : R) : world R :=
  {| stdout := []; service := r; clients := []; globals := ∅ |}.

(** What a computation may touch: nothing but the hosted service. *)
Definition service_only {A} (m : M A) : Prop :=
  forall w, exists o r, m w = (o, with_service r w).

(** The answer the chain computes for a question, spelled out. *)
Definition pipeline (vector_store : FAISS) (llm : AzureChatOpenAI)
    (question : string) (w : world R) : outcome value * world R :=
  let context := similarity_search vector_store question 100 in
  let text := filled_prompt (py_repr (VDocs context)) question in
  match chat_completion llm text (service w) with
  | (Returned content, r) => (Returned (VStr content), with_service r w)
  | (Raised e, r) => (Raised e, with_service r w)
  end.

(** What stays as it was between two states of the interpreter: the
    clients constructed and every global name outside [names]. *)
Definition same_except (names : list string) (w w' : world R) : Prop :=
  clients w' = clients w
  /\ forall name, name ∉ names -> globals w' !! name = globals w !! name.

End Script.

(** *** A small instance to run the script on

    A stand-in for the libraries: the search returns the first [k]
    documents of the index, the hosted model counts its requests, answers
    with that count and fails on an empty prompt or on a question that
    ends the prompt with ["fail"]. *)
Definition example_chat (m : AzureChatOpenAI) (text : string) (n : nat)
  : outcome string * nat :=
  (if String.eqb text (filled_prompt "[]" "fail")
   then Raised (LibraryError "RateLimitError" "too many requests")
   else Returned ("answer " +:+ pretty n),
   S n).

Definition example_libraries : Libraries nat :=
  {| similarity_search := fun vs _ k => take k (docstore vs);
     other_search := fun _ _ _ _ => Returned [];
     chat_completion := example_chat;
     py_repr := fun _ => "[]" |}.

Definition example_environ : gmap string string :=
  {[ "AZURE_OPENAI_API_KEY" := "secret";
     "AZURE_OPENAI_ENDPOINT" := "https://example.openai.azure.com";
     "AZURE_OPENAI_DEPLOYMENT" := "gpt";
     "AZURE_OPENAI_API_VERSION" := "2024-02-01" ]}.

(** No [.env] file. *)
Definition example_dotenv : gmap string string := ∅.

(** A stand-in for the parser: decimal integers, numbers written with
    a decimal point the way Python prints them, and the words [True] and
    [False]. *)
Definition example_int (s : string) : option Z :=
  if String.eqb s "" || String.eqb s "-" then None
  else option_map Z.of_int (NilEmpty.int_of_string s).

Definition example_float (s : string) : option string :=
  match example_int s with
  | Some z => Some (pretty z +:+ ".0")
  | None =>
      match String.index 0 "." s with
      | Some i =>
          match example_int (String.substring 0 i s),
                NilEmpty.uint_of_string
                  (String.substring (i + 1) (String.length s - (i + 1)) s) with
          | Some _, Some _ => Some s
          | _, _ => None
          end
      | None => None
      end
  end.

Definition example_pandas : Pandas :=
  {| is_na := fun s => str_in s [""; "NA"; "NaN"; "nan"; "null"];
     to_int64 := example_int;
     to_float64 := example_float;
     to_bool := fun s => if String.eqb s "True" then Some true
                         else if String.eqb s "False" then Some false
                         else None;
     str_of_rounded := fun z => pretty z +:+ ".0" |}.

(** Two holdings with a name column, so that their rows are of type
    [object], and one trade with numbers only. *)
Definition example_holdings : csv_file :=
  {| header := ["PortfolioName"; "SecName"; "Qty"];
     records := [["Platpot"; "ACME"; "5"];
                 ["Ytum"; ""; "-2"]] |}.

Definition example_trades : csv_file :=
  {| header := ["Qty"; "Price"; "Fee"];
     records := [["5"; "1.5"; ""]] |}.

Definition example_fs : gmap string csv_file :=
  {[ "data/holdings.csv" := example_holdings;
     "data/trades.csv" := example_trades ]}.

End Rag.

(** ** app.py *)

Module App.

(** *** Values and widgets *)

(** The Python values the page passes around: answers of the library and
    contents of chat messages.  [PTable] is a pandas dataframe.
    [PObject] is any object that is neither a string nor a dict nor a
    dataframe; the page only asks it whether it has a [head] attribute,
    as a dataframe has. *)
Inductive pyval : Type :=
| PStr (s : string)
| PDict (items : list (string * pyval))
| PTable (shown : string)
| PObject (has_head : bool) (shown : string).

(** [hasattr(v, "head")]. *)
Definition hasattr_head (v : pyval) : bool :=
  match v with
  | PTable _ => true
  | PObject h _ => h
  | _ => false
  end.

(** An entry of the chat history: the dict with keys [role] and
    [content]. *)
Record message : Type := {
  role : string;
  content : pyval
}.

(** What a run draws. A chat message is a container. *)
Inductive element : Type :=
| Title (s : string)
| Caption (s : string)
| Error (s : string)
| SidebarHeader (s : string)
| SidebarMarkdown (s : string)
| SidebarWrite (s : string)
| Write (v : pyval)
| Dataframe (v : pyval)
| ChatMessage (name : string) (children : list element)
| Expander (label : string) (children : list element).

(** A dataframe handle of the question-answering library. *)
Record PaiFrame : Type := { path : string }.

Record LiteLLM : Type := {
  model : string;
  api_key : string;
  api_base : string;
  api_version : string
}.

(** The library's global configuration, as [pai.config.set] leaves it. *)
Record Config : Type := {
  llm : LiteLLM;
  verbose : bool;
  System_prompt : string
}.

(** The calls into the question-answering library, over the state [R] of
    the hosted model behind it. *)
Class PandasAI (R : Type) : Type := {
  (** [pai.read_csv(path)]. *)
  pai_read_csv : string -> outcome PaiFrame;
  (** [df.chat(question)] under the current configuration. *)
  df_chat : option Config -> PaiFrame -> string -> R -> outcome pyval * R;
  (** [pai.chat(question, *dfs)]. *)
  pai_chat : option Config -> string -> list PaiFrame -> R -> outcome pyval * R;
  (** [df.head(n)], shown in the previews: the first rows, a
      dataframe. *)
  df_head : PaiFrame -> nat -> string
}.

(** Streamlit's table widget on an object that is not a dataframe:
    [st.dataframe(data)] has to convert [data] to a table first, and
    raises when it cannot. *)
Class Streamlit : Type := {
  (** The exception the conversion of [data] raises, if it raises. *)
  dataframe_error : pyval -> option exn
}.

(** The library calls a run makes, in order. *)
Inductive call : Type :=
| NewLiteLLM (c : LiteLLM)
| ReadCsv (p : string)
| DfChat (df : PaiFrame) (question : string)
| PaiChat (question : string) (dfs : list PaiFrame).

(** The three entries of the scope select box. *)
Inductive scope : Type := Holdings | Trades | HoldingsAndTrades.

Definition scope_options : list string :=
  ["Holdings"; "Trades"; "Holdings + Trades"].

(** [st.sidebar.selectbox(label, options)]: the selected option. *)
Definition selectbox (options : list string) (sel : scope) : string :=
  match sel with
  | Holdings => nth 0 options ""
  | Trades => nth 1 options ""
  | HoldingsAndTrades => nth 2 options ""
  end.

(** What the user did to cause this run of the script. *)
Inductive trigger : Type :=
| Refresh
| ClearChat
| Submit (text : string).

(** Everything a run reads from outside: process environment, the
    [.env] file, and the widgets. *)
Record inputs : Type := {
  environ : gmap string string;
  dotenv : gmap string string;
  selected : scope;
  trig : trigger
}.

(** The Streamlit server between and during runs: session state, the two
    caches, the library configuration and the hosted model persist; the
    screen and the call log are those of the current run. *)
Record world (R : Type) : Type := {
  session_state : gmap string (list message);
  cache_resource : option LiteLLM;
  cache_data : option (PaiFrame * PaiFrame);
  config : option Config;
  service : R;
  screen : list element;
  calls : list call
}.
Arguments session_state {R} w.
Arguments cache_resource {R} w.
Arguments cache_data {R} w.
Arguments config {R} w.
Arguments service {R} w.
Arguments screen {R} w.
Arguments calls {R} w.

(** How a piece of the script ends: normally, with an exception, or with
    one of Streamlit's control signals, which [except Exception] does not
    catch. *)
Inductive ctl (A : Type) : Type :=
| Ok (a : A)
| Fail (e : exn)
| Stop
| Rerun.
Arguments Ok {A} a.
Arguments Fail {A} e.
Arguments Stop {A}.
Arguments Rerun {A}.

(** The text of the [System_prompt] entry of the configuration. *)
Definition system_prompt_text : string :=
"
You are a STRICT, SQL-driven financial analytics customer assistant.
" +:+ dq +:+
"IMPORTANT" +:+ dq +:+
"
You should not give answer to this questions5:
   - CEOs
   - company history
   - company descriptions
   - people
   - market conditions
You can reply to greeting and farewell messages.do not run query for them.
You are operating in DATA-ONLY MODE.
You are allowed to answer questions ONLY using the provided dataframe(s).
These dataframe(s) come from internal financial CSV files and represent real
portfolio holdings and executed trades.

====================================================
DATASETS YOU HAVE ACCESS TO (VERY IMPORTANT)
====================================================

You have EXACTLY TWO datasets:

----------------------------------------------------
1) HOLDINGS DATASET (table_holdings)
----------------------------------------------------
This dataset represents portfolio HOLDINGS (open positions).
Each row corresponds to a position held by a portfolio in a security.

This dataset is used for:
- Portfolio exposure analysis
- Holdings quantities
- Performance and P&L analysis
- Long / short / repo / CDS positions

Key columns and their meaning:

- PortfolioName
  → Name of the fund / portfolio (e.g. Platpot, Ytum, HoldCo 11)

- SecName
  → Security identifier used in holdings
  → Can represent equities, bonds, repos, CDS, FX forwards, etc.
  → This is the PRIMARY identifier for holdings

- Qty
  → Current holding quantity
  → Can be POSITIVE (long) or NEGATIVE (short / repo / hedge)

- StartQty
  → Quantity at the start of the period

- Price
  → Current price of the security

- MV_Local
  → Market value in local currency

- MV_Base
  → Market value in base currency

- PL_DTD
  → Profit & Loss day-to-date

- PL_MTD
  → Profit & Loss month-to-date

- PL_QTD
  → Profit & Loss quarter-to-date

- PL_YTD
  → Profit & Loss year-to-date

IMPORTANT NOTES FOR HOLDINGS:
- A portfolio can appear multiple times (multiple securities).
- Negative quantities are VALID and represent financing or hedging positions.
- Performance questions must be answered using PL_* columns.

----------------------------------------------------
2) TRADES DATASET (table_trades)
----------------------------------------------------
This dataset represents EXECUTED TRADES.
Each row corresponds to one executed trade.

This dataset is used for:
- Trade counts
- Trade frequency
- Traded quantities
- Turnover analysis

Key columns and their meaning:

- PortfolioName
  → Portfolio executing the trade

- Name
  → Instrument name used for trading
  → This is the PRIMARY identifier for trades

- Ticker
  → Market ticker symbol
  → May be NULL for many instruments (bonds, OTC trades)

- Quantity
  → Quantity traded in the transaction

- TradeTypeName
  → Buy or Sell

- TradeDate
  → Execution date

- Price
  → Trade execution price

- TotalCash
  → Total cash impact of the trade

IMPORTANT NOTES FOR TRADES:
- Ticker may be NULL — this is expected and valid.
- Use Name instead of Ticker when aggregating symbols.
- Multiple trades can exist for the same instrument and portfolio.

----------------------------------------------------
3) MULTI-TABLE ANALYSIS (HOLDINGS + TRADES)
----------------------------------------------------
When a question involves BOTH holdings and trades:

- You MUST use SQL-style joins
- Preferred join key:
    table_holdings.SecName = table_trades.Name

- Always aggregate BEFORE joining when appropriate
- Use LEFT JOIN / FULL JOIN where necessary to avoid data loss

====================================================
**MANDATORY RULES (NO EXCEPTIONS)**
====================================================

1. You MUST answer ONLY using the data in the provided dataframe(s).
2. You MUST use SQL-style reasoning:
   - aggregation
   - filtering
   - grouping
   - joins
3. You MUST NOT use:
   - external knowledge
   - general financial knowledge
   - internet facts
   - assumptions
4. You MUST NOT fabricate:
   - columns
   - values
   - symbols
   - explanations
5. You MUST NEVER answer questions about:
   - CEOs
   - company history
   - company descriptions
   - people
   - market conditions
6. If the answer CANNOT be derived from the dataframe(s),
   respond EXACTLY with:
   " +:+ dq +:+
"I don't know — this information is not in the CSV." +:+ dq +:+
"

====================================================
OUTPUT RULES
====================================================

- If the question asks for comparison or aggregation → return a TABLE.
- If the question asks for a single metric → return only that value.
- Do NOT add commentary, interpretation, or explanation.
- Do NOT guess missing information.

====================================================
FINAL REMINDER
====================================================

If it is not explicitly present as a column or value in the CSV data,
you DO NOT know it.
".

(** *** The page as a computation over the server state *)

Section Page.

Context {R : Type} {P : PandasAI R} {St : Streamlit}.

Definition M (A : Type) : Type := world R -> ctl A * world R.

Definition ret {A} (a : A) : M A := fun w => (Ok a, w).

Definition bind {A B} (m : M A) (k : A -> M B) : M B :=
  fun w => match m w with
           | (Ok a, w') => k a w'
           | (Fail e, w') => (Fail e, w')
           | (Stop, w') => (Stop, w')
           | (Rerun, w') => (Rerun, w')
           end.

Definition raise {A} (e : exn) : M A := fun w => (Fail e, w).

(** [st.stop()] and [st.rerun()]. *)
Definition stop {A} : M A := fun w => (Stop, w).
Definition rerun {A} : M A := fun w => (Rerun, w).

(** [try: body] with [except Exception: handler]; the control signals
    pass through. *)
Definition try_except {A} (body : M A) (handler : exn -> M A) : M A :=
  fun w => match body w with
           | (Fail e, w') => handler e w'
           | r => r
           end.

Notation "'let!' x ':=' m 'in' k" := (bind m (fun x => k))
  (at level 10, x name, m at level 100, k at level 200).
Notation "m '>>' k" := (bind m (fun _ => k))
  (at level 190, right associativity).

Definition with_session (f : gmap string (list message) -> gmap string (list message))
    (w : world R) : world R :=
  {| session_state := f (session_state w);
     cache_resource := cache_resource w;
     cache_data := cache_data w;
     config := config w;
     service := service w;
     screen := screen w;
     calls := calls w |}.

Definition with_screen (f : list element -> list element) (w : world R) : world R :=
  {| session_state := session_state w;
     cache_resource := cache_resource w;
     cache_data := cache_data w;
     config := config w;
     service := service w;
     screen := f (screen w);
     calls := calls w |}.

Definition with_calls (f : list call -> list call) (w : world R) : world R :=
  {| session_state := session_state w;
     cache_resource := cache_resource w;
     cache_data := cache_data w;
     config := config w;
     service := service w;
     screen := screen w;
     calls := f (calls w) |}.

Definition with_service (r : R) (w : world R) : world R :=
  {| session_state := session_state w;
     cache_resource := cache_resource w;
     cache_data := cache_data w;
     config := config w;
     service := r;
     screen := screen w;
     calls := calls w |}.

Definition with_cache_resource (c : option LiteLLM) (w : world R) : world R :=
  {| session_state := session_state w;
     cache_resource := c;
     cache_data := cache_data w;
     config := config w;
     service := service w;
     screen := screen w;
     calls := calls w |}.

Definition with_cache_data (d : option (PaiFrame * PaiFrame)) (w : world R)
  : world R :=
  {| session_state := session_state w;
     cache_resource := cache_resource w;
     cache_data := d;
     config := config w;
     service := service w;
     screen := screen w;
     calls := calls w |}.

Definition with_config (c : option Config) (w : world R) : world R :=
  {| session_state := session_state w;
     cache_resource := cache_resource w;
     cache_data := cache_data w;
     config := c;
     service := service w;
     screen := screen w;
     calls := calls w |}.

(** Drawing one element in the current container. *)
Definition draw (e : element) : M unit :=
  fun w => (Ok tt, with_screen (fun s => s ++ [e]) w).

(** The exception [st.dataframe(data)] raises, if any: a dataframe is
    drawn as it is, anything else has to be converted. *)
Definition conversion_error (data : pyval) : option exn :=
  match data with
  | PTable _ => None
  | _ => dataframe_error data
  end.

(** [st.dataframe(data)]: the table is drawn, or the conversion raises
    and nothing is drawn. *)
Definition st_dataframe (data : pyval) : M unit :=
  match conversion_error data with
  | None => draw (Dataframe data)
  | Some e => raise e
  end.

(** Recording a library call. *)
Definition record (c : call) : M unit :=
  fun w => (Ok tt, with_calls (fun l => l ++ [c]) w).

(** [with container: body]: what the body draws goes inside the
    container, also when the body does not end normally. *)
Definition within {A} (wrap : list element -> element) (body : M A) : M A :=
  fun w => let '(r, w') := body (with_screen (fun _ => []) w) in
           (r, with_screen (fun inner => screen w ++ [wrap inner]) w').

(** [for x in xs: body]. *)
Fixpoint for_each {A} (xs : list A) (body : A -> M unit) : M unit :=
  match xs with
  | [] => ret tt
  | x :: rest => body x >> for_each rest body
  end.

(** *** Session state for chat history *)

Definition attribute_error {A} (name : string) : M A :=
  raise (LibraryError "AttributeError"
           ("st.session_state has no attribute " +:+ dq +:+ name +:+ dq)).

(** [st.session_state.messages]. *)
Definition get_messages : M (list message) :=
  fun w => match session_state w !! "messages" with
           | Some l => (Ok l, w)
           | None => attribute_error "messages" w
           end.

(** [st.session_state.messages = l]. *)
Definition set_messages (l : list message) : M unit :=
  fun w => (Ok tt, with_session (fun s => <["messages" := l]> s) w).

(** [st.session_state.messages.append(m)]. *)
Definition append_message (m : message) : M unit :=
  let! l := get_messages in set_messages (l ++ [m]).

Definition init_session : M unit :=
  fun w => match session_state w !! "messages" with
           | None => set_messages [] w
           | Some _ => (Ok tt, w)
           end.

(** *** Initialize Azure OpenAI via LiteLLM *)

(** [f"{v}"] and a keyword argument for an [Optional[str]]. *)
Definition fstr (v : option string) : string := default "None" v.

(** [init_llm()] under [st.cache_resource]: the body runs on the first
    call of the server's life, later calls return the stored client. *)
Definition init_llm (AZURE_OPENAI_API_KEY AZURE_OPENAI_ENDPOINT
                     AZURE_OPENAI_DEPLOYMENT AZURE_OPENAI_API_VERSION : option string)
  : M LiteLLM :=
  fun w => match cache_resource w with
           | Some c => (Ok c, w)
           | None =>
               let c := {| model := "azure/" +:+ fstr AZURE_OPENAI_DEPLOYMENT;
                           api_key := fstr AZURE_OPENAI_API_KEY;
                           api_base := fstr AZURE_OPENAI_ENDPOINT;
                           api_version := fstr AZURE_OPENAI_API_VERSION |} in
               (Ok c, with_calls (fun l => l ++ [NewLiteLLM c])
                        (with_cache_resource (Some c) w))
           end.

(** [pai.config.set(...)]. *)
Definition config_set (c : Config) : M unit :=
  fun w => (Ok tt, with_config (Some c) w).

(** *** Load CSVs (cached) *)

Definition read_csv (p : string) : M PaiFrame :=
  record (ReadCsv p) >>
  match pai_read_csv p with
  | Returned df => ret df
  | Raised e => raise e
  end.

(** [load_data()] under [st.cache_data]: a result is stored only when
    the body returns. *)
Definition load_data : M (PaiFrame * PaiFrame) :=
  fun w => match cache_data w with
           | Some d => (Ok d, w)
           | None =>
               (let! holdings := read_csv "data/holdings.csv" in
                let! trades := read_csv "data/trades.csv" in
                fun w' => (Ok (holdings, trades),
                           with_cache_data (Some (holdings, trades)) w')) w
           end.

(** *** Safe execution wrapper *)

(** [fn.chat(question)]. *)
Definition chat (fn : PaiFrame) (question : string) : M pyval :=
  record (DfChat fn question) >>
  fun w => match df_chat (config w) fn question (service w) with
           | (Returned v, r) => (Ok v, with_service r w)
           | (Raised e, r) => (Fail e, with_service r w)
           end.

(** [pai.chat(question, *dfs)]. *)
Definition chat_many (question : string) (dfs : list PaiFrame) : M pyval :=
  record (PaiChat question dfs) >>
  fun w => match pai_chat (config w) question dfs (service w) with
           | (Returned v, r) => (Ok v, with_service r w)
           | (Raised e, r) => (Fail e, with_service r w)
           end.

Definition safe_chat (fn : PaiFrame) (question : string) : M pyval :=
  try_except (chat fn question)
    (fun e => match e with
              | ExecuteSQLQueryNotUsed _ =>
                  ret (PStr "I don't know — this information is not in the CSV.")
              | _ =>
                  ret (PStr "I don't know — this information is not in the CSV.")
              end).

(** *** Sidebar controls *)

Definition example_questions : list (string * list string) :=
  [("Holdings",
    ["Total number of holdings for Platpot";
     "Total holding quantity for Platpot";
     "Which fund has highest PL_YTD?"]);
   ("Trades",
    ["Which symbol was traded most frequently?";
     "Total number of trades for HoldCo 11"]);
   ("Holdings + Trades",
    ["Compare total holding quantity vs total traded quantity per symbol"])].

(** [d[key]] on a dict with string keys. *)
Fixpoint getitem {A : Type} (d : list (string * A)) (key : string) : option A :=
  match d with
  | [] => None
  | (k, v) :: d' => if String.eqb key k then Some v else getitem d' key
  end.

(** [st.sidebar.button(label)]: true in the run its click causes. *)
Definition button (t : trigger) : bool :=
  match t with
  | ClearChat => true
  | _ => false
  end.

(** [st.chat_input(placeholder)]: the text in the run a submission
    causes, [None] otherwise. *)
Definition chat_input (t : trigger) : option string :=
  match t with
  | Submit text => Some text
  | _ => None
  end.

(** *** Render previous chat messages *)

(** The body of the loop over [st.session_state.messages]. *)
Definition render_message (msg : message) : M unit :=
  within (ChatMessage (role msg))
    (match content msg with
     | PDict items =>
         match getitem items "dataframe" with
         | Some df => st_dataframe df
         | None => draw (Write (content msg))
         end
     | _ => draw (Write (content msg))
     end).

(** *** Handle new message *)

Definition handle_prompt (data_scope prompt : string)
    (holdings_df trades_df : PaiFrame) : M unit :=
  append_message {| role := "user"; content := PStr prompt |} >>
  within (ChatMessage "user") (draw (Write (PStr prompt))) >>
  within (ChatMessage "assistant")
    (let! response :=
       try_except
         (if String.eqb data_scope "Holdings" then
            safe_chat holdings_df prompt
          else if String.eqb data_scope "Trades" then
            safe_chat trades_df prompt
          else
            chat_many prompt [holdings_df; trades_df])
         (fun _ => ret (PStr "I don't know — this information is not in the CSV.")) in
     if hasattr_head response then
       st_dataframe response >>
       append_message {| role := "assistant";
                         content := PDict [("dataframe", response)] |}
     else
       draw (Write response) >>
       append_message {| role := "assistant"; content := response |}).

(** *** The script, top to bottom *)

Definition page (i : inputs) : M unit :=
  draw (Title "📊 CSV Financial AI Assistant") >>
  draw (Caption "Chatbot that answers strictly from CSV data (no hallucinations)") >>
  init_session >>
  let env := load_dotenv true (dotenv i) (environ i) in
  let AZURE_OPENAI_API_KEY := getenv env "AZURE_OPENAI_API_KEY" in
  let AZURE_OPENAI_ENDPOINT := getenv env "AZURE_OPENAI_ENDPOINT" in
  let AZURE_OPENAI_DEPLOYMENT := getenv env "AZURE_OPENAI_DEPLOYMENT" in
  let AZURE_OPENAI_API_VERSION := getenv env "AZURE_OPENAI_API_VERSION" in
  (if negb (py_all [AZURE_OPENAI_API_KEY; AZURE_OPENAI_ENDPOINT;
                    AZURE_OPENAI_DEPLOYMENT; AZURE_OPENAI_API_VERSION])
   then draw (Error "❌ Azure OpenAI environment variables are missing") >> stop
   else ret tt) >>
  let! llm := init_llm AZURE_OPENAI_API_KEY AZURE_OPENAI_ENDPOINT
                AZURE_OPENAI_DEPLOYMENT AZURE_OPENAI_API_VERSION in
  config_set {| llm := llm; verbose := false;
                System_prompt := system_prompt_text |} >>
  let! frames := load_data in
  let holdings_df := frames.1 in
  let trades_df := frames.2 in
  draw (SidebarHeader "⚙️ Controls") >>
  let data_scope := selectbox scope_options (selected i) in
  draw (SidebarMarkdown "### 📌 Example questions") >>
  let! questions :=
    match getitem example_questions data_scope with
    | Some qs => ret qs
    | None => raise (KeyError data_scope)
    end in
  for_each questions (fun q => draw (SidebarWrite ("• " +:+ q))) >>
  (if button (trig i)
   then set_messages [] >> rerun
   else ret tt) >>
  let! messages := get_messages in
  for_each messages render_message >>
  let prompt := chat_input (trig i) in
  (if truthy prompt
   then handle_prompt data_scope (default "" prompt) holdings_df trades_df
   else ret tt) >>
  within (Expander "📄 Preview Holdings Data")
    (st_dataframe (PTable (df_head holdings_df 50))) >>
  within (Expander "📄 Preview Trades Data")
    (st_dataframe (PTable (df_head trades_df 50))).

(** One run of the script: Streamlit starts it on an empty screen. *)
Definition run (i : inputs) (w : world R) : ctl unit * world R :=
  page i (with_calls (fun _ => []) (with_screen (fun _ => []) w)).

(** One user interaction: the run it causes and, when that run asks for
    it, the rerun, in which no widget reports an event. *)
Definition interact (i : inputs) (w : world R) : ctl unit * world R :=
  match run i w with
  | (Rerun, w') =>
      run {| environ := environ i; dotenv := dotenv i;
             selected := selected i; trig := Refresh |} w'
  | r => r
  end.

(** A server that has just started, facing a service in state [r]. *)
Definition start (r : R) : world R :=
  {| session_state := ∅; cache_resource := None; cache_data := None;
     config := None; service := r; screen := []; calls := [] |}.

(** The chat history of a session. *)
Definition history (w : world R) : list message :=
  default [] (session_state w !! "messages").

(** *** The words of the specification, for comparison *)

(** The fixed fallback answer. *)
Definition fallback : string :=
  "I don't know — this information is not in the CSV.".

(** The delegated call the scope selects, and the record of it. *)
Definition delegate (cfg : option Config) (sel : scope)
    (holdings_df trades_df : PaiFrame) (question : string) (r : R)
  : outcome pyval * R :=
  match sel with
  | Holdings => df_chat cfg holdings_df question r
  | Trades => df_chat cfg trades_df question r
  | HoldingsAndTrades => pai_chat cfg question [holdings_df; trades_df] r
  end.

Definition delegated_call (sel : scope) (holdings_df trades_df : PaiFrame)
    (question : string) : call :=
  match sel with
  | Holdings => DfChat holdings_df question
  | Trades => DfChat trades_df question
  | HoldingsAndTrades => PaiChat question [holdings_df; trades_df]
  end.

(** The assistant's response to what the delegated call did. *)
Definition reply (o : outcome pyval) : pyval :=
  match o with
  | Returned v => v
  | Raised _ => PStr fallback
  end.

(** How a response is kept in the history and how it is drawn when it
    arrives. *)
Definition stored (response : pyval) : pyval :=
  if hasattr_head response then PDict [("dataframe", response)] else response.

Definition drawn (response : pyval) : element :=
  if hasattr_head response then Dataframe response else Write response.

(** How a stored message is drawn on a later run: a dict content with a
    "dataframe" key as a table, anything else as text. *)
Definition shown (msg : message) : element :=
  ChatMessage (role msg)
    [match content msg with
     | PDict items =>
         match getitem items "dataframe" with
         | Some df => Dataframe df
         | None => Write (content msg)
         end
     | _ => Write (content msg)
     end].

(** The table a stored message is drawn as, when it is drawn as one. *)
Definition table_of (msg : message) : option pyval :=
  match content msg with
  | PDict items => getitem items "dataframe"
  | _ => None
  end.

(** The exception that drawing a stored message raises, if any, and the
    stored messages that are drawn without one. *)
Definition render_error (msg : message) : option exn :=
  match table_of msg with
  | Some df => conversion_error df
  | None => None
  end.

Definition renders (msg : message) : Prop := render_error msg = None.

(** The exception that drawing a response raises when it arrives, if
    any: only an object with a [head] attribute is drawn as a table. *)
Definition response_error (response : pyval) : option exn :=
  if hasattr_head response then conversion_error response else None.

(** What the loop over the stored messages draws and how it ends: it
    stops at the first message whose table is refused, leaving that
    message's container empty. *)
Fixpoint rendered (msgs : list message) : list element * option exn :=
  match msgs with
  | [] => ([], None)
  | msg :: rest =>
      match render_error msg with
      | Some e => ([ChatMessage (role msg) []], Some e)
      | None => (shown msg :: (rendered rest).1, (rendered rest).2)
      end
  end.

(** How a piece of the script ends that raises [e] or nothing. *)
Definition ended (e : option exn) : ctl unit :=
  match e with
  | None => Ok tt
  | Some e => Fail e
  end.

Definition is_chat_message (e : element) : bool :=
  match e with
  | ChatMessage _ _ => true
  | _ => false
  end.

(** The chat messages on a screen, top to bottom. *)
Definition chat_elements (s : list element) : list element :=
  List.filter is_chat_message s.

Definition is_chat_call (c : call) : bool :=
  match c with
  | DfChat _ _ | PaiChat _ _ => true
  | _ => false
  end.

(** The questions a run sent to the library. *)
Definition chat_calls (l : list call) : list call :=
  List.filter is_chat_call l.

(** What [load_data] will return in a given state of the cache. *)
Definition loaded_frames (w : world R) : outcome (PaiFrame * PaiFrame) :=
  match cache_data w with
  | Some d => Returned d
  | None =>
      match pai_read_csv "data/holdings.csv" with
      | Returned holdings =>
          match pai_read_csv "data/trades.csv" with
          | Returned trades => Returned (holdings, trades)
          | Raised e => Raised e
          end
      | Raised e => Raised e
      end
  end.

(** The client a run works with: the cached one, or one built from the
    environment. *)
Definition page_llm (i : inputs) (w : world R) : LiteLLM :=
  let env := load_dotenv true (dotenv i) (environ i) in
  default {| model := "azure/" +:+ fstr (getenv env "AZURE_OPENAI_DEPLOYMENT");
             api_key := fstr (getenv env "AZURE_OPENAI_API_KEY");
             api_base := fstr (getenv env "AZURE_OPENAI_ENDPOINT");
             api_version := fstr (getenv env "AZURE_OPENAI_API_VERSION") |}
          (cache_resource w).

(** The configuration in force when the page asks a question. *)
Definition page_config (i : inputs) (w : world R) : option Config :=
  Some {| llm := page_llm i w; verbose := false;
          System_prompt := system_prompt_text |}.

(** Whoever wrote a message: the two roles of the chat. *)
Definition role_ok (m : message) : Prop :=
  role m = "user" \/ role m = "assistant".

(** The invariant of the history, and what it is for a piece of the
    script to keep it. *)
Definition roles_ok (w : world R) : Prop := Forall role_ok (history w).

Definition keeps_roles {A} (m : M A) : Prop :=
  forall w, roles_ok w -> roles_ok (m w).2.

(** The library calls of the start-up: the client is constructed and
    the files are read only when the caches do not hold them. *)
Definition startup_calls (i : inputs) (w : world R) : list call :=
  match cache_resource w with
  | Some _ => []
  | None => [NewLiteLLM (page_llm i w)]
  end
  ++ match cache_data w with
     | Some _ => []
     | None => [ReadCsv "data/holdings.csv"; ReadCsv "data/trades.csv"]
     end.

(** What a run that gets past the start-up leaves in the caches, the
    configuration and the call log. *)
Definition started (i : inputs) (w : world R) (h t : PaiFrame) (w' : world R)
  : Prop :=
  cache_resource w' = Some (page_llm i w)
  /\ cache_data w' = Some (h, t)
  /\ config w' = page_config i w
  /\ calls w' = startup_calls i w ++ chat_calls (calls w').

(** What a run does to the session: how it ends, the history it leaves,
    the questions it sent and the hosted model as it leaves it. *)
Definition effect (i : inputs) (w : world R)
  : ctl unit * list message * list call * R :=
  ((run i w).1, history (run i w).2, chat_calls (calls (run i w).2),
   service (run i w).2).




(** The states a session can be in: a started server, and whatever an
    interaction makes of a state it can be in. *)
Inductive reachable : world R -> Prop :=
| reachable_start (r : R) : reachable (start r)
| reachable_interact (i : inputs) (w : world R) :
    reachable w -> reachable (interact i w).2.

End Page.

(** The text between the first pair of double quotes that follows
    [marker] in [text]. *)
Definition quoted_after (marker text : string) : option string :=
  match String.index 0 marker text with
  | None => None
  | Some i =>
      let from := i + String.length marker in
      let rest := String.substring from (String.length text - from) text in
      match String.index 0 dq rest with
      | None => None
      | Some j =>
          let inner := String.substring (j + 1) (String.length rest - (j + 1)) rest in
          match String.index 0 dq inner with
          | None => None
          | Some k => Some (String.substring 0 k inner)
          end
      end
  end.

(** *** A small instance to run the page on

    The library answers a dataframe question with the number of requests
    so far, a dataframe for the question "table", an object that has a
    [head] attribute and is no table for "headonly", a dict with a
    "dataframe" key that holds text for "dict", and an error for "boom";
    the multi-table call always raises [ExecuteSQLQueryNotUsed]. *)
Definition example_pandasai : PandasAI nat :=
  {| pai_read_csv := fun p => Returned {| path := p |};
     df_chat := fun _ _ question n =>
       (if String.eqb question "boom"
        then Raised (LibraryError "APIError" "boom")
        else if String.eqb question "table"
        then Returned (PTable "rows")
        else if String.eqb question "headonly"
        then Returned (PObject true "headonly")
        else if String.eqb question "dict"
        then Returned (PDict [("dataframe", PStr "no table")])
        else Returned (PStr ("answer " +:+ pretty n)),
        S n);
     pai_chat := fun _ _ _ n => (Raised (ExecuteSQLQueryNotUsed "no SQL"), S n);
     df_head := fun df _ => "head of " +:+ path df |}.

(** The same library on a disk without trades.csv. *)
Definition example_pandasai_no_trades : PandasAI nat :=
  {| pai_read_csv := fun p =>
       if String.eqb p "data/trades.csv"
       then Raised (FileNotFoundError p)
       else Returned {| path := p |};
     df_chat := df_chat (PandasAI := example_pandasai);
     pai_chat := pai_chat (PandasAI := example_pandasai);
     df_head := df_head (PandasAI := example_pandasai) |}.

(** A table widget that converts dicts and refuses text and other
    objects. *)
Definition example_streamlit : Streamlit :=
  {| dataframe_error := fun data =>
       match data with
       | PDict _ | PTable _ => None
       | _ => Some (LibraryError "StreamlitAPIException"
                      "Unable to convert object to pandas.DataFrame")
       end |}.

Definition example_environ : gmap string string :=
  {[ "AZURE_OPENAI_API_KEY" := "secret";
     "AZURE_OPENAI_ENDPOINT" := "https://example.openai.azure.com";
     "AZURE_OPENAI_DEPLOYMENT" := "gpt";
     "AZURE_OPENAI_API_VERSION" := "2024-02-01" ]}.

Definition example_inputs (sel : scope) (t : trigger) : inputs :=
  {| environ := example_environ; dotenv := ∅; selected := sel; trig := t |}.

End App.

(** * Properties *)

(** ** The presence check on the environment *)

Lemma truthy_present (env : gmap string string) (name : string) :
  truthy (getenv env name) = true <-> present env name.
Proof.
  unfold truthy, getenv, present. destruct (env !! name) as [s|].
  - destruct (String.eqb_spec s "") as [->|Hs]; cbn.
    + split; [done|]. intros (s & [= <-] & Hs). done.
    + split; [|done]. intros _. by exists s.
  - split; [done|]. by intros (s & ? & _).
Qed.

Lemma truthy_absent (env : gmap string string) (name : string) :
  truthy (getenv env name) = false <-> absent_or_empty env name.
Proof.
  unfold truthy, getenv, absent_or_empty. destruct (env !! name) as [s|].
  - destruct (String.eqb_spec s "") as [->|Hs]; cbn.
    + split; [by right|done].
    + split; [done|]. intros [|[= ->]]; done.
  - split; [by left|done].
Qed.

Lemma py_all_present (env : gmap string string) (names : list string) :
  py_all (map (getenv env) names) = true <-> Forall (present env) names.
Proof.
  unfold py_all. induction names as [|name names IH]; cbn.
  - split; [constructor|done].
  - rewrite andb_true_iff, Forall_cons, IH, truthy_present. done.
Qed.

Lemma py_all_absent (env : gmap string string) (names : list string) :
  py_all (map (getenv env) names) = false <->
  exists name, name ∈ names /\ absent_or_empty env name.
Proof.
  unfold py_all. induction names as [|name names IH]; cbn.
  - split; [done|]. intros (name & Hin & _). by apply elem_of_nil in Hin.
  - rewrite andb_false_iff, IH, truthy_absent. split.
    + intros [H|(n & Hin & H)].
      * exists name. split; [left|done].
      * exists n. split; [by right|done].
    + intros (n & Hin & H). apply elem_of_cons in Hin as [->|Hin].
      * by left.
      * right. by exists n.
Qed.

(** ** rag.py: rows, sentences and documents *)

Module RagFacts.
Import Rag.

Lemma foldl_append_part (r : row) (acc : list string) :
  foldl append_part acc r = acc ++ field_texts r.
Proof.
  revert acc. induction r as [|[col val] r IH]; intros acc.
  - cbn. by rewrite app_nil_r.
  - change (foldl append_part acc ((col, val) :: r))
      with (foldl append_part (append_part acc (col, val)) r).
    rewrite IH. unfold append_part, field_texts.
    change ((col, val).2) with val. change ((col, val).1) with col.
    destruct (notna val) eqn:Hval.
    + rewrite (filter_cons_True _ (col, val)) by done.
      rewrite <- app_assoc. done.
    + rewrite (filter_cons_False _ (col, val)); [done|].
      change ((col, val).2) with val. congruence.
Qed.

Lemma create_readable_text_from_row_eq (r : row) :
  create_readable_text_from_row r = str_join ". " (field_texts r) +:+ ".".
Proof. unfold create_readable_text_from_row. by rewrite foldl_append_part. Qed.

Lemma foldl_append_doc (source : string) (rows : list row) (acc : list Document) :
  foldl (append_doc source) acc rows = acc ++ map (sentence source) rows.
Proof.
  revert acc. induction rows as [|r rows IH]; intros acc; cbn.
  - by rewrite app_nil_r.
  - rewrite IH. unfold append_doc, sentence.
    rewrite create_readable_text_from_row_eq. by rewrite <- app_assoc.
Qed.

Lemma df_to_documents_eq {Pd : Pandas} (df : DataFrame) (source : string) :
  df_to_documents df source = map (sentence source) (iterrows df).
Proof. unfold df_to_documents. by rewrite foldl_append_doc. Qed.

Lemma field_texts_app (r1 r2 : row) :
  field_texts (r1 ++ r2) = field_texts r1 ++ field_texts r2.
Proof. unfold field_texts. by rewrite filter_app, map_app. Qed.

Lemma field_texts_null (r : row) :
  forallb (fun item => negb (notna item.2)) r = true -> field_texts r = [].
Proof.
  induction r as [|[col val] r IH]; [done|].
  intros H. cbn in H. apply andb_true_iff in H as [Hval Hr].
  unfold field_texts.
  rewrite (filter_cons_False _ (col, val)); [by apply IH|].
  change ((col, val).2) with val. by destruct (notna val).
Qed.

(** C9: [create_readable_text_from_row] leaves every null field out of
    the text (a null field anywhere in the row changes nothing, and the
    text is built from the fields that have a value), and a row whose
    values are all null gives exactly ["."]. *)
Theorem create_readable_text_omits_nulls (r : row) :
  (forall r1 r2 col val,
      r = r1 ++ (col, val) :: r2 -> notna val = false ->
      create_readable_text_from_row r = create_readable_text_from_row (r1 ++ r2))
  /\ create_readable_text_from_row r = str_join ". " (field_texts r) +:+ "."
  /\ (forallb (fun item => negb (notna item.2)) r = true ->
      create_readable_text_from_row r = ".").
Proof.
  split; [|split].
  - intros r1 r2 col val -> Hval.
    rewrite !create_readable_text_from_row_eq.
    change ((col, val) :: r2) with ([(col, val)] ++ r2).
    rewrite !field_texts_app.
    assert (field_texts [(col, val)] = []) as ->; [|done].
    apply field_texts_null. cbn. by rewrite Hval.
  - apply create_readable_text_from_row_eq.
  - intros Hnull. rewrite create_readable_text_from_row_eq.
    by rewrite field_texts_null.
Qed.

(** A row with a missing ticker between two values, and a row with no
    value at all. *)
Lemma create_readable_text_omits_nulls_witness :
  create_readable_text_from_row
    [("Name", CStr "ACME"); ("Ticker", CNaN); ("Quantity", CInt 5)]
  = "Name: ACME. Quantity: 5."
  /\ create_readable_text_from_row [("Ticker", CNaN); ("Price", CNone)] = ".".
Proof.
  split.
  - rewrite (proj1 (create_readable_text_omits_nulls
                      [("Name", CStr "ACME"); ("Ticker", CNaN); ("Quantity", CInt 5)])
               [("Name", CStr "ACME")] [("Quantity", CInt 5)] "Ticker" CNaN
               eq_refl eq_refl).
    reflexivity.
  - apply (proj2 (proj2 (create_readable_text_omits_nulls
                           [("Ticker", CNaN); ("Price", CNone)]))).
    reflexivity.
Defined.

(** *** Running the script step by step *)

Section Script.

Context {R : Type} {L : Libraries R} {Pd : Pandas}.

Local Notation "'let!' x ':=' m 'in' k" := (bind m (fun x => k))
  (at level 10, x name, m at level 100, k at level 200).
Local Notation "m '>>' k" := (bind m (fun _ => k))
  (at level 190, right associativity).

Lemma run_ret {A B} (a : A) (k : A -> M B) (w : world R) :
  bind (ret a) k w = k a w.
Proof. reflexivity. Qed.

Lemma run_assign {B} (name : string) (o : obj) (k : unit -> M B) (w : world R) :
  bind (assign name o) k w = k tt (with_globals (insert name o) w).
Proof. reflexivity. Qed.

Lemma run_unbind {B} (name : string) (k : unit -> M B) (w : world R) :
  bind (unbind name) k w = k tt (with_globals (delete name) w).
Proof. reflexivity. Qed.

Lemma run_write {B} (s : string) (k : unit -> M B) (w : world R) :
  bind (write s) k w = k tt (with_stdout (fun out => out ++ [s]) w).
Proof. reflexivity. Qed.

Lemma run_print {B} (s : string) (k : unit -> M B) (w : world R) :
  bind (print s) k w = k tt (with_stdout (fun out => out ++ [s +:+ nl]) w).
Proof. reflexivity. Qed.

Lemma run_lift {A B} (a : A) (k : A -> M B) (w : world R) :
  bind (lift (Returned a)) k w = k a w.
Proof. reflexivity. Qed.

Lemma run_lift_raised {A B} (e : exn) (k : A -> M B) (w : world R) :
  bind (lift (Raised e)) k w = (Raised e, w).
Proof. reflexivity. Qed.

Lemma run_raise {A B} (e : exn) (k : A -> M B) (w : world R) :
  bind (raise e) k w = (Raised e, w).
Proof. reflexivity. Qed.

Lemma run_new_client {B} (c : AzureChatOpenAI) (k : AzureChatOpenAI -> M B)
    (w : world R) :
  bind (new_AzureChatOpenAI c) k w = k c (with_clients (fun cs => cs ++ [c]) w).
Proof. reflexivity. Qed.

Lemma run_bind_bind {A B C} (m : M A) (k : A -> M B) (k' : B -> M C) (w : world R) :
  bind (bind m k) k' w = bind m (fun a => bind (k a) k') w.
Proof. unfold bind. destruct (m w) as [[a|e] w']; reflexivity. Qed.

Ltac step :=
  first [ rewrite run_assign | rewrite run_print | rewrite run_write
        | rewrite run_ret | rewrite run_lift | rewrite run_new_client
        | rewrite run_unbind ];
  cbv beta.

(** The environment check of section 1, in the words of the
    specification. *)
Lemma script_check (env : gmap string string) :
  py_all [getenv env "AZURE_OPENAI_API_KEY"; getenv env "AZURE_OPENAI_ENDPOINT";
          getenv env "AZURE_OPENAI_DEPLOYMENT"; getenv env "AZURE_OPENAI_API_VERSION"]
  = py_all (map (getenv env) required_variables).
Proof. reflexivity. Qed.

(** With a variable missing the script stops at the check. *)
Lemma script_setup_missing (environ dotenv : gmap string string)
    (fs : gmap string csv_file) (w : world R) :
  let env := load_dotenv false dotenv environ in
  py_all (map (getenv env) required_variables) = false ->
  exists w',
    script_setup environ dotenv fs w
    = (Raised (ValueError "❌ Missing Azure OpenAI environment variables"), w')
    /\ clients w' = clients w /\ stdout w' = stdout w.
Proof.
  intros env Henv. eexists. split.
  - unfold script_setup. fold env. cbv zeta.
    rewrite script_check, Henv. change (negb false) with true. cbv iota.
    repeat step. rewrite run_raise. reflexivity.
  - split; reflexivity.
Qed.

(** With the four variables present and both files in place the script
    gets as far as the index; with at least one row it gets to the
    loop. *)
Lemma script_setup_loaded (environ dotenv : gmap string string)
    (fs : gmap string csv_file) (w : world R) (H T : csv_file) :
  let env := load_dotenv false dotenv environ in
  let holding_df := read_frame H 1023 in
  let trade_df := read_frame T 700 in
  let documents :=
    df_to_documents holding_df "holding" ++ df_to_documents trade_df "trade" in
  let llm := build_llm (getenv env "AZURE_OPENAI_ENDPOINT")
               (getenv env "AZURE_OPENAI_API_KEY")
               (getenv env "AZURE_OPENAI_API_VERSION")
               (getenv env "AZURE_OPENAI_DEPLOYMENT") in
  py_all (map (getenv env) required_variables) = true ->
  fs !! "data/holdings.csv" = Some H ->
  fs !! "data/trades.csv" = Some T ->
  exists r w',
    script_setup environ dotenv fs w = (r, w')
    /\ globals w' !! "holding_df" = Some (OFrame holding_df)
    /\ globals w' !! "trade_df" = Some (OFrame trade_df)
    /\ globals w' !! "documents" = Some (ODocuments documents)
    /\ service w' = service w
    /\ forall vector_store,
        from_documents documents
          {| model_name := "sentence-transformers/all-MiniLM-L6-v2" |}
        = Returned vector_store ->
        r = Returned tt
        /\ static w' =
           [Some (ODocuments documents); Some (OStore vector_store);
            Some (ORetriever (build_retriever vector_store));
            Some (OPrompt (from_template prompt_text));
            Some (ORunnable (build_rag_chain (build_retriever vector_store)
                               (from_template prompt_text) llm))]
        /\ globals w' !! "llm" = Some (OModel llm)
        /\ clients w' = clients w ++ [llm].
Proof.
  intros env holding_df trade_df documents llm Henv HH HT.
  unfold script_setup. fold env. cbv zeta.
  rewrite script_check, Henv. change (negb true) with false. cbv iota.
  repeat step.
  change (path_join "data" "holdings.csv") with "data/holdings.csv".
  unfold read_csv at 1. rewrite HH. fold holding_df. repeat step.
  change (path_join "data" "trades.csv") with "data/trades.csv".
  unfold read_csv at 1. rewrite HT. fold trade_df. repeat step.
  fold documents.
  destruct (from_documents documents _) as [vector_store|e] eqn:Hindex.
  - repeat step. fold llm. unfold print, write. do 2 eexists.
    split; [reflexivity|].
    unfold static. cbn [globals with_globals with_stdout with_clients
                        with_service stdout clients service].
    repeat split; by simplify_map_eq.
  - rewrite run_lift_raised. do 2 eexists. split; [reflexivity|].
    cbn [globals with_globals with_stdout with_clients with_service
         stdout clients service].
    repeat split; by simplify_map_eq.
Qed.

(** *** The chain *)

(** Induction on runnables that reaches the steps of a parallel one. *)
Lemma Runnable_steps_ind (P : Runnable -> Prop) :
  (forall rt, P (RRetriever rt)) ->
  P RPassthrough ->
  (forall steps, Forall (fun kv => P kv.2) steps -> P (RParallel steps)) ->
  (forall p, P (RPrompt p)) ->
  (forall m, P (RChatModel m)) ->
  P RStrOutputParser ->
  (forall first last, P first -> P last -> P (RSequence first last)) ->
  forall r, P r.
Proof.
  intros Hret Hpass Hpar Hprompt Hmodel Hparse Hseq.
  fix IH 1. intros [rt| |steps|p|m| |first last].
  - apply Hret.
  - apply Hpass.
  - apply Hpar. induction steps as [|[key step] steps IHsteps].
    + constructor.
    + constructor; [apply IH|apply IHsteps].
  - apply Hprompt.
  - apply Hmodel.
  - apply Hparse.
  - apply Hseq; apply IH.
Qed.

Lemma with_service_same (w : world R) : with_service (service w) w = w.
Proof. by destruct w. Qed.

Lemma service_only_ret {A} (a : A) : service_only (R:=R) (ret a).
Proof. intros w. exists (Returned a), (service w). by rewrite with_service_same. Qed.

Lemma service_only_raise {A} (e : exn) : service_only (R:=R) (A:=A) (raise e).
Proof. intros w. exists (Raised e), (service w). by rewrite with_service_same. Qed.

Lemma service_only_lift {A} (o : outcome A) : service_only (R:=R) (lift o).
Proof. intros w. exists o, (service w). by rewrite with_service_same. Qed.

Lemma service_only_request (m : AzureChatOpenAI) (text : string) :
  service_only (request m text).
Proof.
  intros w. unfold request.
  destruct (chat_completion m text (service w)) as [o r]. by exists o, r.
Qed.

Lemma service_only_bind {A B} (m : M (R:=R) A) (k : A -> M (R:=R) B) :
  service_only m -> (forall a, service_only (k a)) -> service_only (bind m k).
Proof.
  intros Hm Hk w. unfold bind. destruct (Hm w) as (o & r & ->).
  destruct o as [a|e].
  - destruct (Hk a (with_service r w)) as (o' & r' & ->). by exists o', r'.
  - by exists (Raised e), r.
Qed.

Create HintDb frame.
#[local] Hint Resolve service_only_ret service_only_raise service_only_lift
  service_only_request : frame.

Lemma invoke_service_only (r : Runnable) (input : value) :
  service_only (invoke r input).
Proof.
  revert input. induction r as [rt| |steps IH|p|m| |first last IH1 IH2]
    using Runnable_steps_ind; intros input; cbn [invoke].
  - destruct input; try apply service_only_raise.
    apply service_only_bind; auto with frame.
  - auto with frame.
  - apply service_only_bind; [|auto with frame].
    induction IH as [|[key step] steps Hstep _ IHsteps]; [auto with frame|].
    apply service_only_bind; [apply Hstep|]. intros v.
    apply service_only_bind; [apply IHsteps|auto with frame].
  - destruct input; try apply service_only_raise.
    apply service_only_bind; auto with frame.
  - destruct input; try apply service_only_raise;
      apply service_only_bind; auto with frame.
  - destruct input; auto with frame; apply service_only_raise.
  - apply service_only_bind; auto.
Qed.

(** The template with its two fields filled. *)
Lemma vformat_prompt_text (context question : string) :
  vformat prompt_text None [("context", context); ("question", question)]
  = Returned (filled_prompt context question).
Proof. vm_compute. reflexivity. Qed.

Lemma template_of_prompt : template (from_template prompt_text) = prompt_text.
Proof. reflexivity. Qed.

Lemma input_variables_of_prompt :
  input_variables (from_template prompt_text) = ["context"; "question"].
Proof. vm_compute. reflexivity. Qed.

Lemma retriever_top_100 (vector_store : FAISS) (query : string) :
  get_relevant_documents (build_retriever vector_store) query
  = Returned (similarity_search vector_store query 100).
Proof.
  unfold get_relevant_documents, build_retriever, as_retriever. cbn.
  by rewrite lookup_singleton_eq.
Qed.

Lemma invoke_build_rag_chain (vector_store : FAISS) (llm : AzureChatOpenAI)
    (question : string) (w : world R) :
  invoke (build_rag_chain (build_retriever vector_store)
            (from_template prompt_text) llm) (VStr question) w
  = pipeline vector_store llm question w.
Proof.
  unfold build_rag_chain, pipeline. cbn [invoke].
  rewrite !run_bind_bind, retriever_top_100.
  repeat (first [rewrite run_ret | rewrite run_lift | rewrite run_bind_bind];
          cbv beta iota).
  rewrite template_of_prompt.
  cbn [map fst snd py_str]. rewrite vformat_prompt_text.
  repeat (first [rewrite run_ret | rewrite run_lift | rewrite run_bind_bind];
          cbv beta iota).
  unfold bind, request, ret.
  destruct (chat_completion llm _ (service w)) as [[content|e] r]; reflexivity.
Qed.

(** *** One iteration of the loop *)

Lemma invoke_rag_chain_eq (chain : Runnable) (question : string) (w : world R) :
  globals w !! "rag_chain" = Some (ORunnable chain) ->
  globals w !! "user_question" = Some (OStr question) ->
  invoke_rag_chain w = invoke chain (VStr question) w.
Proof.
  intros Hchain Hquestion. unfold invoke_rag_chain, bind, read.
  by rewrite Hchain, Hquestion.
Qed.

(** Calling the chain changes nothing but the hosted service. *)
Lemma invoke_rag_chain_service_only : service_only (R:=R) invoke_rag_chain.
Proof.
  unfold invoke_rag_chain. intros w. unfold bind, read.
  destruct (globals w !! "rag_chain") as [chain|];
    [|eexists _, (service w); by rewrite with_service_same].
  destruct (globals w !! "user_question") as [question|];
    [|eexists _, (service w); by rewrite with_service_same].
  destruct chain; try (eexists _, (service w); by rewrite with_service_same).
  destruct question; try (eexists _, (service w); by rewrite with_service_same).
  apply invoke_service_only.
Qed.

Lemma iteration_exit (line : string) (w : world R) :
  is_exit line = true ->
  iteration line w
  = (Returned Break,
     with_stdout (fun out => out ++ ["👋 Goodbye!" +:+ nl])
       (with_globals (insert "user_question" (OStr line)) w)).
Proof. intros Hexit. unfold iteration. rewrite Hexit. by repeat step. Qed.

Lemma iteration_answered (line : string) (w w2 : world R) (answer : value) :
  is_exit line = false ->
  invoke_rag_chain (with_globals (insert "user_question" (OStr line)) w)
  = (Returned answer, w2) ->
  iteration line w
  = (Returned Continue,
     with_stdout (fun out => out ++ [(nl +:+ "AI: " +:+ py_str answer +:+ nl) +:+ nl])
       (with_globals (insert "answer" (OValue answer)) w2)).
Proof.
  intros Hexit Hcall. unfold iteration. rewrite Hexit. step.
  unfold bind at 1. unfold try_except. unfold bind at 1. rewrite Hcall.
  by repeat step.
Qed.

Lemma iteration_raised (line : string) (w w2 : world R) (e : exn) :
  is_exit line = false ->
  invoke_rag_chain (with_globals (insert "user_question" (OStr line)) w)
  = (Raised e, w2) ->
  iteration line w
  = (Returned Continue,
     with_globals (delete "e")
       (with_stdout (fun out => out ++ [("⚠️ Error: " +:+ exn_str e +:+ nl) +:+ nl])
          (with_globals (insert "e" (OExn e)) w2))).
Proof.
  intros Hexit Hcall. unfold iteration. rewrite Hexit. step.
  unfold bind at 1. unfold try_except. unfold bind at 1. rewrite Hcall.
  by repeat step.
Qed.

(** Any line that is not a word of exit sends the loop round again, and
    leaves alone the clients and every global name but the three its
    body binds. *)
Lemma iteration_continues (line : string) (w : world R) :
  is_exit line = false ->
  exists w', iteration line w = (Returned Continue, w')
             /\ same_except ["user_question"; "answer"; "e"] w w'.
Proof.
  intros Hexit.
  destruct (invoke_rag_chain_service_only
              (with_globals (insert "user_question" (OStr line)) w))
    as ([answer|e] & r & Hcall).
  - eexists. split; [by apply iteration_answered|].
    split; [done|]. intros name Hname. cbn.
    rewrite !not_elem_of_cons in Hname. destruct Hname as (? & ? & ? & _).
    by rewrite !lookup_insert_ne.
  - eexists. split; [by apply iteration_raised|].
    split; [done|]. intros name Hname. cbn.
    rewrite !not_elem_of_cons in Hname. destruct Hname as (? & ? & ? & _).
    by rewrite lookup_delete_ne, !lookup_insert_ne.
Qed.

Lemma same_except_refl (names : list string) (w : world R) :
  same_except names w w.
Proof. by split. Qed.

Lemma same_except_trans (names : list string) (w1 w2 w3 : world R) :
  same_except names w1 w2 -> same_except names w2 w3 -> same_except names w1 w3.
Proof.
  intros [Hc1 Hg1] [Hc2 Hg2]. split; [congruence|].
  intros name Hname. rewrite Hg2, Hg1; done.
Qed.

Lemma same_except_static (w w' : world R) :
  same_except ["user_question"; "answer"; "e"] w w' -> static w' = static w.
Proof.
  intros [_ Hg]. unfold static.
  rewrite !Hg; [done|..];
    rewrite !not_elem_of_cons; repeat split; try done; apply not_elem_of_nil.
Qed.

Lemma input_line (line : string) (rest : list string) (w : world R) :
  input (line :: rest) w
  = (Returned (line, rest), with_stdout (fun out => out ++ ["You: "]) w).
Proof. reflexivity. Qed.

Lemma input_eof (w : world R) :
  input [] w = (Raised EOFError, with_stdout (fun out => out ++ ["You: "]) w).
Proof. reflexivity. Qed.

Lemma loop_step_inv (w w' : world R) (line : string) (rest : list string) :
  loop_step (w, line :: rest) (w', rest) ->
  iteration line (with_stdout (fun out => out ++ ["You: "]) w)
  = (Returned Continue, w').
Proof.
  inversion 1 as [? ? ? ? Hrun]; subst.
  unfold bind in Hrun. by rewrite input_line in Hrun.
Qed.

Lemma loop_step_same (c c' : world R * list string) :
  loop_step c c' -> same_except ["user_question"; "answer"; "e"] c.1 c'.1.
Proof.
  intros Hstep. destruct Hstep as [w w' line rest Hrun].
  unfold bind in Hrun. rewrite input_line in Hrun. cbn [fst].
  destruct (is_exit line) eqn:Hexit.
  - rewrite iteration_exit in Hrun by done. by inversion Hrun.
  - destruct (iteration_continues line
                (with_stdout (fun out => out ++ ["You: "]) w) Hexit)
      as (w2 & Hw2 & Hsame).
    rewrite Hw2 in Hrun. inversion Hrun; subst. exact Hsame.
Qed.

Lemma loop_step_qa_loop (c c' : world R * list string) :
  loop_step c c' -> qa_loop c.2 c.1 = qa_loop c'.2 c'.1.
Proof.
  intros Hstep. destruct Hstep as [w w' line rest Hrun]. cbn [fst snd].
  cbn [qa_loop]. rewrite <- run_bind_bind.
  unfold bind at 1. by rewrite Hrun.
Qed.

(** *** The documents *)

Lemma length_read_frame (f : csv_file) (n : nat) :
  length (values (read_frame f n)) = Nat.min n (length (records f)).
Proof.
  unfold read_frame, frame_of. cbn [values]. by rewrite length_map, length_take.
Qed.

(** C3: [df_to_documents] gives one document per row of the dataframe,
    in row order, whose text is the row's "column: value" pairs joined by
    ". " with a final "." and whose tag is the given source, the row
    being the one [iterrows] hands out: the cells under the column labels,
    cast to the common type of the columns.  The script reads at most the
    first 1023 records of holdings.csv and the first 700 of trades.csv,
    and its document list is the holdings documents followed by the
    trades documents, tagged "holding" and "trade". *)
Theorem documents_one_per_row (environ dotenv : gmap string string)
    (fs : gmap string csv_file) (w : world R) (H T : csv_file) :
  let env := load_dotenv false dotenv environ in
  let holding_df := read_frame H 1023 in
  let trade_df := read_frame T 700 in
  let w' := (script_setup environ dotenv fs w).2 in
  Forall (present env) required_variables ->
  fs !! "data/holdings.csv" = Some H ->
  fs !! "data/trades.csv" = Some T ->
  (forall df source,
      df_to_documents df source = map (sentence source) (iterrows df)
      /\ length (df_to_documents df source) = length (values df)
      /\ forall i doc, df_to_documents df source !! i = Some doc ->
           metadata doc !! "source" = Some source
           /\ exists cells r,
                values df !! i = Some cells
                /\ r = zip (columns df)
                         (map (upcast (find_common_type (dtypes df))) cells)
                /\ iterrows df !! i = Some r
                /\ page_content doc = str_join ". " (field_texts r) +:+ ".")
  /\ globals w' !! "holding_df" = Some (OFrame holding_df)
  /\ globals w' !! "trade_df" = Some (OFrame trade_df)
  /\ length (values holding_df) = Nat.min 1023 (length (records H))
  /\ length (values trade_df) = Nat.min 700 (length (records T))
  /\ globals w' !! "documents"
     = Some (ODocuments (map (sentence "holding") (iterrows holding_df)
                         ++ map (sentence "trade") (iterrows trade_df))).
Proof.
  intros env holding_df trade_df w' Henv HH HT.
  apply py_all_present in Henv.
  destruct (script_setup_loaded environ dotenv fs w H T Henv HH HT)
    as (r & w1 & Hrun & Hholding & Htrade & Hdocs & _).
  subst w'. rewrite Hrun. cbn [snd].
  split; [|repeat split].
  - intros df source. rewrite df_to_documents_eq. split; [done|]. split.
    + unfold iterrows. by rewrite !length_map.
    + intros i doc Hdoc. rewrite list_lookup_fmap in Hdoc.
      unfold iterrows in Hdoc. rewrite list_lookup_fmap in Hdoc.
      destruct (values df !! i) as [cells|] eqn:Hrow; [|done].
      injection Hdoc as <-. split.
      * cbn. by rewrite lookup_singleton_eq.
      * exists cells. eexists. split; [done|]. split; [reflexivity|].
        split; [|done]. unfold iterrows. by rewrite list_lookup_fmap, Hrow.
  - exact Hholding.
  - exact Htrade.
  - apply length_read_frame.
  - apply length_read_frame.
  - rewrite Hdocs. by rewrite !df_to_documents_eq.
Qed.

(** *** The chain answers by retrieval, prompt, model, parser *)


(** *** The loop *)

(** C7: going round the loop any number of times leaves the document
    list, the vector store, the retriever, the prompt template and the
    chain bound as they were (and constructs no client); the loop that
    continues from there is the loop that was started; and a question
    asked then is answered by invoking the chain the first question was
    answered with.  The same objects survive an iteration that breaks
    out.  What an iteration does change is the console, the three names
    its body binds and the hosted model, which is outside the script. *)
Theorem loop_keeps_static_index (c c' : world R * list string) :
  rtc loop_step c c' ->
  static c'.1 = static c.1
  /\ clients c'.1 = clients c.1
  /\ qa_loop c.2 c.1 = qa_loop c'.2 c'.1
  /\ (forall line, static (iteration line c'.1).2 = static c.1)
  /\ forall chain question,
       globals c.1 !! "rag_chain" = Some (ORunnable chain) ->
       (let! _ := assign "user_question" (OStr question) in invoke_rag_chain) c'.1
       = (let! _ := assign "user_question" (OStr question) in
          invoke chain (VStr question)) c'.1.
Proof.
  intros Hsteps.
  assert (same_except ["user_question"; "answer"; "e"] c.1 c'.1
          /\ qa_loop c.2 c.1 = qa_loop c'.2 c'.1) as [Hsame Hloop].
  { induction Hsteps as [c|c1 c2 c3 Hstep _ [IHsame IHloop]].
    - split; [apply same_except_refl|done].
    - split.
      + eapply same_except_trans; [by apply loop_step_same|done].
      + by rewrite (loop_step_qa_loop c1 c2 Hstep). }
  split; [by apply same_except_static|].
  split; [apply Hsame|]. split; [exact Hloop|]. split.
  - intros line. rewrite <- (same_except_static c.1 c'.1 Hsame).
    destruct (is_exit line) eqn:Hexit.
    + rewrite iteration_exit by done. cbn [snd]. unfold static. cbn.
      by rewrite !lookup_insert_ne.
    + destruct (iteration_continues line c'.1 Hexit) as (w2 & -> & Hsame2).
      by apply same_except_static.
  - intros chain question Hchain. rewrite !run_assign.
    apply invoke_rag_chain_eq; cbn.
    + rewrite lookup_insert_ne by done.
      destruct Hsame as [_ Hg]. rewrite Hg; [done|].
      rewrite !not_elem_of_cons. repeat split; try done. apply not_elem_of_nil.
    + apply lookup_insert_eq.
Qed.

Lemma qa_loop_until_exit (pre : list string) (word : string) (rest : list string)
    (w : world R) :
  Forall (fun l => is_exit l = false) pre ->
  is_exit word = true ->
  exists w', qa_loop (pre ++ word :: rest) w = (Returned tt, w')
             /\ last (stdout w') = Some ("👋 Goodbye!" +:+ nl)
             /\ qa_loop (pre ++ [word]) w = (Returned tt, w').
Proof.
  intros Hpre Hword. revert w.
  induction Hpre as [|line pre Hline _ IH]; intros w.
  - cbn [app qa_loop]. unfold bind. rewrite !input_line.
    rewrite iteration_exit by done. eexists. split; [reflexivity|].
    split; [|reflexivity]. cbn. by rewrite last_snoc.
  - cbn [app qa_loop]. unfold bind at 1 3. rewrite !input_line.
    destruct (iteration_continues line
                (with_stdout (fun out => out ++ ["You: "]) w) Hline)
      as (w2 & Hw2 & _).
    unfold bind. rewrite Hw2. apply IH.
Qed.

Lemma qa_loop_until_eof (lines : list string) (w : world R) :
  Forall (fun l => is_exit l = false) lines ->
  exists w', qa_loop lines w = (Raised EOFError, w').
Proof.
  intros Hlines. revert w. induction Hlines as [|line lines Hline _ IH]; intros w.
  - cbn [qa_loop]. unfold bind. rewrite input_eof. by eexists.
  - cbn [qa_loop]. unfold bind at 1. rewrite input_line.
    destruct (iteration_continues line
                (with_stdout (fun out => out ++ ["You: "]) w) Hline)
      as (w2 & Hw2 & _).
    unfold bind. rewrite Hw2. apply IH.
Qed.

Lemma is_exit_words (line : string) :
  is_exit line = true <->
  lower line = "exit" \/ lower line = "quit" \/ lower line = "q".
Proof.
  unfold is_exit, str_in. cbn [existsb].
  rewrite !orb_true_iff, !String.eqb_eq. intuition discriminate.
Qed.

(** While lines that are not words of exit keep coming, the loop keeps
    coming back to its head. *)
Lemma qa_loop_past (pre more : list string) (w : world R) :
  Forall (fun l => is_exit l = false) pre ->
  exists w', rtc loop_step (w, pre ++ more) (w', more)
             /\ qa_loop (pre ++ more) w = qa_loop more w'.
Proof.
  intros Hpre. revert w. induction Hpre as [|line pre Hline _ IH]; intros w.
  - exists w. split; [apply rtc_refl|done].
  - destruct (iteration_continues line
                (with_stdout (fun out => out ++ ["You: "]) w) Hline)
      as (w1 & Hw1 & _).
    assert (loop_step (w, (line :: pre) ++ more) (w1, pre ++ more)) as Hstep.
    { apply loop_continue. unfold bind. by rewrite input_line. }
    destruct (IH w1) as (w2 & Hsteps & Hloop).
    exists w2. split; [by eapply rtc_l|].
    rewrite <- Hloop. exact (loop_step_qa_loop _ _ Hstep).
Qed.

(** C8, as the code has it: as long as the console supplies lines, the
    loop ends exactly at the first input that, lowercased, is "exit",
    "quit" or "q" (with the goodbye line, reading nothing after it), and
    after any other input it is back at its head to read the next one;
    for such an input the iteration never ends the loop, an exception
    raised while computing the answer being caught and printed. *)
Theorem qa_loop_ends (lines : list string) (w : world R) :
  (forall line, is_exit line = true <->
                lower line = "exit" \/ lower line = "quit" \/ lower line = "q")
  /\ (forall pre word rest,
        lines = pre ++ word :: rest ->
        Forall (fun l => is_exit l = false) pre ->
        is_exit word = true ->
        exists w', qa_loop lines w = (Returned tt, w')
                   /\ last (stdout w') = Some ("👋 Goodbye!" +:+ nl)
                   /\ qa_loop (pre ++ [word]) w = (Returned tt, w'))
  /\ (forall pre more,
        lines = pre ++ more ->
        Forall (fun l => is_exit l = false) pre ->
        exists w', rtc loop_step (w, lines) (w', more)
                   /\ qa_loop lines w = qa_loop more w')
  /\ forall line,
       is_exit line = false ->
       exists w', iteration line w = (Returned Continue, w')
                  /\ forall e w2,
                       invoke_rag_chain
                         (with_globals (insert "user_question" (OStr line)) w)
                       = (Raised e, w2) ->
                       stdout w'
                       = stdout w2 ++ [("⚠️ Error: " +:+ exn_str e +:+ nl) +:+ nl].
Proof.
  split; [apply is_exit_words|]. split; [|split].
  - intros pre word rest -> Hpre Hword. by apply qa_loop_until_exit.
  - intros pre more -> Hpre. by apply qa_loop_past.
  - intros line Hline.
    destruct (iteration_continues line w Hline) as (w' & Hw' & _).
    exists w'. split; [done|]. intros e w2 Hcall.
    rewrite (iteration_raised line w w2 e Hline Hcall) in Hw'.
    by injection Hw' as <-.
Qed.

(** *** Further properties of the script *)

Lemma lower_ascii_idem (c : ascii) : lower_ascii (lower_ascii c) = lower_ascii c.
Proof.
  destruct c as [[] [] [] [] [] [] [] []]; reflexivity.
Qed.

Lemma lower_idem (s : string) : lower (lower s) = lower s.
Proof.
  induction s as [|c s IH]; cbn [lower]; [done|].
  by rewrite lower_ascii_idem, IH.
Qed.

Lemma lower_app (s t : string) : lower (s +:+ t) = lower s +:+ lower t.
Proof. induction s as [|c s IH]; simpl; [done|]. by rewrite IH. Qed.

(** X1: the test for a word of exit ignores the case of the letters and
    nothing else: two inputs that differ only in case are treated alike,
    lowering an input first changes nothing, and, as the input is not
    stripped, a word of exit with a space before or after it is not one
    (it is sent to the chain as a question). *)
Theorem is_exit_case_and_spaces (line : string) :
  is_exit (lower line) = is_exit line
  /\ (forall other, lower other = lower line -> is_exit other = is_exit line)
  /\ is_exit (" " +:+ line) = false
  /\ is_exit (line +:+ " ") = false.
Proof.
  split; [unfold is_exit; by rewrite lower_idem|].
  split; [intros other Hsame; unfold is_exit; by rewrite Hsame|].
  split.
  - destruct (is_exit (" " +:+ line)) eqn:Hexit; [|done].
    apply is_exit_words in Hexit. cbn in Hexit.
    destruct Hexit as [H|[H|H]]; discriminate H.
  - destruct (is_exit (line +:+ " ")) eqn:Hexit; [|done].
    apply is_exit_words in Hexit. rewrite lower_app in Hexit.
    change (lower " ") with " " in Hexit.
    destruct (lower line) as [|c1 [|c2 [|c3 [|c4 [|c5 rest]]]]];
      cbn in Hexit; destruct Hexit as [H|[H|H]]; discriminate H.
Qed.






(** X3: what one question does, once the script is set up.  When the
    model replies, the reply is bound to [answer] and printed after
    "AI: "; when the call fails, the error is printed, the name [e] is
    unbound again and [answer] keeps the value it had, so a failed
    question leaves the previous answer in place.  Either way
    [user_question] holds the line, the loop goes on, and no other trace
    is left than the change of the hosted model. *)
Theorem iteration_effect (vector_store : FAISS) (llm : AzureChatOpenAI)
    (line : string) (w : world R) :
  globals w !! "rag_chain"
  = Some (ORunnable (build_rag_chain (build_retriever vector_store)
                       (from_template prompt_text) llm)) ->
  is_exit line = false ->
  let text := filled_prompt
                (py_repr (VDocs (similarity_search vector_store line 100))) line in
  let w' := (iteration line w).2 in
  (iteration line w).1 = Returned Continue
  /\ globals w' !! "user_question" = Some (OStr line)
  /\ service w' = (chat_completion llm text (service w)).2
  /\ match (chat_completion llm text (service w)).1 with
     | Returned content =>
         stdout w' = stdout w ++ [(nl +:+ "AI: " +:+ content +:+ nl) +:+ nl]
         /\ globals w' !! "answer" = Some (OValue (VStr content))
         /\ globals w' !! "e" = globals w !! "e"
     | Raised e =>
         stdout w' = stdout w ++ [("⚠️ Error: " +:+ exn_str e +:+ nl) +:+ nl]
         /\ globals w' !! "answer" = globals w !! "answer"
         /\ globals w' !! "e" = None
     end.
Proof.
  intros Hchain Hline text w'. subst w'.
  pose proof (invoke_rag_chain_eq
                (build_rag_chain (build_retriever vector_store)
                   (from_template prompt_text) llm) line
                (with_globals (insert "user_question" (OStr line)) w)) as Hcall.
  cbn [globals with_globals] in Hcall.
  rewrite lookup_insert_ne in Hcall by done.
  specialize (Hcall Hchain (lookup_insert_eq _ _ _)).
  rewrite invoke_build_rag_chain in Hcall. unfold pipeline in Hcall.
  cbn [service with_globals] in Hcall. fold text in Hcall.
  destruct (chat_completion llm text (service w)) as [[content|e] r].
  - rewrite (iteration_answered line w _ _ Hline Hcall). cbn.
    repeat split; by simplify_map_eq.
  - rewrite (iteration_raised line w _ _ Hline Hcall). cbn.
    repeat split; by simplify_map_eq.
Qed.

(** X4: [input] is called outside the [try].  When the console input
    ends and no line was a word of exit, the loop ends with [EOFError];
    the last thing written is the prompt it was reading at, and up to
    then it has only touched the names its body binds. *)
Theorem qa_loop_end_of_input (lines : list string) (w : world R) :
  Forall (fun l => is_exit l = false) lines ->
  exists w', qa_loop lines w = (Raised EOFError, w')
             /\ last (stdout w') = Some "You: "
             /\ same_except ["user_question"; "answer"; "e"] w w'.
Proof.
  intros Hlines. revert w. induction Hlines as [|line lines Hline _ IH]; intros w.
  - cbn [qa_loop]. unfold bind. rewrite input_eof. eexists. split; [done|].
    split; [cbn; by rewrite last_snoc|by split].
  - cbn [qa_loop]. unfold bind at 1. rewrite input_line.
    destruct (iteration_continues line
                (with_stdout (fun out => out ++ ["You: "]) w) Hline)
      as (w1 & Hw1 & Hsame1).
    unfold bind. rewrite Hw1.
    destruct (IH w1) as (w2 & Hw2 & Hlast & Hsame2).
    exists w2. split; [done|]. split; [done|].
    eapply same_except_trans; [|exact Hsame2].
    destruct Hsame1 as [Hc Hg]. by split.
Qed.

(** X5: what a successful set-up prints: the four progress lines, the
    two row counts, which are the numbers of records capped at 1023 and
    at 700, their sum as the number of documents, and the banner, whose
    "first 100 rows" is printed whatever was read. *)
Theorem script_setup_output (environ dotenv : gmap string string)
    (fs : gmap string csv_file) (w : world R) (H T : csv_file) :
  let env := load_dotenv false dotenv environ in
  let holdings := Nat.min 1023 (length (records H)) in
  let trades := Nat.min 700 (length (records T)) in
  Forall (present env) required_variables ->
  fs !! "data/holdings.csv" = Some H ->
  fs !! "data/trades.csv" = Some T ->
  (0 < holdings + trades)%nat ->
  (script_setup environ dotenv fs w).1 = Returned tt
  /\ stdout (script_setup environ dotenv fs w).2
     = stdout w
       ++ [ "✅ Azure environment loaded" +:+ nl;
            ("📄 Holding rows loaded: " +:+ pretty holdings) +:+ nl;
            ("📄 Trade rows loaded: " +:+ pretty trades) +:+ nl;
            ("📚 Total documents created: " +:+ pretty (holdings + trades)%nat) +:+ nl;
            "✅ Local embeddings initialized" +:+ nl;
            "✅ FAISS vector store ready" +:+ nl;
            "✅ Azure chat model initialized" +:+ nl;
            (nl +:+ "🚀 RAG system READY") +:+ nl;
            "⚠️ Using first 100 rows from each CSV" +:+ nl;
            ("Type 'exit' to quit" +:+ nl) +:+ nl ].
Proof.
  intros env holdings trades Henv HH HT Hrows.
  apply py_all_present in Henv.
  set (holding_df := read_frame H 1023).
  set (trade_df := read_frame T 700).
  set (documents := df_to_documents holding_df "holding"
                    ++ df_to_documents trade_df "trade").
  assert (length (values holding_df) = holdings) as Hh
    by apply length_read_frame.
  assert (length (values trade_df) = trades) as Ht
    by apply length_read_frame.
  assert (length documents = (holdings + trades)%nat) as Hd.
  { unfold documents. rewrite length_app, !df_to_documents_eq.
    unfold iterrows. rewrite !length_map. by rewrite Hh, Ht. }
  destruct (script_setup environ dotenv fs w) as [r w'] eqn:Hrun.
  revert Hrun. unfold script_setup. fold env. cbv zeta.
  rewrite script_check, Henv. change (negb true) with false. cbv iota.
  repeat step.
  change (path_join "data" "holdings.csv") with "data/holdings.csv".
  unfold read_csv at 1. rewrite HH. fold holding_df. repeat step.
  change (path_join "data" "trades.csv") with "data/trades.csv".
  unfold read_csv at 1. rewrite HT. fold trade_df. repeat step.
  fold documents. rewrite Hh, Ht, Hd.
  destruct (from_documents documents _) as [vector_store|e] eqn:Hindex.
  - repeat step. unfold print, write. intros [= <- <-].
    split; [reflexivity|].
    cbn [snd stdout with_stdout with_globals with_clients].
    by rewrite <- !app_assoc.
  - unfold from_documents in Hindex. clearbody documents.
    destruct documents; [|discriminate].
    rewrite <- Hd in Hrows. by inversion Hrows.
Qed.

(** X6: a missing CSV file ends the set-up with [FileNotFoundError] for
    its path, after "Azure environment loaded" and nothing else has been
    printed and before any document, index or client exists; when it is
    trades.csv that is missing, holdings.csv has been read and bound. *)
Theorem script_setup_missing_file (environ dotenv : gmap string string)
    (fs : gmap string csv_file) (w : world R) :
  let env := load_dotenv false dotenv environ in
  let w' := (script_setup environ dotenv fs w).2 in
  Forall (present env) required_variables ->
  (fs !! "data/holdings.csv" = None \/ fs !! "data/trades.csv" = None) ->
  (exists p, (p = "data/holdings.csv" \/ p = "data/trades.csv")
             /\ fs !! p = None
             /\ (script_setup environ dotenv fs w).1 = Raised (FileNotFoundError p))
  /\ stdout w' = stdout w ++ ["✅ Azure environment loaded" +:+ nl]
  /\ clients w' = clients w
  /\ globals w' !! "documents" = globals w !! "documents"
  /\ globals w' !! "rag_chain" = globals w !! "rag_chain"
  /\ (forall H, fs !! "data/holdings.csv" = Some H ->
        globals w' !! "holding_df"
        = Some (OFrame (read_frame H 1023))).
Proof.
  intros env w' Henv Hmissing. subst w'.
  apply py_all_present in Henv.
  destruct (script_setup environ dotenv fs w) as [r w'] eqn:Hrun.
  revert Hrun. unfold script_setup. fold env. cbv zeta.
  rewrite script_check, Henv. change (negb true) with false. cbv iota.
  repeat step.
  change (path_join "data" "holdings.csv") with "data/holdings.csv".
  unfold read_csv at 1.
  destruct (fs !! "data/holdings.csv") as [H|] eqn:HH.
  - destruct Hmissing as [|HT]; [done|]. repeat step.
    change (path_join "data" "trades.csv") with "data/trades.csv".
    unfold read_csv at 1. rewrite HT, run_lift_raised. intros [= <- <-].
    cbn [fst snd stdout clients globals with_stdout with_globals].
    split; [exists "data/trades.csv"; by auto|].
    split; [done|]. split; [done|].
    split; [by rewrite !lookup_insert_ne|].
    split; [by rewrite !lookup_insert_ne|].
    intros ? [= <-]. by rewrite lookup_insert_eq.
  - rewrite run_lift_raised. intros [= <- <-].
    cbn [fst snd stdout clients globals with_stdout with_globals].
    split; [exists "data/holdings.csv"; by auto|].
    split; [done|]. split; [done|].
    split; [by rewrite !lookup_insert_ne|].
    split; [by rewrite !lookup_insert_ne|].
    intros ? [=].
Qed.

(** Once the check has passed, its line stays first in what the set-up
    writes, however far the set-up gets. *)
Lemma script_setup_passes_check (environ dotenv : gmap string string)
    (fs : gmap string csv_file) (w : world R) :
  py_all (map (getenv (load_dotenv false dotenv environ)) required_variables)
  = true ->
  stdout (script_setup environ dotenv fs w).2 !! length (stdout w)
  = Some ("✅ Azure environment loaded" +:+ nl).
Proof.
  intros Henv.
  destruct (script_setup environ dotenv fs w) as [r w'] eqn:Hrun.
  revert Hrun. unfold script_setup. cbv zeta.
  rewrite script_check, Henv. change (negb true) with false. cbv iota.
  repeat step.
  assert (forall rest : list string,
             ((stdout w ++ ["✅ Azure environment loaded" +:+ nl]) ++ rest)
             !! length (stdout w)
             = Some ("✅ Azure environment loaded" +:+ nl)) as Hout.
  { intros rest. rewrite <- app_assoc.
    rewrite lookup_app_r by done. by rewrite Nat.sub_diag. }
  unfold read_csv at 1. destruct (fs !! _) as [H|].
  - repeat step. unfold read_csv at 1. destruct (fs !! _) as [T|].
    + repeat step. destruct (from_documents _ _) as [vs|e].
      * repeat step. unfold print, write. intros [= <- <-]. cbn.
        rewrite <- !app_assoc. rewrite app_assoc. apply Hout.
      * rewrite run_lift_raised. intros [= <- <-]. cbn.
        rewrite <- !app_assoc. rewrite app_assoc. apply Hout.
    + rewrite run_lift_raised. intros [= <- <-]. cbn.
      rewrite <- (app_nil_r (_ ++ _)). apply Hout.
  - rewrite run_lift_raised. intros [= <- <-]. cbn.
    rewrite <- (app_nil_r (_ ++ _)). apply Hout.
Qed.

End Script.

(** *** The script on the small instance *)

#[local] Existing Instance example_pandas.

Lemma example_environ_present :
  Forall (present (load_dotenv false example_dotenv example_environ)) required_variables.
Proof. apply py_all_present. vm_compute. reflexivity. Qed.


(** The three rows of the two example files become three documents.
    The holdings have a name column and keep their integers; the trade
    is all numbers, one of them a float, and its integer is written as a
    float. *)
Lemma documents_one_per_row_witness :
  globals (script_setup example_environ example_dotenv example_fs
             (start 0)).2 !! "documents"
  = Some (ODocuments
            [ {| page_content := "PortfolioName: Platpot. SecName: ACME. Qty: 5.";
                 metadata := {[ "source" := "holding" ]} |};
              {| page_content := "PortfolioName: Ytum. Qty: -2.";
                 metadata := {[ "source" := "holding" ]} |};
              {| page_content := "Qty: 5.0. Price: 1.5.";
                 metadata := {[ "source" := "trade" ]} |} ]).
Proof.
  pose proof (documents_one_per_row example_environ example_dotenv
                example_fs (start 0) example_holdings example_trades) as Hthm.
  cbv zeta in Hthm.
  destruct (Hthm example_environ_present
              ltac:(vm_compute; reflexivity) ltac:(vm_compute; reflexivity))
    as (_ & _ & _ & _ & _ & Hdocs).
  rewrite Hdocs. vm_compute. reflexivity.
Defined.


(** One trip round the loop on the question "hi". *)
Lemma loop_keeps_static_index_witness :
  let w1 := (script_setup example_environ example_dotenv example_fs
               (start 0)).2 in
  let w2 := (bind (input ["hi"; "exit"])
               (fun _ => iteration (L:=example_libraries) "hi") w1).2 in
  static w2 = static w1.
Proof.
  intros w1 w2.
  assert (rtc (loop_step (L:=example_libraries))
            (w1, ["hi"; "exit"]) (w2, ["exit"])) as Hsteps.
  { apply rtc_once. apply (loop_continue w1 w2 "hi" ["exit"]).
    vm_compute. reflexivity. }
  exact (proj1 (loop_keeps_static_index _ _ Hsteps)).
Defined.

(** The loop stops at "Quit" and never reads "later"; after "hi" it is
    back at its head with "fail" still to read. *)
Lemma qa_loop_ends_witness :
  let w1 := (script_setup example_environ example_dotenv example_fs
               (start 0)).2 in
  (exists w', qa_loop (L:=example_libraries) ["hi"; "Quit"; "later"] w1
              = (Returned tt, w')
              /\ last (stdout w') = Some ("👋 Goodbye!" +:+ nl)
              /\ qa_loop (L:=example_libraries) ["hi"; "Quit"] w1 = (Returned tt, w'))
  /\ (exists w', rtc (loop_step (L:=example_libraries))
                   (w1, ["hi"; "fail"]) (w', ["fail"])
                 /\ qa_loop (L:=example_libraries) ["hi"; "fail"] w1
                    = qa_loop (L:=example_libraries) ["fail"] w').
Proof.
  intros w1. split.
  - apply (proj1 (proj2 (qa_loop_ends (L:=example_libraries)
                           ["hi"; "Quit"; "later"] w1))
             ["hi"] "Quit" ["later"]).
    + reflexivity.
    + repeat constructor.
    + reflexivity.
  - apply (proj1 (proj2 (proj2 (qa_loop_ends (L:=example_libraries)
                                  ["hi"; "fail"] w1)))
             ["hi"] ["fail"]).
    + reflexivity.
    + repeat constructor.
Defined.

(** C8 as first stated does not hold: on the input "hello" followed by
    the end of input, the script, once set up, answers the question and
    then ends with [EOFError], although no line was a word of exit. *)
Lemma qa_loop_ends_without_exit_word :
  is_exit "hello" = false
  /\ (main (L:=example_libraries) example_environ example_dotenv example_fs
        ["hello"] (start 0)).1 = Raised EOFError
  /\ ~ (forall (lines : list string) (w : world nat) r w',
          qa_loop (L:=example_libraries) lines w = (r, w') ->
          Exists (fun line => is_exit line = true) lines).
Proof.
  split; [reflexivity|]. split; [vm_compute; reflexivity|].
  intros Hall.
  specialize (Hall ["hello"] (start 0) _ _
                (surjective_pairing (qa_loop ["hello"] (start 0)))).
  apply Exists_cons in Hall as [Hexit|Hrest].
  - vm_compute in Hexit. discriminate.
  - by apply Exists_nil in Hrest.
Qed.

(** *** The further properties on the small instance *)

Lemma example_setup_chain :
  globals (script_setup example_environ example_dotenv example_fs (start 0)).2
  !! "rag_chain"
  = Some (ORunnable
            (build_rag_chain
               (build_retriever
                  {| docstore :=
                       df_to_documents
                         (read_frame example_holdings 1023) "holding"
                       ++ df_to_documents
                            (read_frame example_trades 700) "trade";
                     embedding_function :=
                       {| model_name := "sentence-transformers/all-MiniLM-L6-v2" |} |})
               (from_template prompt_text)
               (build_llm (Some "https://example.openai.azure.com") (Some "secret")
                  (Some "2024-02-01") (Some "gpt")))).
Proof. vm_compute. reflexivity. Qed.

(** A first question after set-up. *)
Lemma iteration_effect_witness :
  (iteration (L:=example_libraries) "Which fund?"
     (script_setup example_environ example_dotenv example_fs (start 0)).2).1
  = Returned Continue.
Proof.
  exact (proj1 (iteration_effect (L:=example_libraries) _ _ "Which fund?" _
                  example_setup_chain eq_refl)).
Defined.

(** Two questions and then the end of input. *)
Lemma qa_loop_end_of_input_witness :
  exists w',
    qa_loop (L:=example_libraries) ["hi"; "exit now"]
      (script_setup example_environ example_dotenv example_fs (start 0)).2
    = (Raised EOFError, w')
    /\ last (stdout w') = Some "You: ".
Proof.
  destruct (qa_loop_end_of_input (L:=example_libraries) ["hi"; "exit now"]
              (script_setup example_environ example_dotenv example_fs (start 0)).2)
    as (w' & Hrun & Hlast & _).
  - repeat constructor.
  - by exists w'.
Defined.

(** The two example files: two holdings, one trade, three documents. *)
Lemma script_setup_output_witness :
  stdout (script_setup example_environ example_dotenv example_fs (start 0)).2
  !! 3%nat
  = Some ("📚 Total documents created: 3" +:+ nl).
Proof.
  pose proof (script_setup_output example_environ example_dotenv example_fs
                (start 0) example_holdings example_trades) as Hthm.
  cbv zeta in Hthm.
  destruct (Hthm example_environ_present
              ltac:(vm_compute; reflexivity) ltac:(vm_compute; reflexivity)
              ltac:(vm_compute; lia)) as [_ Hout].
  rewrite Hout. vm_compute. reflexivity.
Defined.

(** The example disk without trades.csv. *)
Lemma script_setup_missing_file_witness :
  clients (script_setup example_environ example_dotenv
             (delete "data/trades.csv" example_fs) (start 0)).2
  = [].
Proof.
  pose proof (script_setup_missing_file example_environ example_dotenv
                (delete "data/trades.csv" example_fs) (start 0)) as Hthm.
  cbv zeta in Hthm.
  assert (delete "data/trades.csv" example_fs !! "data/trades.csv" = None)
    as Hgone by apply lookup_delete_eq.
  destruct (Hthm example_environ_present (or_intror Hgone))
    as (_ & _ & Hclients & _).
  exact Hclients.
Defined.


(** Where the readings differ, so does the text of a row: with a note
    on the second line only, the first line read alone has a quantity and
    a missing number, and its quantity is written as a float; read with
    the second line, its quantity stands beside a column of text and is
    written as the integer it is. *)
Lemma cap_changes_text :
  let f := {| header := ["Qty"; "Note"];
              records := [["5"; ""]; ["7"; "late"]] |} in
  page_content <$> df_to_documents (read_frame f 1) "trade" = ["Qty: 5.0."]
  /\ page_content <$> df_to_documents (read_frame f 2) "trade"
     = ["Qty: 5."; "Qty: 7. Note: late."].
Proof. split; vm_compute; reflexivity. Qed.

End RagFacts.

(** ** app.py: the page *)

Module AppFacts.
Import App.

(** The fallback text is the one the system prompt dictates. *)
Lemma fallback_in_system_prompt :
  quoted_after "respond EXACTLY with:" system_prompt_text = Some fallback.
Proof. vm_compute. reflexivity. Qed.

Section Page.

Context {R : Type} {P : PandasAI R} {St : Streamlit}.

Local Notation "'let!' x ':=' m 'in' k" := (bind m (fun x => k))
  (at level 10, x name, m at level 100, k at level 200).
Local Notation "m '>>' k" := (bind m (fun _ => k))
  (at level 190, right associativity).

(** *** Running the page step by step *)

Lemma page_ret {A B} (a : A) (k : A -> M B) (w : world R) :
  bind (ret a) k w = k a w.
Proof. reflexivity. Qed.

Lemma page_bind_bind {A B C} (m : M A) (k : A -> M B) (k' : B -> M C) (w : world R) :
  bind (bind m k) k' w = bind m (fun a => bind (k a) k') w.
Proof. unfold bind. destruct (m w) as [[a|e| |] w']; reflexivity. Qed.

Lemma run_draw {B} (e : element) (k : unit -> M B) (w : world R) :
  bind (draw e) k w = k tt (with_screen (fun s => s ++ [e]) w).
Proof. reflexivity. Qed.

Lemma run_record {B} (c : call) (k : unit -> M B) (w : world R) :
  bind (record c) k w = k tt (with_calls (fun l => l ++ [c]) w).
Proof. reflexivity. Qed.

Lemma run_set_messages {B} (l : list message) (k : unit -> M B) (w : world R) :
  bind (set_messages l) k w = k tt (with_session (insert "messages" l) w).
Proof. reflexivity. Qed.

Lemma run_config_set {B} (c : Config) (k : unit -> M B) (w : world R) :
  bind (config_set c) k w = k tt (with_config (Some c) w).
Proof. reflexivity. Qed.

Lemma run_within_draw {B} (wrap : list element -> element) (e : element)
    (k : unit -> M B) (w : world R) :
  bind (within wrap (draw e)) k w
  = k tt (with_screen (fun s => s ++ [wrap [e]]) w).
Proof. reflexivity. Qed.

(** A dataframe is drawn as it is. *)
Lemma run_within_table {B} (wrap : list element -> element) (table : string)
    (k : unit -> M B) (w : world R) :
  bind (within wrap (st_dataframe (PTable table))) k w
  = k tt (with_screen (fun s => s ++ [wrap [Dataframe (PTable table)]]) w).
Proof. reflexivity. Qed.

Lemma world_eta (w : world R) :
  {| session_state := session_state w; cache_resource := cache_resource w;
     cache_data := cache_data w; config := config w; service := service w;
     screen := screen w; calls := calls w |} = w.
Proof. by destruct w. Qed.

Lemma world_ext (w1 w2 : world R) :
  session_state w1 = session_state w2 ->
  cache_resource w1 = cache_resource w2 ->
  cache_data w1 = cache_data w2 ->
  config w1 = config w2 ->
  service w1 = service w2 ->
  screen w1 = screen w2 ->
  calls w1 = calls w2 ->
  w1 = w2.
Proof. destruct w1, w2. cbn. by intros -> -> -> -> -> -> ->. Qed.

Ltac fields :=
  cbn [session_state cache_resource cache_data config service screen calls
       with_session with_screen with_calls with_service with_cache_resource
       with_cache_data with_config].

Ltac world_eq := f_equal; apply world_ext; fields.

Lemma init_session_eq (w : world R) :
  init_session w = (Ok tt, with_session (insert "messages" (history w)) w).
Proof.
  unfold init_session, history.
  destruct (session_state w !! "messages") as [l|] eqn:Hl; [|reflexivity].
  cbn [default]. unfold with_session. rewrite (insert_id _ _ _ Hl).
  by rewrite world_eta.
Qed.

Lemma get_messages_eq (l : list message) (w : world R) :
  session_state w !! "messages" = Some l -> get_messages w = (Ok l, w).
Proof. intros Hl. unfold get_messages. by rewrite Hl. Qed.

Lemma append_message_eq (l : list message) (m : message) (w : world R) :
  session_state w !! "messages" = Some l ->
  append_message m w = (Ok tt, with_session (insert "messages" (l ++ [m])) w).
Proof.
  intros Hl. unfold append_message, bind. by rewrite (get_messages_eq l).
Qed.

Lemma init_llm_eq (key endpoint deployment version : option string) (w : world R) :
  let built := {| model := "azure/" +:+ fstr deployment;
                  api_key := fstr key;
                  api_base := fstr endpoint;
                  api_version := fstr version |} in
  init_llm key endpoint deployment version w
  = (Ok (default built (cache_resource w)),
     with_calls (fun l => l ++ match cache_resource w with
                               | Some _ => []
                               | None => [NewLiteLLM built]
                               end)
       (with_cache_resource (Some (default built (cache_resource w))) w)).
Proof.
  intros built. unfold init_llm. fold built.
  destruct (cache_resource w) as [c|] eqn:Hc; [|reflexivity].
  cbn [default]. unfold with_calls, with_cache_resource. cbn.
  rewrite app_nil_r, <- Hc. by rewrite world_eta.
Qed.

Lemma load_data_eq (holdings_df trades_df : PaiFrame) (w : world R) :
  loaded_frames w = Returned (holdings_df, trades_df) ->
  load_data w
  = (Ok (holdings_df, trades_df),
     with_calls (fun l => l ++ match cache_data w with
                               | Some _ => []
                               | None => [ReadCsv "data/holdings.csv";
                                          ReadCsv "data/trades.csv"]
                               end)
       (with_cache_data (Some (holdings_df, trades_df)) w)).
Proof.
  unfold loaded_frames, load_data.
  destruct (cache_data w) as [d|] eqn:Hd.
  - intros [= ->]. unfold with_calls, with_cache_data. cbn.
    rewrite app_nil_r, <- Hd. by rewrite world_eta.
  - unfold read_csv.
    destruct (pai_read_csv "data/holdings.csv") as [h|e]; [|done].
    destruct (pai_read_csv "data/trades.csv") as [t|e]; [|done].
    intros [= -> ->]. rewrite !page_bind_bind, run_record, page_ret.
    rewrite !page_bind_bind, run_record, page_ret.
    unfold with_calls, with_cache_data. cbn. by rewrite <- app_assoc.
Qed.

Lemma for_each_draw {A} (f : A -> element) (xs : list A) (w : world R) :
  for_each xs (fun x => draw (f x)) w
  = (Ok tt, with_screen (fun s => s ++ map f xs) w).
Proof.
  revert w. induction xs as [|x xs IH]; intros w; cbn [for_each map].
  - unfold ret, with_screen. by rewrite app_nil_r, world_eta.
  - rewrite run_draw, IH. unfold with_screen. cbn. by rewrite <- app_assoc.
Qed.

(** *** Drawing tables and stored messages *)

(** [st.dataframe] draws the table or raises, and then draws nothing. *)
Lemma st_dataframe_eq (data : pyval) (w : world R) :
  st_dataframe data w
  = (ended (conversion_error data),
     with_screen (fun s => s ++ match conversion_error data with
                                | None => [Dataframe data]
                                | Some _ => []
                                end) w).
Proof.
  unfold st_dataframe. destruct (conversion_error data) as [e|]; [|reflexivity].
  unfold raise, ended. world_eq; try done. by rewrite app_nil_r.
Qed.

(** One pass through the body of the render loop: the message is drawn
    as [shown] says, or its table is refused and its container stays
    empty. *)
Lemma render_message_eq (msg : message) (w : world R) :
  render_message msg w
  = (ended (render_error msg),
     with_screen (fun s => s ++ [match render_error msg with
                                 | None => shown msg
                                 | Some _ => ChatMessage (role msg) []
                                 end]) w).
Proof.
  unfold render_message, render_error, table_of, shown.
  destruct (content msg) as [s|items|table|h label]; try reflexivity.
  destruct (getitem items "dataframe") as [df|]; [|reflexivity].
  unfold within. rewrite st_dataframe_eq.
  destruct (conversion_error df) as [e|]; reflexivity.
Qed.

Lemma for_each_render (msgs : list message) (w : world R) :
  for_each msgs render_message w
  = (ended (rendered msgs).2, with_screen (fun s => s ++ (rendered msgs).1) w).
Proof.
  revert w. induction msgs as [|m msgs IH]; intros w; cbn [for_each rendered].
  - cbn. unfold ret, with_screen. by rewrite app_nil_r, world_eta.
  - unfold bind at 1. rewrite render_message_eq.
    destruct (render_error m) as [e|]; [reflexivity|].
    cbn [ended fst snd]. rewrite IH. world_eq; try done.
    by rewrite <- app_assoc.
Qed.

Lemma rendered_ok (msgs : list message) :
  Forall renders msgs -> rendered msgs = (map shown msgs, None).
Proof.
  induction 1 as [|m msgs Hm _ IH]; [done|].
  cbn [rendered map]. unfold renders in Hm. by rewrite Hm, IH.
Qed.

Lemma rendered_none (msgs : list message) :
  (rendered msgs).2 = None -> Forall renders msgs.
Proof.
  induction msgs as [|m msgs IH]; [done|]. cbn [rendered].
  destruct (render_error m) as [e|] eqn:Hm; [done|]. cbn [snd].
  intros Hrest. constructor; [exact Hm|by apply IH].
Qed.

(** The loop fails with the exception of a stored table. *)
Lemma rendered_failed (msgs : list message) (e : exn) :
  (rendered msgs).2 = Some e ->
  exists msg df, msg ∈ msgs /\ table_of msg = Some df
                 /\ conversion_error df = Some e.
Proof.
  induction msgs as [|m msgs IH]; [done|]. cbn [rendered].
  destruct (render_error m) as [e'|] eqn:Hm; cbn [snd].
  - intros [= ->]. unfold render_error in Hm.
    destruct (table_of m) as [df|] eqn:Hdf; [|done].
    exists m, df. split; [by left|done].
  - intros (msg & df & Hin & Hdf & He)%IH. exists msg, df.
    split; [by right|done].
Qed.

Lemma chat_elements_app (s1 s2 : list element) :
  chat_elements (s1 ++ s2) = chat_elements s1 ++ chat_elements s2.
Proof. apply List.filter_app. Qed.

Lemma chat_elements_shown (msgs : list message) :
  chat_elements (map shown msgs) = map shown msgs.
Proof. induction msgs as [|m msgs IH]; cbn; [done|]. by f_equal. Qed.

Lemma chat_elements_rendered (msgs : list message) :
  chat_elements (rendered msgs).1 = (rendered msgs).1.
Proof.
  induction msgs as [|m msgs IH]; [done|]. cbn [rendered].
  destruct (render_error m); [done|]. cbn [fst]. unfold chat_elements in *.
  cbn. by rewrite IH.
Qed.

Lemma chat_elements_sidebar (qs : list string) :
  chat_elements (map (fun q => SidebarWrite ("• " +:+ q)) qs) = [].
Proof. by induction qs. Qed.

Lemma chat_calls_app (l1 l2 : list call) :
  chat_calls (l1 ++ l2) = chat_calls l1 ++ chat_calls l2.
Proof. apply List.filter_app. Qed.

Lemma chat_calls_delegated (sel : scope) (h t : PaiFrame) (p : string) :
  chat_calls [delegated_call sel h t p] = [delegated_call sel h t p].
Proof. by destruct sel. Qed.

(** *** Handling a prompt *)

(** What the dispatch on the scope computes: the response, and the world
    with the call recorded and the service moved on. *)
Lemma dispatch_eq (sel : scope) (prompt : string) (holdings_df trades_df : PaiFrame)
    (w : world R) :
  try_except
    (if String.eqb (selectbox scope_options sel) "Holdings" then
       safe_chat holdings_df prompt
     else if String.eqb (selectbox scope_options sel) "Trades" then
       safe_chat trades_df prompt
     else
       chat_many prompt [holdings_df; trades_df])
    (fun _ => ret (PStr "I don't know — this information is not in the CSV.")) w
  = (Ok (reply (delegate (config w) sel holdings_df trades_df prompt (service w)).1),
     with_service (delegate (config w) sel holdings_df trades_df prompt (service w)).2
       (with_calls (fun l => l ++ [delegated_call sel holdings_df trades_df prompt]) w)).
Proof.
  destruct sel; cbn [selectbox scope_options nth String.eqb Ascii.eqb Bool.eqb
                     delegate delegated_call].
  - unfold safe_chat, try_except, chat. rewrite run_record.
    cbn [config service with_calls].
    destruct (df_chat (config w) holdings_df prompt (service w)) as [[v|e] r];
      [reflexivity|]. by destruct e.
  - unfold safe_chat, try_except, chat. rewrite run_record.
    cbn [config service with_calls].
    destruct (df_chat (config w) trades_df prompt (service w)) as [[v|e] r];
      [reflexivity|]. by destruct e.
  - unfold try_except, chat_many. rewrite run_record.
    cbn [config service with_calls].
    destruct (pai_chat (config w) prompt [holdings_df; trades_df] (service w))
      as [[v|e] r]; reflexivity.
Qed.

(** The user's message is stored and drawn, the question is sent, and
    the response is drawn and stored, unless it is drawn as a table and
    refused: then the handling ends with that exception, the assistant's
    container empty and the user's message the last one stored. *)
Lemma handle_prompt_eq (sel : scope) (prompt : string)
    (holdings_df trades_df : PaiFrame) (l : list message) (w : world R) :
  session_state w !! "messages" = Some l ->
  let o := delegate (config w) sel holdings_df trades_df prompt (service w) in
  handle_prompt (selectbox scope_options sel) prompt holdings_df trades_df w
  = (ended (response_error (reply o.1)),
     with_session
       (fun _ => <["messages" :=
                     l ++ {| role := "user"; content := PStr prompt |}
                       :: match response_error (reply o.1) with
                          | None => [ {| role := "assistant";
                                         content := stored (reply o.1) |} ]
                          | Some _ => []
                          end]>
                   (session_state w))
       (with_screen
          (fun s => s ++ [ChatMessage "user" [Write (PStr prompt)];
                          ChatMessage "assistant"
                            match response_error (reply o.1) with
                            | None => [drawn (reply o.1)]
                            | Some _ => []
                            end])
          (with_service o.2
             (with_calls
                (fun c => c ++ [delegated_call sel holdings_df trades_df prompt])
                w)))).
Proof.
  intros Hl o. unfold handle_prompt.
  unfold bind at 1. rewrite (append_message_eq l) by done.
  rewrite run_within_draw.
  unfold within. unfold bind at 1. rewrite dispatch_eq.
  cbn [config service with_screen with_session screen].
  fold o. unfold stored, drawn, response_error.
  destruct (hasattr_head (reply o.1)).
  - unfold bind at 1. rewrite st_dataframe_eq.
    destruct (conversion_error (reply o.1)) as [e|]; cbn [ended].
    + world_eq; try done. by rewrite <- app_assoc.
    + erewrite append_message_eq by apply lookup_insert_eq.
      world_eq; try done.
      * by rewrite insert_insert_eq, <- app_assoc.
      * by rewrite <- app_assoc.
  - unfold bind. cbn [draw].
    erewrite append_message_eq by apply lookup_insert_eq.
    world_eq; try done.
    + by rewrite insert_insert_eq, <- app_assoc.
    + by rewrite <- app_assoc.
Qed.

(** *** A whole run *)

Lemma page_check (env : gmap string string) :
  py_all [getenv env "AZURE_OPENAI_API_KEY"; getenv env "AZURE_OPENAI_ENDPOINT";
          getenv env "AZURE_OPENAI_DEPLOYMENT"; getenv env "AZURE_OPENAI_API_VERSION"]
  = py_all (map (getenv env) required_variables).
Proof. reflexivity. Qed.

Lemma getitem_example_questions (sel : scope) :
  exists qs, getitem example_questions (selectbox scope_options sel) = Some qs.
Proof. destruct sel; eexists; reflexivity. Qed.

(** The script from its first line to the sidebar's example questions,
    when the environment is complete and the data loads. *)
Ltac run_startup Henv Hframes Hqs h t :=
  unfold run, page; cbv zeta;
  rewrite page_check, Henv; change (negb true) with false; cbv iota;
  rewrite !run_draw; unfold bind at 1; rewrite init_session_eq;
  rewrite page_ret;
  unfold bind at 1; rewrite init_llm_eq; cbv zeta; rewrite run_config_set;
  unfold bind at 1; rewrite (load_data_eq h t) by exact Hframes;
  cbn [fst snd]; rewrite !run_draw; rewrite Hqs, page_ret;
  unfold bind at 1; rewrite for_each_draw.

Ltac run_previews :=
  rewrite run_within_table; unfold within; cbn [st_dataframe conversion_error draw].

Ltac projections :=
  unfold history; fields; rewrite ?lookup_insert_eq; cbn [from_option id].

Ltac started_facts w :=
  unfold started, startup_calls, page_config, page_llm; fields;
  split; [reflexivity|]; split; [reflexivity|]; split; [reflexivity|];
  rewrite !chat_calls_app, ?chat_calls_delegated;
  destruct (cache_resource w), (cache_data w); reflexivity.

(** A run with a question, the stored messages being drawn: the
    question is sent, and the run ends well with the exchange stored, or
    with the exception of the table widget and the question alone
    stored. *)
Lemma run_submit (i : inputs) (w : world R) (h t : PaiFrame) (p : string) :
  let env := load_dotenv true (dotenv i) (environ i) in
  let o := delegate (page_config i w) (selected i) h t p (service w) in
  py_all (map (getenv env) required_variables) = true ->
  loaded_frames w = Returned (h, t) ->
  trig i = Submit p ->
  p <> "" ->
  Forall renders (history w) ->
  exists w',
    run i w = (ended (response_error (reply o.1)), w')
    /\ history w' = history w
                    ++ {| role := "user"; content := PStr p |}
                       :: match response_error (reply o.1) with
                          | None => [ {| role := "assistant";
                                         content := stored (reply o.1) |} ]
                          | Some _ => []
                          end
    /\ chat_elements (screen w')
       = map shown (history w)
         ++ [ChatMessage "user" [Write (PStr p)];
             ChatMessage "assistant" match response_error (reply o.1) with
                                     | None => [drawn (reply o.1)]
                                     | Some _ => []
                                     end]
    /\ chat_calls (calls w') = [delegated_call (selected i) h t p]
    /\ service w' = o.2
    /\ started i w h t w'.
Proof.
  intros env o Henv Hframes Htrig Hp Hrender. subst env o.
  destruct (getitem_example_questions (selected i)) as [qs Hqs].
  run_startup Henv Hframes Hqs h t.
  rewrite Htrig. cbn [button]. rewrite page_ret.
  unfold bind at 1. rewrite (get_messages_eq (history w)) by (fields; apply lookup_insert_eq).
  unfold bind at 1. rewrite for_each_render, (rendered_ok _ Hrender).
  cbn [ended fst snd chat_input truthy default].
  destruct (String.eqb_spec p "") as [|_]; [done|]. cbn [negb].
  unfold bind at 1.
  erewrite handle_prompt_eq by (fields; apply lookup_insert_eq).
  cbv zeta. unfold page_config, page_llm. fields.
  destruct (response_error _) as [e|] eqn:He; cbn [ended].
  - eexists. split; [reflexivity|]. projections.
    split; [reflexivity|]. split; [|split; [|split; [reflexivity|]]].
    + rewrite !chat_elements_app, chat_elements_shown, chat_elements_sidebar.
      cbn [chat_elements List.filter is_chat_message app].
      by rewrite ?app_nil_r.
    + rewrite !chat_calls_app, chat_calls_delegated.
      by destruct (cache_resource w), (cache_data w).
    + started_facts w.
  - run_previews.
    eexists. split; [reflexivity|]. projections.
    split; [reflexivity|]. split; [|split; [|split; [reflexivity|]]].
    + rewrite !chat_elements_app, chat_elements_shown, chat_elements_sidebar.
      cbn [chat_elements List.filter is_chat_message app].
      by rewrite ?app_nil_r.
    + rewrite !chat_calls_app, chat_calls_delegated.
      by destruct (cache_resource w), (cache_data w).
    + started_facts w.
Qed.

(** A run without a question, the stored messages being drawn. *)
Lemma run_quiet (i : inputs) (w : world R) (h t : PaiFrame) :
  let env := load_dotenv true (dotenv i) (environ i) in
  py_all (map (getenv env) required_variables) = true ->
  loaded_frames w = Returned (h, t) ->
  button (trig i) = false ->
  truthy (chat_input (trig i)) = false ->
  Forall renders (history w) ->
  exists w',
    run i w = (Ok tt, w')
    /\ history w' = history w
    /\ chat_elements (screen w') = map shown (history w)
    /\ chat_calls (calls w') = []
    /\ service w' = service w
    /\ started i w h t w'.
Proof.
  intros env Henv Hframes Hbutton Hinput Hrender. subst env.
  destruct (getitem_example_questions (selected i)) as [qs Hqs].
  run_startup Henv Hframes Hqs h t.
  rewrite Hbutton, Hinput. rewrite page_ret.
  unfold bind at 1. rewrite (get_messages_eq (history w)) by (fields; apply lookup_insert_eq).
  unfold bind at 1. rewrite for_each_render, (rendered_ok _ Hrender).
  cbn [ended fst snd]. rewrite page_ret. run_previews.
  eexists. split; [reflexivity|]. projections.
  split; [reflexivity|]. split; [|split; [|split; [reflexivity|]]].
  - rewrite !chat_elements_app, chat_elements_shown, chat_elements_sidebar.
    cbn [chat_elements List.filter is_chat_message app].
    by rewrite ?app_nil_r.
  - rewrite !chat_calls_app.
    by destruct (cache_resource w), (cache_data w).
  - started_facts w.
Qed.

(** A run that finds a stored table the widget refuses: it ends in the
    render loop, before the chat input is read. *)
Lemma run_unrendered (i : inputs) (w : world R) (h t : PaiFrame) (e : exn) :
  let env := load_dotenv true (dotenv i) (environ i) in
  py_all (map (getenv env) required_variables) = true ->
  loaded_frames w = Returned (h, t) ->
  button (trig i) = false ->
  (rendered (history w)).2 = Some e ->
  exists w',
    run i w = (Fail e, w')
    /\ history w' = history w
    /\ chat_elements (screen w') = (rendered (history w)).1
    /\ chat_calls (calls w') = []
    /\ service w' = service w
    /\ started i w h t w'.
Proof.
  intros env Henv Hframes Hbutton Hrender. subst env.
  destruct (getitem_example_questions (selected i)) as [qs Hqs].
  run_startup Henv Hframes Hqs h t.
  rewrite Hbutton. rewrite page_ret.
  unfold bind at 1. rewrite (get_messages_eq (history w)) by (fields; apply lookup_insert_eq).
  unfold bind at 1. rewrite for_each_render, Hrender. cbn [ended].
  eexists. split; [reflexivity|]. projections.
  split; [reflexivity|]. split; [|split; [|split; [reflexivity|]]].
  - rewrite !chat_elements_app, chat_elements_rendered, chat_elements_sidebar.
    cbn [chat_elements List.filter is_chat_message app].
    by rewrite ?app_nil_r.
  - rewrite !chat_calls_app.
    by destruct (cache_resource w), (cache_data w).
  - started_facts w.
Qed.

Lemma run_clear (i : inputs) (w : world R) (h t : PaiFrame) :
  let env := load_dotenv true (dotenv i) (environ i) in
  py_all (map (getenv env) required_variables) = true ->
  loaded_frames w = Returned (h, t) ->
  trig i = ClearChat ->
  exists w',
    run i w = (Rerun, w')
    /\ history w' = []
    /\ loaded_frames w' = Returned (h, t)
    /\ chat_calls (calls w') = []
    /\ service w' = service w
    /\ started i w h t w'.
Proof.
  intros env Henv Hframes Htrig. subst env.
  destruct (getitem_example_questions (selected i)) as [qs Hqs].
  run_startup Henv Hframes Hqs h t.
  rewrite Htrig. cbn [button]. rewrite page_bind_bind, run_set_messages.
  eexists. split; [reflexivity|]. projections.
  split; [reflexivity|]. split; [|split; [|split; [reflexivity|]]].
  - unfold loaded_frames. fields. reflexivity.
  - rewrite !chat_calls_app.
    by destruct (cache_resource w), (cache_data w).
  - started_facts w.
Qed.

(** With a variable missing the run draws the error and stops, before
    any client is made. *)
Lemma run_missing (i : inputs) (w : world R) :
  let env := load_dotenv true (dotenv i) (environ i) in
  py_all (map (getenv env) required_variables) = false ->
  exists w',
    run i w = (Stop, w')
    /\ last (screen w')
       = Some (Error "❌ Azure OpenAI environment variables are missing")
    /\ calls w' = []
    /\ cache_resource w' = cache_resource w
    /\ history w' = history w
    /\ service w' = service w.
Proof.
  intros env Henv. subst env. unfold run, page. cbv zeta.
  rewrite page_check, Henv. change (negb false) with true. cbv iota.
  rewrite !run_draw. unfold bind at 1. rewrite init_session_eq.
  rewrite !page_bind_bind, run_draw.
  eexists. split; [reflexivity|]. projections.
  split; [reflexivity|]. split; [reflexivity|]. split; [reflexivity|].
  split; reflexivity.
Qed.

Lemma load_data_failed (e : exn) (w : world R) :
  loaded_frames w = Raised e ->
  exists cs,
    load_data w = (Fail e, with_calls (fun l => l ++ cs) w)
    /\ chat_calls cs = []
    /\ cache_data w = None.
Proof.
  unfold loaded_frames, load_data.
  destruct (cache_data w) as [d|] eqn:Hd; [done|].
  unfold read_csv.
  destruct (pai_read_csv "data/holdings.csv") as [h|e1].
  - destruct (pai_read_csv "data/trades.csv") as [t|e2]; [done|].
    intros [= ->]. exists [ReadCsv "data/holdings.csv"; ReadCsv "data/trades.csv"].
    split; [|done].
    rewrite !page_bind_bind, run_record, page_ret.
    rewrite !page_bind_bind, run_record.
    unfold bind, raise. world_eq; try done. by rewrite <- app_assoc.
  - intros [= ->]. exists [ReadCsv "data/holdings.csv"]. split; [|done].
    rewrite !page_bind_bind, run_record. reflexivity.
Qed.

(** A run whose CSV load fails. *)
Lemma run_load_failed (i : inputs) (w : world R) (e : exn) :
  let env := load_dotenv true (dotenv i) (environ i) in
  py_all (map (getenv env) required_variables) = true ->
  loaded_frames w = Raised e ->
  exists w',
    run i w = (Fail e, w')
    /\ history w' = history w
    /\ chat_elements (screen w') = []
    /\ chat_calls (calls w') = []
    /\ service w' = service w
    /\ cache_data w' = None
    /\ cache_resource w' = Some (page_llm i w).
Proof.
  intros env Henv Hframes. subst env.
  unfold run, page; cbv zeta.
  rewrite page_check, Henv; change (negb true) with false; cbv iota.
  rewrite !run_draw; unfold bind at 1; rewrite init_session_eq.
  rewrite page_ret.
  unfold bind at 1; rewrite init_llm_eq; cbv zeta; rewrite run_config_set.
  unfold bind at 1.
  edestruct (load_data_failed e) as (cs & -> & Hcs & Hnone); [exact Hframes|].
  eexists. split; [reflexivity|]. projections.
  split; [reflexivity|]. split; [reflexivity|]. split.
  { rewrite !chat_calls_app, Hcs. by destruct (cache_resource w). }
  split; [reflexivity|]. split; [exact Hnone|]. reflexivity.
Qed.

(** Every run is of one of seven kinds: the variables are missing; the
    files do not load; Clear chat; a stored table is refused; nothing is
    asked; a question is asked, and its response is drawn and stored or
    refused by the table widget. *)
Lemma run_cases (i : inputs) (w : world R) :
  let env := load_dotenv true (dotenv i) (environ i) in
  let ok := py_all (map (getenv env) required_variables) in
  ok = false /\ effect i w = (Stop, history w, [], service w)
  \/ ok = true
     /\ ((exists e, loaded_frames w = Raised e
                    /\ effect i w = (Fail e, history w, [], service w))
         \/ exists h t,
              loaded_frames w = Returned (h, t)
              /\ started i w h t (run i w).2
              /\ (trig i = ClearChat
                  /\ effect i w = (Rerun, [], [], service w)
                  /\ loaded_frames (run i w).2 = Returned (h, t)
                  \/ button (trig i) = false
                     /\ ((exists e, (rendered (history w)).2 = Some e
                                    /\ effect i w
                                       = (Fail e, history w, [], service w))
                         \/ Forall renders (history w)
                            /\ (truthy (chat_input (trig i)) = false
                                /\ effect i w = (Ok tt, history w, [], service w)
                                \/ exists p,
                                     trig i = Submit p /\ p <> ""
                                     /\ let o := delegate (page_config i w)
                                                   (selected i) h t p (service w) in
                                        effect i w
                                        = (ended (response_error (reply o.1)),
                                           history w
                                           ++ {| role := "user"; content := PStr p |}
                                              :: match response_error (reply o.1) with
                                                 | None =>
                                                     [ {| role := "assistant";
                                                          content := stored (reply o.1) |} ]
                                                 | Some _ => []
                                                 end,
                                           [delegated_call (selected i) h t p],
                                           o.2))))).
Proof.
  intros env ok. subst env ok. unfold effect.
  destruct (py_all (map (getenv (load_dotenv true (dotenv i) (environ i)))
                      required_variables)) eqn:Henv.
  - right. split; [done|].
    destruct (loaded_frames w) as [[h t]|e] eqn:Hframes.
    + right. exists h, t. split; [done|].
      destruct (button (trig i)) eqn:Hbutton.
      { assert (trig i = ClearChat) as Htrig by (by destruct (trig i)).
        destruct (run_clear i w h t Henv Hframes Htrig)
          as (w' & -> & Hh & Hf & Hc & Hs & Hst).
        cbn [fst snd]. split; [done|]. left. by rewrite Hh, Hc, Hs. }
      destruct (rendered (history w)).2 as [e|] eqn:Hrender.
      { destruct (run_unrendered i w h t e Henv Hframes Hbutton Hrender)
          as (w' & -> & Hh & _ & Hc & Hs & Hst).
        cbn [fst snd]. split; [done|]. right. split; [done|]. left.
        exists e. by rewrite Hh, Hc, Hs. }
      apply rendered_none in Hrender.
      destruct (truthy (chat_input (trig i))) eqn:Hinput.
      * destruct (trig i) as [| |p] eqn:Htrig; try done.
        assert (p <> "") as Hp.
        { intros ->. done. }
        destruct (run_submit i w h t p Henv Hframes Htrig Hp Hrender)
          as (w' & -> & Hh & _ & Hc & Hs & Hst).
        cbn [fst snd]. split; [done|]. right. split; [done|]. right.
        split; [done|]. right. exists p. split; [done|]. split; [done|].
        cbv zeta. by rewrite Hh, Hc, Hs.
      * destruct (run_quiet i w h t Henv Hframes Hbutton Hinput Hrender)
          as (w' & -> & Hh & _ & Hc & Hs & Hst).
        cbn [fst snd]. split; [done|]. right. split; [done|]. right.
        split; [done|]. left. by rewrite Hh, Hc, Hs.
    + left. exists e. split; [done|].
      destruct (run_load_failed i w e Henv Hframes)
        as (w' & -> & Hh & _ & Hc & Hs & _).
      cbn [fst snd]. by rewrite Hh, Hc, Hs.
  - left. split; [done|].
    destruct (run_missing i w Henv) as (w' & -> & _ & Hc & _ & Hh & Hs).
    cbn [fst snd]. by rewrite Hh, Hc, Hs.
Qed.

(** The caches, the configuration and the calls of a run that gets past
    the start-up. *)
Lemma run_caches (i : inputs) (w : world R) (h t : PaiFrame) :
  let env := load_dotenv true (dotenv i) (environ i) in
  py_all (map (getenv env) required_variables) = true ->
  loaded_frames w = Returned (h, t) ->
  started i w h t (run i w).2.
Proof.
  intros env Henv Hframes. subst env.
  destruct (run_cases i w) as [[Hno _]|[_ [(e & He & _)|(h' & t' & Hf & Hst & _)]]];
    cbv zeta in *; [congruence|congruence|].
  rewrite Hframes in Hf. by injection Hf as <- <-.
Qed.

(** *** The roles in the history *)

Create HintDb roles.

Lemma keeps_ret {A} (a : A) : keeps_roles (R:=R) (ret a).
Proof. by intros w Hw. Qed.

Lemma keeps_raise {A} (e : exn) : keeps_roles (R:=R) (A:=A) (raise e).
Proof. by intros w Hw. Qed.

Lemma keeps_stop {A} : keeps_roles (R:=R) (A:=A) stop.
Proof. by intros w Hw. Qed.

Lemma keeps_rerun {A} : keeps_roles (R:=R) (A:=A) rerun.
Proof. by intros w Hw. Qed.

Lemma keeps_bind {A B} (m : M (R:=R) A) (k : A -> M (R:=R) B) :
  keeps_roles m -> (forall a, keeps_roles (k a)) -> keeps_roles (bind m k).
Proof.
  intros Hm Hk w Hw. unfold bind. specialize (Hm w Hw).
  destruct (m w) as [[a|e| |] w']; cbn in *; try done. by apply Hk.
Qed.

Lemma keeps_try_except {A} (body : M (R:=R) A) (handler : exn -> M (R:=R) A) :
  keeps_roles body -> (forall e, keeps_roles (handler e)) ->
  keeps_roles (try_except body handler).
Proof.
  intros Hb Hh w Hw. unfold try_except. specialize (Hb w Hw).
  destruct (body w) as [[a|e| |] w']; cbn in *; try done. by apply Hh.
Qed.

Lemma keeps_within {A} (wrap : list element -> element) (body : M (R:=R) A) :
  keeps_roles body -> keeps_roles (within wrap body).
Proof.
  intros Hb w Hw. unfold within.
  specialize (Hb (with_screen (fun _ => []) w) Hw).
  by destruct (body _) as [r w'].
Qed.

Lemma keeps_for_each {A} (xs : list A) (body : A -> M (R:=R) unit) :
  (forall x, keeps_roles (body x)) -> keeps_roles (for_each xs body).
Proof.
  intros Hb. induction xs as [|x xs IH]; cbn [for_each].
  - apply keeps_ret.
  - apply keeps_bind; [apply Hb|]. intros _. apply IH.
Qed.

Lemma keeps_draw (e : element) : keeps_roles (R:=R) (draw e).
Proof. by intros w Hw. Qed.

Lemma keeps_st_dataframe (data : pyval) : keeps_roles (R:=R) (st_dataframe data).
Proof. intros w Hw. unfold st_dataframe. by destruct (conversion_error data). Qed.

Lemma keeps_record (c : call) : keeps_roles (R:=R) (record c).
Proof. by intros w Hw. Qed.

Lemma keeps_config_set (c : Config) : keeps_roles (R:=R) (config_set c).
Proof. by intros w Hw. Qed.

Lemma keeps_get_messages : keeps_roles (R:=R) get_messages.
Proof.
  intros w Hw. unfold get_messages.
  by destruct (session_state w !! "messages").
Qed.

Lemma roles_ok_set (l : list message) (w : world R) :
  Forall role_ok l -> roles_ok (with_session (insert "messages" l) w).
Proof.
  intros Hl. unfold roles_ok, history. cbn. by rewrite lookup_insert_eq.
Qed.

(** Clear chat: the empty list. *)
Lemma keeps_set_messages_nil : keeps_roles (R:=R) (set_messages []).
Proof. intros w _. by apply roles_ok_set. Qed.

(** Appending a user or assistant message. *)
Lemma keeps_append_message (m : message) :
  role_ok m -> keeps_roles (R:=R) (append_message m).
Proof.
  intros Hm w Hw. unfold append_message, bind, get_messages.
  destruct (session_state w !! "messages") as [l|] eqn:Hl; [|done].
  cbn. apply roles_ok_set. apply Forall_app. split; [|by constructor].
  unfold roles_ok, history in Hw. by rewrite Hl in Hw.
Qed.

Lemma keeps_init_session : keeps_roles (R:=R) init_session.
Proof.
  intros w Hw. rewrite init_session_eq. cbn [snd]. by apply roles_ok_set.
Qed.

Lemma keeps_init_llm (key endpoint deployment version : option string) :
  keeps_roles (R:=R) (init_llm key endpoint deployment version).
Proof. intros w Hw. unfold init_llm. by destruct (cache_resource w). Qed.

#[local] Hint Resolve keeps_ret keeps_raise keeps_stop keeps_rerun keeps_draw
  keeps_st_dataframe keeps_record keeps_config_set keeps_get_messages
  keeps_set_messages_nil keeps_init_session keeps_init_llm : roles.

Lemma keeps_read_csv (p : string) : keeps_roles (R:=R) (read_csv p).
Proof.
  unfold read_csv. apply keeps_bind; [auto with roles|]. intros _.
  destruct (pai_read_csv p); auto with roles.
Qed.

Lemma keeps_load_data : keeps_roles (R:=R) load_data.
Proof.
  intros w Hw. unfold load_data. destruct (cache_data w); [done|].
  revert w Hw. change (keeps_roles
    (let! holdings := read_csv "data/holdings.csv" in
     let! trades := read_csv "data/trades.csv" in
     fun w' => (Ok (holdings, trades),
                with_cache_data (Some (holdings, trades)) w'))).
  apply keeps_bind; [apply keeps_read_csv|]. intros holdings.
  apply keeps_bind; [apply keeps_read_csv|]. intros trades.
  by intros w Hw.
Qed.

Lemma keeps_chat (fn : PaiFrame) (question : string) :
  keeps_roles (R:=R) (chat fn question).
Proof.
  unfold chat. apply keeps_bind; [auto with roles|]. intros _ w Hw.
  by destruct (df_chat _ _ _ _) as [[v|e] r].
Qed.

Lemma keeps_chat_many (question : string) (dfs : list PaiFrame) :
  keeps_roles (R:=R) (chat_many question dfs).
Proof.
  unfold chat_many. apply keeps_bind; [auto with roles|]. intros _ w Hw.
  by destruct (pai_chat _ _ _ _) as [[v|e] r].
Qed.

Lemma keeps_safe_chat (fn : PaiFrame) (question : string) :
  keeps_roles (R:=R) (safe_chat fn question).
Proof.
  unfold safe_chat. apply keeps_try_except; [apply keeps_chat|].
  intros e. destruct e; auto with roles.
Qed.

Lemma keeps_render_message (msg : message) :
  keeps_roles (R:=R) (render_message msg).
Proof.
  unfold render_message. apply keeps_within.
  destruct (content msg) as [s|items|table|h label]; auto with roles.
  destruct (getitem items "dataframe"); auto with roles.
Qed.

Lemma keeps_handle_prompt (data_scope prompt : string)
    (holdings_df trades_df : PaiFrame) :
  keeps_roles (R:=R) (handle_prompt data_scope prompt holdings_df trades_df).
Proof.
  unfold handle_prompt.
  apply keeps_bind; [apply keeps_append_message; by left|]. intros _.
  apply keeps_bind; [apply keeps_within; auto with roles|]. intros _.
  apply keeps_within. apply keeps_bind.
  - apply keeps_try_except; [|auto with roles].
    destruct (String.eqb data_scope "Holdings"); [apply keeps_safe_chat|].
    destruct (String.eqb data_scope "Trades");
      [apply keeps_safe_chat|apply keeps_chat_many].
  - intros response. destruct (hasattr_head response).
    + apply keeps_bind; [auto with roles|]. intros _.
      apply keeps_append_message. by right.
    + apply keeps_bind; [auto with roles|]. intros _.
      apply keeps_append_message. by right.
Qed.

Ltac keep_going :=
  repeat (apply keeps_bind; [solve [auto with roles]|]; intro).

Lemma keeps_page (i : inputs) : keeps_roles (R:=R) (page i).
Proof.
  unfold page. cbv zeta. keep_going.
  apply keeps_bind.
  { destruct (negb _); [|auto with roles].
    apply keeps_bind; auto with roles. }
  intros _. keep_going.
  apply keeps_bind; [apply keeps_load_data|]. intros frames. keep_going.
  apply keeps_bind.
  { destruct (getitem _ _); auto with roles. }
  intros questions.
  apply keeps_bind; [apply keeps_for_each; auto with roles|]. intros _.
  apply keeps_bind.
  { destruct (button _); [|auto with roles].
    apply keeps_bind; auto with roles. }
  intros _. keep_going.
  apply keeps_bind; [apply keeps_for_each, keeps_render_message|]. intros _.
  apply keeps_bind.
  { destruct (truthy _); [apply keeps_handle_prompt|auto with roles]. }
  intros _.
  apply keeps_bind; [apply keeps_within; auto with roles|]. intros _.
  apply keeps_within; auto with roles.
Qed.

Lemma keeps_run (i : inputs) (w : world R) :
  roles_ok w -> roles_ok (run i w).2.
Proof. intros Hw. unfold run. by apply keeps_page. Qed.

Lemma keeps_interact (i : inputs) (w : world R) :
  roles_ok w -> roles_ok (interact i w).2.
Proof.
  intros Hw. unfold interact. pose proof (keeps_run i w Hw) as Hrun.
  destruct (run i w) as [[[]|e| |] w']; try done.
  by apply keeps_run.
Qed.

(** *** What an interaction does *)

Lemma interact_submit (i : inputs) (w : world R) (h t : PaiFrame) (p : string) :
  let env := load_dotenv true (dotenv i) (environ i) in
  let o := delegate (page_config i w) (selected i) h t p (service w) in
  Forall (present env) required_variables ->
  loaded_frames w = Returned (h, t) ->
  trig i = Submit p ->
  p <> "" ->
  Forall renders (history w) ->
  (interact i w).1 = ended (response_error (reply o.1))
  /\ history (interact i w).2
     = history w
       ++ {| role := "user"; content := PStr p |}
          :: match response_error (reply o.1) with
             | None => [ {| role := "assistant"; content := stored (reply o.1) |} ]
             | Some _ => []
             end
  /\ chat_elements (screen (interact i w).2)
     = map shown (history w)
       ++ [ChatMessage "user" [Write (PStr p)];
           ChatMessage "assistant" match response_error (reply o.1) with
                                   | None => [drawn (reply o.1)]
                                   | Some _ => []
                                   end]
  /\ chat_calls (calls (interact i w).2) = [delegated_call (selected i) h t p]
  /\ service (interact i w).2 = o.2.
Proof.
  intros env o Henv Hframes Htrig Hp Hrender. apply py_all_present in Henv.
  destruct (run_submit i w h t p Henv Hframes Htrig Hp Hrender)
    as (w' & Hrun & Hh & Hs & Hc & Hv & _).
  unfold interact. rewrite Hrun. fold o in Hh, Hs, Hv |- *.
  destruct (response_error (reply o.1)); cbn [ended fst snd]; by repeat split.
Qed.

Lemma interact_quiet (i : inputs) (w : world R) (h t : PaiFrame) :
  let env := load_dotenv true (dotenv i) (environ i) in
  Forall (present env) required_variables ->
  loaded_frames w = Returned (h, t) ->
  button (trig i) = false ->
  truthy (chat_input (trig i)) = false ->
  Forall renders (history w) ->
  (interact i w).1 = Ok tt
  /\ history (interact i w).2 = history w
  /\ chat_elements (screen (interact i w).2) = map shown (history w)
  /\ chat_calls (calls (interact i w).2) = []
  /\ service (interact i w).2 = service w.
Proof.
  intros env Henv Hframes Hbutton Hinput Hrender. apply py_all_present in Henv.
  destruct (run_quiet i w h t Henv Hframes Hbutton Hinput Hrender)
    as (w' & Hrun & Hh & Hs & Hc & Hv & _).
  unfold interact. rewrite Hrun. cbn [fst snd]. by repeat split.
Qed.

(** Clear chat: the run empties the history and asks for the rerun,
    which has nothing stored to draw. *)
Lemma interact_clear (i : inputs) (w : world R) (h t : PaiFrame) :
  let env := load_dotenv true (dotenv i) (environ i) in
  Forall (present env) required_variables ->
  loaded_frames w = Returned (h, t) ->
  trig i = ClearChat ->
  (interact i w).1 = Ok tt
  /\ history (interact i w).2 = []
  /\ chat_elements (screen (interact i w).2) = []
  /\ chat_calls (calls (interact i w).2) = []
  /\ service (interact i w).2 = service w.
Proof.
  intros env Henv Hframes Htrig. apply py_all_present in Henv.
  destruct (run_clear i w h t Henv Hframes Htrig)
    as (w1 & Hrun & Hhistory & Hframes1 & _ & Hservice & _).
  unfold interact. rewrite Hrun.
  assert (Forall renders (history w1)) as Hrender by (by rewrite Hhistory).
  destruct (run_quiet {| environ := environ i; dotenv := dotenv i;
                         selected := selected i; trig := Refresh |}
              w1 h t Henv Hframes1 eq_refl eq_refl Hrender)
    as (w2 & Hrun2 & Hh2 & Hs2 & Hc2 & Hv2 & _).
  rewrite Hrun2. cbn [fst snd]. rewrite Hh2, Hs2, Hc2, Hv2, Hhistory.
  by repeat split.
Qed.

(** What an interaction does to the session, whatever the state: the
    history is left, emptied, or extended by the question and, unless
    the table widget refuses it, the response; at most one question is
    sent; and it fails only as its first run fails. *)
Lemma interact_summary (i : inputs) (w : world R) :
  (history (interact i w).2 = history w
   \/ history (interact i w).2 = []
   \/ (exists p v,
         history (interact i w).2
         = history w ++ [ {| role := "user"; content := PStr p |};
                          {| role := "assistant"; content := v |} ])
   \/ exists p v e,
        history (interact i w).2
        = history w ++ [ {| role := "user"; content := PStr p |} ]
        /\ hasattr_head v = true /\ conversion_error v = Some e
        /\ (interact i w).1 = Fail e)
  /\ (chat_calls (calls (interact i w).2) = []
      /\ service (interact i w).2 = service w
      \/ exists c, chat_calls (calls (interact i w).2) = [c])
  /\ (interact i w).1 <> Rerun
  /\ forall e, (interact i w).1 = Fail e -> (run i w).1 = Fail e.
Proof.
  unfold interact.
  destruct (run_cases i w)
    as [[_ Heff]
       |[Henv [(e & _ & Heff)
              |(h & t & Hframes & _
                & [(Htrig & Heff & Hframes1)
                  |(_ & [(e & _ & Heff)
                        |(Hrender & [(_ & Heff)|(p & Htrig & Hp & Heff)])])])]]];
    cbv zeta in *; unfold effect in Heff;
    injection Heff as Hr Hh Hc Hs.
  - destruct (run i w) as [r w1]. cbn [fst snd] in *. subst r.
    split; [auto|]. split; [auto|]. done.
  - destruct (run i w) as [r w1]. cbn [fst snd] in *. subst r.
    split; [auto|]. split; [auto|]. done.
  - destruct (run i w) as [r w1]. cbn [fst snd] in *. subst r.
    assert (Forall renders (history w1)) as Hrender by (by rewrite Hh).
    destruct (run_quiet {| environ := environ i; dotenv := dotenv i;
                           selected := selected i; trig := Refresh |}
                w1 h t Henv Hframes1 eq_refl eq_refl Hrender)
      as (w2 & -> & Hh2 & _ & Hc2 & Hs2 & _).
    cbn [fst snd]. rewrite Hh2, Hh, Hc2, Hs2, Hs.
    split; [auto|]. split; [auto|]. done.
  - destruct (run i w) as [r w1]. cbn [fst snd] in *. subst r.
    split; [auto|]. split; [auto|]. done.
  - destruct (run i w) as [r w1]. cbn [fst snd] in *. subst r.
    split; [auto|]. split; [auto|]. done.
  - destruct (run i w) as [r w1]. cbn [fst snd] in *. subst r.
    unfold response_error in *.
    set (v := reply (delegate (page_config i w) (selected i) h t p (service w)).1)
      in *.
    destruct (hasattr_head v) eqn:Hhead; [destruct (conversion_error v) as [e|] eqn:He|];
      cbn [ended fst snd].
    + split; [right; right; right; exists p, v, e; by rewrite Hh|].
      split; [eauto|]. done.
    + split; [right; right; left; eauto|]. split; [eauto|]. done.
    + split; [right; right; left; eauto|]. split; [eauto|]. done.
Qed.

(** The questions of a run: none, the hosted model being left alone, or
    the one the scope selects. *)
Lemma run_calls (i : inputs) (w : world R) :
  chat_calls (calls (run i w).2) = [] /\ service (run i w).2 = service w
  \/ exists h t p,
       loaded_frames w = Returned (h, t) /\ trig i = Submit p
       /\ chat_calls (calls (run i w).2) = [delegated_call (selected i) h t p]
       /\ service (run i w).2
          = (delegate (page_config i w) (selected i) h t p (service w)).2.
Proof.
  destruct (run_cases i w)
    as [[_ Heff]
       |[Henv [(e & _ & Heff)
              |(h & t & Hframes & _
                & [(Htrig & Heff & Hframes1)
                  |(_ & [(e & _ & Heff)
                        |(Hrender & [(_ & Heff)|(p & Htrig & Hp & Heff)])])])]]];
    cbv zeta in *; unfold effect in Heff;
    injection Heff as Hr Hh Hc Hs; [by left..|].
  right. by exists h, t, p.
Qed.


(** *** What the page guarantees *)

(** C1: whatever the scope, when the delegated chat call raises, the
    assistant's response is the fallback text: it is what the run appends
    to the history after the user's message and what it draws last in
    the chat, and it is, character for character, the text the system
    prompt tells the library to answer with.  The call is made in a run
    that gets past the start-up and the drawing of the stored
    messages. *)
Theorem fallback_on_exception (i : inputs) (w : world R) (h t : PaiFrame)
    (p : string) (e : exn) (r : R) :
  let env := load_dotenv true (dotenv i) (environ i) in
  Forall (present env) required_variables ->
  loaded_frames w = Returned (h, t) ->
  Forall renders (history w) ->
  trig i = Submit p ->
  p <> "" ->
  delegate (page_config i w) (selected i) h t p (service w) = (Raised e, r) ->
  (interact i w).1 = Ok tt
  /\ history (interact i w).2
     = history w ++ [ {| role := "user"; content := PStr p |};
                      {| role := "assistant"; content := PStr fallback |} ]
  /\ last (chat_elements (screen (interact i w).2))
     = Some (ChatMessage "assistant" [Write (PStr fallback)])
  /\ fallback = "I don't know — this information is not in the CSV."
  /\ System_prompt <$> page_config i w = Some system_prompt_text
  /\ quoted_after "respond EXACTLY with:" system_prompt_text = Some fallback.
Proof.
  intros env Henv Hframes Hrender Htrig Hp Hraised.
  destruct (interact_submit i w h t p Henv Hframes Htrig Hp Hrender)
    as (Hok & Hhistory & Hscreen & _).
  rewrite Hraised in Hok, Hhistory, Hscreen.
  cbn [fst reply stored drawn hasattr_head response_error ended]
    in Hok, Hhistory, Hscreen.
  split; [exact Hok|]. split; [exact Hhistory|]. split.
  - rewrite Hscreen.
    change [ChatMessage "user" [Write (PStr p)];
            ChatMessage "assistant" [Write (PStr fallback)]]
      with ([ChatMessage "user" [Write (PStr p)]]
            ++ [ChatMessage "assistant" [Write (PStr fallback)]]).
    by rewrite app_assoc, last_snoc.
  - split; [reflexivity|]. split; [reflexivity|].
    apply fallback_in_system_prompt.
Qed.

(** C2: the scope alone decides who receives a submitted question.  In
    a run that gets as far as the chat input, the question goes to
    [chat] of the holdings dataframe for "Holdings", to [chat] of the
    trades dataframe for "Trades", and to [pai.chat] with both for the
    third entry: that call is the only one the run makes, the hosted
    model is left as that call leaves it, and what the call returns (the
    fallback text if it raises) is the response that is drawn and
    stored.  A run without a submitted prompt sends nothing.  And in any
    run at all, whatever the state of the server, a question that is
    sent is sent once, to the receiver of the selected scope. *)
Theorem scope_selects_receiver (i : inputs) (w : world R) (h t : PaiFrame) :
  let env := load_dotenv true (dotenv i) (environ i) in
  Forall (present env) required_variables ->
  loaded_frames w = Returned (h, t) ->
  Forall renders (history w) ->
  (forall p, trig i = Submit p -> p <> "" ->
     let o := match selected i with
              | Holdings => df_chat (page_config i w) h p (service w)
              | Trades => df_chat (page_config i w) t p (service w)
              | HoldingsAndTrades =>
                  pai_chat (page_config i w) p [h; t] (service w)
              end in
     chat_calls (calls (interact i w).2)
     = [match selected i with
        | Holdings => DfChat h p
        | Trades => DfChat t p
        | HoldingsAndTrades => PaiChat p [h; t]
        end]
     /\ service (interact i w).2 = o.2
     /\ (response_error (reply o.1) = None ->
         last (history (interact i w).2)
         = Some {| role := "assistant"; content := stored (reply o.1) |}
         /\ last (chat_elements (screen (interact i w).2))
            = Some (ChatMessage "assistant" [drawn (reply o.1)]))
     /\ (selectbox scope_options (selected i) = "Holdings" <-> selected i = Holdings)
     /\ (selectbox scope_options (selected i) = "Trades" <-> selected i = Trades))
  /\ ((forall p, trig i = Submit p -> p = "") ->
      chat_calls (calls (interact i w).2) = []
      /\ service (interact i w).2 = service w)
  /\ forall (i0 : inputs) (w0 : world R) (c : call),
       c ∈ chat_calls (calls (run i0 w0).2) ->
       exists h0 t0 p,
         loaded_frames w0 = Returned (h0, t0)
         /\ trig i0 = Submit p
         /\ c = match selected i0 with
                | Holdings => DfChat h0 p
                | Trades => DfChat t0 p
                | HoldingsAndTrades => PaiChat p [h0; t0]
                end
         /\ chat_calls (calls (run i0 w0).2) = [c]
         /\ service (run i0 w0).2
            = match selected i0 with
              | Holdings => (df_chat (page_config i0 w0) h0 p (service w0)).2
              | Trades => (df_chat (page_config i0 w0) t0 p (service w0)).2
              | HoldingsAndTrades =>
                  (pai_chat (page_config i0 w0) p [h0; t0] (service w0)).2
              end.
Proof.
  intros env Henv Hframes Hrender. split; [|split].
  - intros p Htrig Hp o.
    destruct (interact_submit i w h t p Henv Hframes Htrig Hp Hrender)
      as (_ & Hhistory & Hscreen & Hcalls & Hservice).
    assert (delegate (page_config i w) (selected i) h t p (service w) = o) as Ho
      by (subst o; by destruct (selected i)).
    rewrite Ho in Hhistory, Hscreen, Hservice.
    split; [rewrite Hcalls; by destruct (selected i)|].
    split; [exact Hservice|]. split.
    + intros Hdrawn. rewrite Hdrawn in Hhistory, Hscreen.
      rewrite Hhistory, Hscreen. split.
      * change (?x :: [?y]) with ([x] ++ [y]). by rewrite app_assoc, last_snoc.
      * change (?x :: [?y]) with ([x] ++ [y]). by rewrite app_assoc, last_snoc.
    + destruct (selected i); cbn; split; split; done.
  - intros Hquiet. destruct (trig i) as [| |p] eqn:Htrig.
    + by destruct (interact_quiet i w h t Henv Hframes) as (_ & _ & _ & ? & ?);
        rewrite ?Htrig.
    + by destruct (interact_clear i w h t Henv Hframes Htrig) as (_ & _ & _ & ? & ?).
    + rewrite (Hquiet p eq_refl) in Htrig.
      by destruct (interact_quiet i w h t Henv Hframes) as (_ & _ & _ & ? & ?);
        rewrite ?Htrig.
  - intros i0 w0 c Hin.
    destruct (run_calls i0 w0) as [[Hnone _]|(h0 & t0 & p & Hf & Htrig & Hc & Hs)].
    + rewrite Hnone in Hin. by apply elem_of_nil in Hin.
    + rewrite Hc in Hin. apply list_elem_of_singleton in Hin. subst c.
      exists h0, t0, p. split; [done|]. split; [done|].
      split; [by destruct (selected i0)|]. split; [done|].
      rewrite Hs. by destruct (selected i0).
Qed.

(** C6, as amended: in a run that gets past the start-up and draws the
    stored messages, a non-empty prompt whose response is drawn without
    an exception (as every response without a [head] attribute is)
    appends exactly two entries to the history, the user's with the
    prompt as content and then the assistant's holding the response; and
    every such run draws the stored messages in list order before
    anything new, a dict content with a "dataframe" key as a table and
    any other content as text. *)
Theorem prompt_appends_two_messages (i : inputs) (w : world R) (h t : PaiFrame) :
  let env := load_dotenv true (dotenv i) (environ i) in
  let w' := (interact i w).2 in
  Forall (present env) required_variables ->
  loaded_frames w = Returned (h, t) ->
  Forall renders (history w) ->
  (forall p, trig i = Submit p ->
     response_error
       (reply (delegate (page_config i w) (selected i) h t p (service w)).1)
     = None) ->
  (interact i w).1 = Ok tt
  /\ match trig i with
     | Submit p =>
         if decide (p = "") then
           history w' = history w
           /\ chat_elements (screen w') = map shown (history w)
         else
           let response :=
             reply (delegate (page_config i w) (selected i) h t p (service w)).1 in
           history w'
           = history w ++ [ {| role := "user"; content := PStr p |};
                            {| role := "assistant"; content := stored response |} ]
           /\ (stored response = response
               \/ stored response = PDict [("dataframe", response)])
           /\ chat_elements (screen w')
              = map shown (history w)
                ++ [ChatMessage "user" [Write (PStr p)];
                    ChatMessage "assistant" [drawn response]]
     | Refresh =>
         history w' = history w
         /\ chat_elements (screen w') = map shown (history w)
     | ClearChat =>
         history w' = [] /\ chat_elements (screen w') = map shown []
     end
  /\ (forall v, hasattr_head v = false -> response_error v = None)
  /\ (forall msg (w0 : world R),
        renders msg ->
        render_message msg w0
        = (Ok tt, with_screen (fun s => s ++ [shown msg]) w0))
  /\ forall msg,
       (forall items df,
           content msg = PDict items -> getitem items "dataframe" = Some df ->
           shown msg = ChatMessage (role msg) [Dataframe df])
       /\ ((forall items, content msg = PDict items ->
                          getitem items "dataframe" = None) ->
           shown msg = ChatMessage (role msg) [Write (content msg)]).
Proof.
  intros env w' Henv Hframes Hrender Hdrawn. subst w'.
  assert ((interact i w).1 = Ok tt
          /\ match trig i with
             | Submit p =>
                 if decide (p = "") then
                   history (interact i w).2 = history w
                   /\ chat_elements (screen (interact i w).2)
                      = map shown (history w)
                 else
                   let response :=
                     reply (delegate (page_config i w) (selected i) h t p
                              (service w)).1 in
                   history (interact i w).2
                   = history w
                     ++ [ {| role := "user"; content := PStr p |};
                          {| role := "assistant"; content := stored response |} ]
                   /\ (stored response = response
                       \/ stored response = PDict [("dataframe", response)])
                   /\ chat_elements (screen (interact i w).2)
                      = map shown (history w)
                        ++ [ChatMessage "user" [Write (PStr p)];
                            ChatMessage "assistant" [drawn response]]
             | Refresh =>
                 history (interact i w).2 = history w
                 /\ chat_elements (screen (interact i w).2)
                    = map shown (history w)
             | ClearChat =>
                 history (interact i w).2 = []
                 /\ chat_elements (screen (interact i w).2) = map shown []
             end) as [Hok Hcases].
  { destruct (trig i) as [| |p] eqn:Htrig.
    - destruct (interact_quiet i w h t Henv Hframes) as (? & ? & ? & _);
        rewrite ?Htrig; done.
    - destruct (interact_clear i w h t Henv Hframes Htrig) as (? & ? & ? & _).
      done.
    - destruct (decide (p = "")) as [->|Hp].
      + destruct (interact_quiet i w h t Henv Hframes) as (? & ? & ? & _);
          rewrite ?Htrig; done.
      + destruct (interact_submit i w h t p Henv Hframes Htrig Hp Hrender)
          as (Hok & Hh & Hs & _).
        rewrite (Hdrawn p eq_refl) in Hok, Hh, Hs.
        cbv zeta. split; [done|]. split; [done|]. split; [|done].
        unfold stored. destruct (hasattr_head _); [by right|by left]. }
  split; [exact Hok|]. split; [exact Hcases|].
  split; [intros v Hv; unfold response_error; by rewrite Hv|].
  split.
  { intros msg w0 Hmsg. rewrite render_message_eq. unfold renders in Hmsg.
    by rewrite Hmsg. }
  intros msg. unfold shown. split.
  - intros items df -> ->. done.
  - intros Hnone. destruct (content msg) as [s|items|table|b label]; try done.
    by rewrite (Hnone items eq_refl).
Qed.

(** C10: in every state a session can reach, every entry of the history
    has role "user" or "assistant"; the history starts empty, and the
    invariant survives each way the list is changed: the append of the
    user's message, the append of the assistant's response, the reset
    by Clear chat, and so any run and any interaction. *)
Theorem history_roles_invariant (w : world R) :
  reachable w ->
  Forall role_ok (history w)
  /\ (forall p, Forall role_ok
        (history (append_message {| role := "user"; content := PStr p |} w).2))
  /\ (forall v, Forall role_ok
        (history (append_message {| role := "assistant"; content := v |} w).2))
  /\ history (set_messages [] w).2 = []
  /\ (forall i, Forall role_ok (history (run i w).2))
  /\ (forall i, Forall role_ok (history (interact i w).2))
  /\ forall r : R, history (start r) = [].
Proof.
  intros Hreach.
  assert (roles_ok w) as Hw.
  { induction Hreach as [r|i w Hreach IH]; [constructor|].
    by apply keeps_interact. }
  split; [exact Hw|].
  split; [intros p; apply keeps_append_message; [by left|done]|].
  split; [intros v; apply keeps_append_message; [by right|done]|].
  split; [unfold history; cbn; by rewrite lookup_insert_eq|].
  split; [intros i; by apply keeps_run|].
  split; [intros i; by apply keeps_interact|].
  done.
Qed.

(** *** The environment, in both programs *)

(** C5: both programs read the four Azure variables from the environment
    left by [load_dotenv] and check that each is present and not empty.
    If one is absent or empty, the page draws its error and stops and the
    console script raises [ValueError]; and neither program constructs
    its model client unless all four are present. *)
Theorem azure_variables_validated {R2 : Type} {Pd : Rag.Pandas}
    (vars dotfile : gmap string string)
    (fs : gmap string Rag.csv_file) (rw : Rag.world R2)
    (sel : scope) (t : trigger) (w : world R) :
  let script_env := load_dotenv false dotfile vars in
  let page_env := load_dotenv true dotfile vars in
  let i := {| environ := vars; dotenv := dotfile; selected := sel; trig := t |} in
  ((exists name, name ∈ required_variables /\ absent_or_empty script_env name) ->
     (Rag.script_setup vars dotfile fs rw).1
     = Raised (ValueError "❌ Missing Azure OpenAI environment variables")
     /\ Rag.clients (Rag.script_setup vars dotfile fs rw).2 = Rag.clients rw)
  /\ (Rag.clients (Rag.script_setup vars dotfile fs rw).2 <> Rag.clients rw ->
      Forall (present script_env) required_variables)
  /\ ((exists name, name ∈ required_variables /\ absent_or_empty page_env name) ->
        (run i w).1 = Stop
        /\ last (screen (run i w).2)
           = Some (Error "❌ Azure OpenAI environment variables are missing")
        /\ calls (run i w).2 = []
        /\ cache_resource (run i w).2 = cache_resource w)
  /\ ((exists c, NewLiteLLM c ∈ calls (run i w).2) ->
      Forall (present page_env) required_variables).
Proof.
  intros script_env page_env i.
  split; [|split; [|split]].
  - intros Hmissing%py_all_absent.
    destruct (RagFacts.script_setup_missing vars dotfile fs rw Hmissing)
      as (rw' & -> & Hclients & _).
    done.
  - intros Hclients. apply py_all_present.
    destruct (py_all (map (getenv script_env) required_variables)) eqn:Hall;
      [done|].
    destruct (RagFacts.script_setup_missing vars dotfile fs rw Hall)
      as (rw' & Hrun & Hsame & _).
    rewrite Hrun in Hclients. done.
  - intros Hmissing%py_all_absent.
    destruct (run_missing i w Hmissing) as (w' & -> & Hlast & Hcalls & Hcache & _).
    done.
  - intros [c Hc]. apply py_all_present.
    destruct (py_all (map (getenv page_env) required_variables)) eqn:Hall;
      [done|].
    destruct (run_missing i w Hall) as (w' & Hrun & _ & Hcalls & _).
    rewrite Hrun in Hc. cbn [snd] in Hc. rewrite Hcalls in Hc.
    by apply elem_of_nil in Hc.
Qed.

(** *** Further properties of the page *)

(** X7: the two programs load the [.env] file differently.  The page
    lets it override the process environment and the script lets it only
    fill what is missing; so an empty entry for a required variable in
    [.env] stops the page although the process environment has all four,
    while the script, with all four in the process environment, gets past
    its check whatever [.env] holds. *)
Theorem dotenv_precedence {R2 : Type} {Pd : Rag.Pandas}
    (vars dotfile : gmap string string)
    (fs : gmap string Rag.csv_file) (rw : Rag.world R2)
    (sel : scope) (t : trigger) (w : world R) :
  let i := {| environ := vars; dotenv := dotfile; selected := sel; trig := t |} in
  (forall name,
      getenv (load_dotenv true dotfile vars) name
      = match dotfile !! name with
        | Some v => Some v
        | None => vars !! name
        end)
  /\ (forall name,
        getenv (load_dotenv false dotfile vars) name
        = match vars !! name with
          | Some v => Some v
          | None => dotfile !! name
          end)
  /\ ((exists name, name ∈ required_variables /\ dotfile !! name = Some "") ->
      (run i w).1 = Stop)
  /\ (Forall (present vars) required_variables ->
      Rag.stdout (Rag.script_setup vars dotfile fs rw).2 !! length (Rag.stdout rw)
      = Some ("✅ Azure environment loaded" +:+ nl)).
Proof.
  intros i.
  assert (forall name,
             getenv (load_dotenv true dotfile vars) name
             = match dotfile !! name with
               | Some v => Some v
               | None => vars !! name
               end) as Hpage.
  { intros name. unfold getenv, load_dotenv.
    rewrite lookup_union. destruct (dotfile !! name), (vars !! name); done. }
  assert (forall name,
             getenv (load_dotenv false dotfile vars) name
             = match vars !! name with
               | Some v => Some v
               | None => dotfile !! name
               end) as Hscript.
  { intros name. unfold getenv, load_dotenv.
    rewrite lookup_union. destruct (dotfile !! name), (vars !! name); done. }
  split; [exact Hpage|]. split; [exact Hscript|]. split.
  - intros (name & Hin & Hempty).
    assert (py_all (map (getenv (load_dotenv true dotfile vars))
                      required_variables) = false) as Hall.
    { apply py_all_absent. exists name. split; [done|]. right.
      change (getenv (load_dotenv true dotfile vars) name = Some "").
      by rewrite Hpage, Hempty. }
    by destruct (run_missing i w Hall) as (w' & -> & _).
  - intros Hvars.
    assert (py_all (map (getenv (load_dotenv false dotfile vars))
                      required_variables) = true) as Hall.
    { apply py_all_present. eapply Forall_impl; [exact Hvars|].
      intros name (v & Hv & Hne). exists v. split; [|done].
      change (getenv (load_dotenv false dotfile vars) name = Some v).
      by rewrite Hscript, Hv. }
    by apply RagFacts.script_setup_passes_check.
Qed.

(** X8: a run ends with an exception in three cases only.  Loading the
    CSV files fails, and the exception is the one [pai.read_csv] raised;
    or the render loop reaches a stored message whose table the table
    widget refuses; or the response to the question has a [head]
    attribute and the table widget refuses it.  No exception of a chat
    call escapes, the lookup of the example questions never misses its
    key and the history is always there to append to.  A run asks for a
    rerun only on Clear chat, and an interaction never ends asking for
    one and fails only as its first run fails. *)
Theorem page_fails_on_load_or_table (i : inputs) (w : world R) :
  (forall e, (run i w).1 = Fail e ->
     (cache_data w = None
      /\ exists p, (p = "data/holdings.csv" \/ p = "data/trades.csv")
                   /\ pai_read_csv p = Raised e)
     \/ (exists msg df, msg ∈ history w /\ table_of msg = Some df
                        /\ conversion_error df = Some e)
     \/ exists h t p,
          loaded_frames w = Returned (h, t) /\ trig i = Submit p
          /\ let response :=
               reply (delegate (page_config i w) (selected i) h t p (service w)).1 in
             hasattr_head response = true /\ conversion_error response = Some e)
  /\ ((run i w).1 = Rerun -> trig i = ClearChat)
  /\ (interact i w).1 <> Rerun
  /\ (forall e, (interact i w).1 = Fail e -> (run i w).1 = Fail e)
  /\ forall sel, exists qs,
       getitem example_questions (selectbox scope_options sel) = Some qs.
Proof.
  pose proof (interact_summary i w) as (_ & _ & Hno & Hfail).
  split; [|split; [|split; [done|split; [done|]]]].
  - intros e0 He0.
    destruct (run_cases i w)
      as [[_ Heff]
         |[Henv [(e & Hload & Heff)
                |(h & t & Hframes & _
                  & [(Htrig & Heff & Hframes1)
                    |(_ & [(e & Hrender & Heff)
                          |(_ & [(_ & Heff)|(p & Htrig & Hp & Heff)])])])]]];
      cbv zeta in *; unfold effect in Heff;
      injection Heff as Hr _ _ _; rewrite Hr in He0; try done.
    + injection He0 as <-. left.
      unfold loaded_frames in Hload.
      destruct (cache_data w); [done|]. split; [done|].
      destruct (pai_read_csv "data/holdings.csv") as [h|e1] eqn:Hh.
      * destruct (pai_read_csv "data/trades.csv") as [t|e2] eqn:Ht; [done|].
        injection Hload as ->. exists "data/trades.csv". auto.
      * injection Hload as ->. exists "data/holdings.csv". auto.
    + injection He0 as <-. right. left. by apply rendered_failed.
    + right. right. exists h, t, p. split; [done|]. split; [done|].
      cbv zeta. unfold response_error in He0.
      destruct (hasattr_head _); [|done].
      split; [done|].
      destruct (conversion_error _) as [e|]; [|done]. by injection He0 as ->.
  - intros Hrerun.
    destruct (run_cases i w)
      as [[_ Heff]
         |[Henv [(e & Hload & Heff)
                |(h & t & Hframes & _
                  & [(Htrig & Heff & Hframes1)
                    |(_ & [(e & Hrender & Heff)
                          |(_ & [(_ & Heff)|(p & Htrig & Hp & Heff)])])])]]];
      cbv zeta in *; unfold effect in Heff;
      injection Heff as Hr _ _ _; rewrite Hr in Hrerun; try done.
    by destruct (response_error _).
  - apply getitem_example_questions.
Qed.

(** X9: when the CSV files cannot be loaded, the run has already built
    and cached the model client (the client comes before the data in the
    script), but sends no question, draws no chat message and leaves the
    history, the hosted model and the data cache as they were; nothing
    being cached, the next run tries to load the files again. *)
Theorem load_failure_leaves_session (i : inputs) (w : world R) (e : exn) :
  let env := load_dotenv true (dotenv i) (environ i) in
  Forall (present env) required_variables ->
  loaded_frames w = Raised e ->
  (run i w).1 = Fail e
  /\ history (run i w).2 = history w
  /\ chat_elements (screen (run i w).2) = []
  /\ chat_calls (calls (run i w).2) = []
  /\ service (run i w).2 = service w
  /\ cache_resource (run i w).2 = Some (page_llm i w)
  /\ cache_data (run i w).2 = None
  /\ loaded_frames (run i w).2 = loaded_frames w.
Proof.
  intros env Henv Hframes. apply py_all_present in Henv.
  destruct (run_load_failed i w e Henv Hframes)
    as (w' & -> & Hh & Hs & Hc & Hv & Hd & Hr).
  cbn [fst snd]. repeat (split; [done|]).
  unfold loaded_frames in *. rewrite Hd.
  by destruct (cache_data w).
Qed.

(** X10: the client and the CSV files are made and read at most once in
    the life of the server.  A run that gets past the start-up leaves
    both caches filled; its library calls are the construction of the
    client if none was cached, the two reads if no data was cached, and
    then its question.  In any later run the only library call is the
    question, and the client in use is the one of the first run, whatever
    the environment says by then. *)
Theorem caches_fill_once (i i2 : inputs) (w : world R) (h t : PaiFrame) :
  let env := load_dotenv true (dotenv i) (environ i) in
  let env2 := load_dotenv true (dotenv i2) (environ i2) in
  let w1 := (run i w).2 in
  Forall (present env) required_variables ->
  Forall (present env2) required_variables ->
  loaded_frames w = Returned (h, t) ->
  cache_resource w1 = Some (page_llm i w)
  /\ cache_data w1 = Some (h, t)
  /\ calls w1
     = match cache_resource w with
       | Some _ => []
       | None => [NewLiteLLM (page_llm i w)]
       end
       ++ match cache_data w with
          | Some _ => []
          | None => [ReadCsv "data/holdings.csv"; ReadCsv "data/trades.csv"]
          end
       ++ chat_calls (calls w1)
  /\ calls (run i2 w1).2 = chat_calls (calls (run i2 w1).2)
  /\ config (run i2 w1).2 = page_config i w
  /\ cache_resource (run i2 w1).2 = Some (page_llm i w)
  /\ cache_data (run i2 w1).2 = Some (h, t).
Proof.
  intros env env2 w1 Henv Henv2 Hframes.
  apply py_all_present in Henv. apply py_all_present in Henv2.
  destruct (run_caches i w h t Henv Hframes) as (Hr & Hd & _ & Hcalls).
  fold w1 in Hr, Hd, Hcalls.
  assert (loaded_frames w1 = Returned (h, t)) as Hframes1.
  { unfold loaded_frames. by rewrite Hd. }
  assert (page_llm i2 w1 = page_llm i w) as Hllm.
  { unfold page_llm at 1. by rewrite Hr. }
  destruct (run_caches i2 w1 h t Henv2 Hframes1) as (Hr2 & Hd2 & Hc2 & Hcalls2).
  unfold startup_calls in Hcalls, Hcalls2.
  rewrite Hr, Hd in Hcalls2. cbn [app] in Hcalls2.
  rewrite <- app_assoc in Hcalls.
  split; [done|]. split; [done|]. split; [done|]. split; [done|].
  split; [|split; [by rewrite Hr2, Hllm|done]].
  rewrite Hc2. unfold page_config. by rewrite Hllm.
Qed.



(** X13: no interaction sends more than one question to the library,
    whatever the environment, the caches and the trigger; and the hosted
    model is left as it was unless a question is sent. *)
Theorem at_most_one_question (i : inputs) (w : world R) :
  (length (chat_calls (calls (interact i w).2)) <= 1)%nat
  /\ (length (chat_calls (calls (run i w).2)) <= 1)%nat
  /\ (chat_calls (calls (interact i w).2) = [] ->
      service (interact i w).2 = service w)
  /\ (chat_calls (calls (run i w).2) = [] -> service (run i w).2 = service w).
Proof.
  destruct (interact_summary i w) as (_ & Hi & _).
  pose proof (run_calls i w) as Hr.
  split; [|split; [|split]].
  - destruct Hi as [[-> _]|[c ->]]; cbn; lia.
  - destruct Hr as [[-> _]|(? & ? & ? & _ & _ & -> & _)]; cbn; lia.
  - intros Hnone. destruct Hi as [[_ ?]|[c Hc]]; [done|congruence].
  - intros Hnone. destruct Hr as [[_ ?]|(? & ? & ? & _ & _ & Hc & _)];
      [done|congruence].
Qed.

End Page.

(** *** The page on the small instance *)

#[local] Existing Instance example_streamlit.
#[local] Existing Instance Rag.example_pandas.

Lemma example_inputs_present (sel : scope) (t : trigger) :
  Forall (present (load_dotenv true (dotenv (example_inputs sel t))
                     (environ (example_inputs sel t))))
    required_variables.
Proof. apply py_all_present. vm_compute. reflexivity. Qed.

(** A server that has just started has nothing stored to draw. *)
Lemma example_start_renders : Forall renders (history (R:=nat) (start 0)).
Proof. constructor. Qed.

(** A question on the trades that makes the library fail. *)
Lemma fallback_on_exception_witness :
  history (interact (P:=example_pandasai)
             (example_inputs Trades (Submit "boom")) (start 0)).2
  = [ {| role := "user"; content := PStr "boom" |};
      {| role := "assistant";
         content := PStr "I don't know — this information is not in the CSV." |} ].
Proof.
  exact (proj1 (proj2 (fallback_on_exception (P:=example_pandasai)
                         (example_inputs Trades (Submit "boom")) (start 0)
                         {| path := "data/holdings.csv" |}
                         {| path := "data/trades.csv" |}
                         "boom" (LibraryError "APIError" "boom") 1
                         (example_inputs_present _ _)
                         eq_refl example_start_renders eq_refl
                         ltac:(discriminate) eq_refl))).
Defined.

(** One question under each scope, and the hosted model after the first:
    it has served one request. *)
Lemma scope_selects_receiver_witness :
  chat_calls (calls (interact (P:=example_pandasai)
                       (example_inputs Holdings (Submit "hi")) (start 0)).2)
  = [DfChat {| path := "data/holdings.csv" |} "hi"]
  /\ chat_calls (calls (interact (P:=example_pandasai)
                          (example_inputs Trades (Submit "hi")) (start 0)).2)
     = [DfChat {| path := "data/trades.csv" |} "hi"]
  /\ chat_calls (calls (interact (P:=example_pandasai)
                          (example_inputs HoldingsAndTrades (Submit "hi"))
                          (start 0)).2)
     = [PaiChat "hi" [ {| path := "data/holdings.csv" |};
                       {| path := "data/trades.csv" |} ]]
  /\ service (interact (P:=example_pandasai)
                (example_inputs Holdings (Submit "hi")) (start 0)).2 = 1%nat
  /\ last (history (interact (P:=example_pandasai)
                      (example_inputs Holdings (Submit "hi")) (start 0)).2)
     = Some {| role := "assistant"; content := PStr "answer 0" |}.
Proof.
  pose proof (proj1 (scope_selects_receiver (P:=example_pandasai)
                       (example_inputs Holdings (Submit "hi")) (start 0)
                       {| path := "data/holdings.csv" |}
                       {| path := "data/trades.csv" |}
                       (example_inputs_present _ _) eq_refl example_start_renders)
                "hi" eq_refl ltac:(discriminate)) as (Hcall & Hservice & Hresponse & _).
  split; [exact Hcall|]. split; [|split; [|split]].
  - exact (proj1 (proj1 (scope_selects_receiver (P:=example_pandasai)
                           (example_inputs Trades (Submit "hi")) (start 0)
                           {| path := "data/holdings.csv" |}
                           {| path := "data/trades.csv" |}
                           (example_inputs_present _ _) eq_refl
                           example_start_renders)
                    "hi" eq_refl ltac:(discriminate))).
  - exact (proj1 (proj1 (scope_selects_receiver (P:=example_pandasai)
                           (example_inputs HoldingsAndTrades (Submit "hi"))
                           (start 0)
                           {| path := "data/holdings.csv" |}
                           {| path := "data/trades.csv" |}
                           (example_inputs_present _ _) eq_refl
                           example_start_renders)
                    "hi" eq_refl ltac:(discriminate))).
  - exact Hservice.
  - exact (proj1 (Hresponse eq_refl)).
Defined.

(** A question answered with a dataframe. *)
Lemma prompt_appends_two_messages_witness :
  history (interact (P:=example_pandasai)
             (example_inputs Holdings (Submit "table")) (start 0)).2
  = [ {| role := "user"; content := PStr "table" |};
      {| role := "assistant";
         content := PDict [("dataframe", PTable "rows")] |} ].
Proof.
  pose proof (prompt_appends_two_messages (P:=example_pandasai)
                (example_inputs Holdings (Submit "table")) (start 0)
                {| path := "data/holdings.csv" |}
                {| path := "data/trades.csv" |}
                (example_inputs_present _ _) eq_refl example_start_renders)
    as Hthm.
  cbv zeta in Hthm.
  destruct Hthm as (_ & Hcase & _).
  { intros p [= <-]. reflexivity. }
  cbn [trig example_inputs] in Hcase.
  destruct (decide ("table" = "")) as [Hempty|_]; [discriminate Hempty|].
  exact (proj1 Hcase).
Defined.

(** C6 as first stated does not hold.  A response that has a [head]
    attribute and is no table makes [st.dataframe] raise between the two
    appends: the run ends with that exception and the user's entry is
    the only one appended.  And a prompt submitted when the endpoint
    variable has gone missing stops the run at the check, with nothing
    appended. *)
Lemma prompt_appends_no_assistant_entry :
  (interact (P:=example_pandasai)
     (example_inputs Holdings (Submit "headonly")) (start 0)).1
  = Fail (LibraryError "StreamlitAPIException"
            "Unable to convert object to pandas.DataFrame")
  /\ history (interact (P:=example_pandasai)
                (example_inputs Holdings (Submit "headonly")) (start 0)).2
     = [ {| role := "user"; content := PStr "headonly" |} ]
  /\ (interact (P:=example_pandasai)
        {| environ := delete "AZURE_OPENAI_ENDPOINT" example_environ;
           dotenv := ∅; selected := Holdings; trig := Submit "hi" |}
        (start 0)).1 = Stop
  /\ history (interact (P:=example_pandasai)
                {| environ := delete "AZURE_OPENAI_ENDPOINT" example_environ;
                   dotenv := ∅; selected := Holdings; trig := Submit "hi" |}
                (start 0)).2 = []
  /\ ~ (forall (i : inputs) (w : world nat) (p : string),
          trig i = Submit p -> p <> "" ->
          exists v,
            history (interact (P:=example_pandasai) i w).2
            = history w ++ [ {| role := "user"; content := PStr p |};
                             {| role := "assistant"; content := v |} ]).
Proof.
  assert (history (interact (P:=example_pandasai)
                     (example_inputs Holdings (Submit "headonly")) (start 0)).2
          = [ {| role := "user"; content := PStr "headonly" |} ]) as Hhistory
    by (vm_compute; reflexivity).
  split; [vm_compute; reflexivity|]. split; [exact Hhistory|].
  split; [vm_compute; reflexivity|]. split; [vm_compute; reflexivity|].
  intros Hall.
  destruct (Hall (example_inputs Holdings (Submit "headonly")) (start 0)
              "headonly" eq_refl ltac:(discriminate)) as [v Hv].
  rewrite Hhistory in Hv. discriminate Hv.
Qed.

(** The state after one question is one a session can reach. *)
Lemma history_roles_invariant_witness :
  Forall role_ok
    (history (interact (P:=example_pandasai)
                (example_inputs Holdings (Submit "hi")) (start 0)).2).
Proof.
  exact (proj1 (history_roles_invariant (P:=example_pandasai) _
                  (reachable_interact _ _ (reachable_start 0)))).
Defined.

(** An environment without the endpoint stops both programs. *)
Lemma azure_variables_validated_witness :
  (Rag.script_setup (delete "AZURE_OPENAI_ENDPOINT" example_environ) ∅
     Rag.example_fs (Rag.start 0)).1
  = Raised (ValueError "❌ Missing Azure OpenAI environment variables")
  /\ (run (P:=example_pandasai)
        {| environ := delete "AZURE_OPENAI_ENDPOINT" example_environ;
           dotenv := ∅; selected := Holdings; trig := Refresh |}
        (start 0)).1 = Stop.
Proof.
  pose proof (azure_variables_validated (P:=example_pandasai)
                (delete "AZURE_OPENAI_ENDPOINT" example_environ) ∅
                Rag.example_fs (Rag.start 0) Holdings Refresh (start 0))
    as (Hscript & _ & Hpage & _).
  assert (exists name, name ∈ required_variables
                       /\ absent_or_empty
                            (delete "AZURE_OPENAI_ENDPOINT" example_environ) name)
    as Hmissing.
  { exists "AZURE_OPENAI_ENDPOINT". split.
    - apply list_elem_of_lookup. by exists 1%nat.
    - left. apply lookup_delete_eq. }
  split.
  - apply Hscript. destruct Hmissing as (name & Hin & Habs).
    exists name. split; [done|].
    unfold load_dotenv. by rewrite (right_id_L ∅ (∪)).
  - apply Hpage. destruct Hmissing as (name & Hin & Habs).
    exists name. split; [done|].
    unfold load_dotenv. by rewrite (left_id_L ∅ (∪)).
Defined.

(** *** The further properties on the small instance *)

(** An empty key in the [.env] file, with the environment complete. *)
Lemma dotenv_precedence_witness :
  (run (P:=example_pandasai)
     {| environ := example_environ;
        dotenv := {[ "AZURE_OPENAI_API_KEY" := "" ]};
        selected := Holdings; trig := Refresh |} (start 0)).1
  = Stop.
Proof.
  pose proof (dotenv_precedence (P:=example_pandasai) example_environ
                {[ "AZURE_OPENAI_API_KEY" := "" ]} Rag.example_fs (Rag.start 0)
                Holdings Refresh (start 0)) as (_ & _ & Hstop & _).
  apply Hstop. exists "AZURE_OPENAI_API_KEY". split.
  - apply list_elem_of_lookup. by exists 0%nat.
  - apply lookup_singleton_eq.
Defined.

Lemma example_no_trades_frames :
  loaded_frames (P:=example_pandasai_no_trades) (start 0)
  = Raised (FileNotFoundError "data/trades.csv").
Proof. reflexivity. Qed.

(** The page on a disk without trades.csv fails with the exception of
    the read; the question "headonly" fails with the exception of the
    table widget on the response. *)
Lemma page_fails_on_load_or_table_witness :
  (exists p, (p = "data/holdings.csv" \/ p = "data/trades.csv")
             /\ pai_read_csv (PandasAI:=example_pandasai_no_trades) p
                = Raised (FileNotFoundError "data/trades.csv"))
  /\ conversion_error (PObject true "headonly")
     = Some (LibraryError "StreamlitAPIException"
               "Unable to convert object to pandas.DataFrame").
Proof.
  split.
  - destruct (proj1 (page_fails_on_load_or_table (P:=example_pandasai_no_trades)
                       (example_inputs Holdings (Submit "hi")) (start 0))
                (FileNotFoundError "data/trades.csv"))
      as [[_ Hread]|[(msg & df & Hin & _)|(h & t & p & Hframes & _)]].
    + vm_compute. reflexivity.
    + exact Hread.
    + apply elem_of_nil in Hin. destruct Hin.
    + discriminate Hframes.
  - destruct (proj1 (page_fails_on_load_or_table (P:=example_pandasai)
                       (example_inputs Holdings (Submit "headonly")) (start 0))
                (LibraryError "StreamlitAPIException"
                   "Unable to convert object to pandas.DataFrame"))
      as [[_ (p & _ & Hread)]|[(msg & df & Hin & _)|(h & t & p & Hf & Hp & _ & He)]].
    + vm_compute. reflexivity.
    + destruct (String.eqb p "data/trades.csv"); discriminate Hread.
    + apply elem_of_nil in Hin. destruct Hin.
    + injection Hf as <- <-. injection Hp as <-. exact He.
Defined.

Lemma load_failure_leaves_session_witness :
  (run (P:=example_pandasai_no_trades)
     (example_inputs Holdings (Submit "hi")) (start 0)).1
  = Fail (FileNotFoundError "data/trades.csv").
Proof.
  exact (proj1 (load_failure_leaves_session (P:=example_pandasai_no_trades)
                  (example_inputs Holdings (Submit "hi")) (start 0)
                  (FileNotFoundError "data/trades.csv")
                  (example_inputs_present _ _) example_no_trades_frames)).
Defined.

(** A second question in the same session. *)
Lemma caches_fill_once_witness :
  let w1 := (run (P:=example_pandasai)
               (example_inputs Holdings (Submit "hi")) (start 0)).2 in
  calls (run (P:=example_pandasai)
           (example_inputs Trades (Submit "again")) w1).2
  = chat_calls (calls (run (P:=example_pandasai)
                         (example_inputs Trades (Submit "again")) w1).2).
Proof.
  intros w1.
  exact (proj1 (proj2 (proj2 (proj2
           (caches_fill_once (P:=example_pandasai)
              (example_inputs Holdings (Submit "hi"))
              (example_inputs Trades (Submit "again")) (start 0)
              {| path := "data/holdings.csv" |}
              {| path := "data/trades.csv" |}
              (example_inputs_present _ _) (example_inputs_present _ _)
              eq_refl))))).
Defined.



(** A refresh sends nothing and leaves the model alone. *)
Lemma at_most_one_question_witness :
  service (interact (P:=example_pandasai)
             (example_inputs Holdings Refresh) (start 0)).2 = 0%nat.
Proof.
  apply (proj1 (proj2 (proj2 (at_most_one_question (P:=example_pandasai)
                                (example_inputs Holdings Refresh) (start 0))))).
  vm_compute. reflexivity.
Defined.

End AppFacts.
